(** * Authentication and session-token core of the e-commerce auth service

    Shallow embedding of
    - [services/auth/src/services/jwt.service.ts]  (JWTService),
    - the user schema and its methods (user.model.ts),
    - the auth and user controllers (auth.controller.ts, user.controller.ts),
    - the authorization guard (auth.middleware.ts),
    - the jwt part of [config].

    The document store is a list of user documents, the cache is a finite
    map from keys to entries carrying their time-to-live, and every handler
    is a computation in a state-and-exception monad over both.  The
    libraries the service calls (jsonwebtoken, bcryptjs) are an interface,
    [Platform]; [jwt_sign], [jwt_verify] and [jwt_decode] spell out what
    jsonwebtoken does around the compact serialisation. *)

From Stdlib Require Import ZArith String Ascii List Lia Bool DecimalString.
From stdpp Require Import base option strings gmap list.

Local Set Warnings "-register-all".
Local Open Scope string_scope.
Local Open Scope Z_scope.

(* ===================================================================== *)
(** ** JavaScript strings *)
(* ===================================================================== *)

(** [s.startsWith(p)] *)
Definition startsWith (p s : string) : bool := String.prefix p s.

(** [s.split(sep)] for a separator of one character: the pieces between
    the occurrences of [sep]; always at least one piece. *)
Fixpoint split (sep : ascii) (s : string) : list string :=
  match s with
  | EmptyString => [EmptyString]
  | String c s' =>
      if Ascii.eqb c sep then EmptyString :: split sep s'
      else match split sep s' with
           | [] => [String c EmptyString]
           | w :: ws => String c w :: ws
           end
  end.

(** Truthiness of a value that is a string or [undefined]. *)
Definition truthy (o : option string) : bool :=
  match o with
  | Some s => negb (String.eqb s "")
  | None => false
  end.

(* ===================================================================== *)
(** ** JSON values (response bodies) *)
(* ===================================================================== *)

Inductive JSON : Type :=
| JNull
| JBool (b : bool)
| JNum (n : Z)
| JStr (s : string)
| JArr (items : list JSON)
| JObj (fields : list (string * JSON)).

(** [o[k]] *)
Fixpoint js_get (k : string) (o : list (string * JSON)) : option JSON :=
  match o with
  | [] => None
  | (k', v) :: o' => if String.eqb k k' then Some v else js_get k o'
  end.

(** [delete o[k]] *)
Fixpoint js_delete (k : string) (o : list (string * JSON)) : list (string * JSON) :=
  match o with
  | [] => []
  | (k', v) :: o' =>
      if String.eqb k k' then js_delete k o' else (k', v) :: js_delete k o'
  end.

(** A property that is left out when its value is [undefined]. *)
Definition js_opt (k : string) (v : option JSON) : list (string * JSON) :=
  match v with
  | Some j => [(k, j)]
  | None => []
  end.

Definition obj_get (k : string) (j : JSON) : option JSON :=
  match j with
  | JObj o => js_get k o
  | _ => None
  end.

(* ===================================================================== *)
(** ** Errors (error.middleware.ts) *)
(* ===================================================================== *)

Record AppError := {
  message : string;
  statusCode : Z;
  code : string;
}.

(** What a handler can throw: an [AppError], or any other [Error],
    identified by its [name]: one with a [message] only, or one that also
    carries a [statusCode] or [details] (either may be [undefined]). *)
Inductive Exn : Type :=
| AppErr (e : AppError)
| JsError (name msg : string)
| JsErrorWith (name msg : string) (statusCode : option Z) (details : option JSON).

Inductive outcome (A : Type) : Type :=
| Returned (a : A)
| Thrown (e : Exn).
Arguments Returned {A} a.
Arguments Thrown {A} e.

Definition NO_TOKEN : AppError :=
  {| message := "No token provided"; statusCode := 401; code := "NO_TOKEN" |}.
Definition TOKEN_REVOKED : AppError :=
  {| message := "Token has been revoked"; statusCode := 401; code := "TOKEN_REVOKED" |}.
Definition INVALID_TOKEN_401 : AppError :=
  {| message := "Invalid or expired token"; statusCode := 401; code := "INVALID_TOKEN" |}.
Definition AUTH_REQUIRED : AppError :=
  {| message := "Authentication required"; statusCode := 401; code := "AUTH_REQUIRED" |}.
Definition FORBIDDEN : AppError :=
  {| message := "Insufficient permissions"; statusCode := 403; code := "FORBIDDEN" |}.
Definition INVALID_CREDENTIALS : AppError :=
  {| message := "Invalid credentials"; statusCode := 401; code := "INVALID_CREDENTIALS" |}.
Definition ACCOUNT_DEACTIVATED : AppError :=
  {| message := "Account is deactivated"; statusCode := 403; code := "ACCOUNT_DEACTIVATED" |}.
Definition INVALID_REFRESH_TOKEN : AppError :=
  {| message := "Invalid refresh token"; statusCode := 401; code := "INVALID_REFRESH_TOKEN" |}.
Definition USER_NOT_FOUND_INACTIVE : AppError :=
  {| message := "User not found or inactive"; statusCode := 404; code := "USER_NOT_FOUND" |}.
Definition USER_NOT_FOUND : AppError :=
  {| message := "User not found"; statusCode := 404; code := "USER_NOT_FOUND" |}.
Definition INVALID_RESET_TOKEN : AppError :=
  {| message := "Invalid or expired reset token"; statusCode := 400; code := "INVALID_TOKEN" |}.

(* ===================================================================== *)
(** ** Configuration (config/index.ts, the jwt part) *)
(* ===================================================================== *)

(** A time span as jsonwebtoken accepts it for [expiresIn]: ['15m'],
    ['7d'], ... *)
Inductive Timespan : Type :=
| Seconds (n : Z)
| Minutes (n : Z)
| Hours (n : Z)
| Days (n : Z).

Definition timespan_seconds (t : Timespan) : Z :=
  match t with
  | Seconds n => n
  | Minutes n => n * 60
  | Hours n => n * 60 * 60
  | Days n => n * 24 * 60 * 60
  end.

Record JwtConfig := {
  secret : string;
  refreshSecret : string;
  expiresIn : Timespan;
  refreshExpiresIn : Timespan;
}.

Record Config := {
  NODE_ENV : option string;      (* process.env.NODE_ENV *)
  jwt : JwtConfig;
}.

(** The values [config.jwt] takes when the environment sets none. *)
Definition default_jwt : JwtConfig :=
  {| secret := "your-secret-key";
     refreshSecret := "your-refresh-secret-key";
     expiresIn := Minutes 15;
     refreshExpiresIn := Days 7 |}.

(* ===================================================================== *)
(** ** Tokens: claims and the libraries behind them *)
(* ===================================================================== *)

Module Jwt.

(** The payload of a token.  Every token the service signs carries
    [userId]; access tokens add [email] and [role], refresh tokens add
    [type]; jsonwebtoken adds [iat], [exp], [iss] and [aud]. *)
Record Claims := {
  userId : string;
  email : option string;
  role : option string;
  type : option string;
  iat : option Z;
  exp : option Z;
  iss : option string;
  aud : option string;
}.

Record SignOptions := {
  expiresIn : Timespan;
  issuer : option string;
  audience : option string;
}.

Record VerifyOptions := {
  v_issuer : option string;
  v_audience : option string;
}.

End Jwt.

(** The libraries the service sits on.
    - [jws_encode secret claims]: the compact serialisation of [claims]
      with its signature under [secret];
    - [jws_decode token]: the payload of a token, signature unchecked
      ([None] when the string is no token);
    - [jws_check secret token]: whether the signature of [token] is the one
      [secret] yields;
    - [bcrypt_hash plaintext salt] and [bcrypt_compare candidate hash];
    - [trim s], [toLowerCase s] and [String_length s]:
      [String.prototype.trim], [String.prototype.toLowerCase] and [s.length]
      of the JavaScript runtime, which go by the Unicode tables (white
      space, case mapping) and count UTF-16 code units;
    - [castObjectId s]: mongoose's cast of a string to an ObjectId, given
      by the hex form ([toString()]) of the ObjectId; [None] when the
      string is no ObjectId, where mongoose throws CastError. *)
Class Platform := {
  jws_encode : string -> Jwt.Claims -> string;
  jws_decode : string -> option Jwt.Claims;
  jws_check : string -> string -> bool;
  bcrypt_hash : string -> string -> string;
  bcrypt_compare : string -> string -> bool;
  trim : string -> string;
  toLowerCase : string -> string;
  String_length : string -> nat;
  castObjectId : string -> option string;
}.

(** What one request reads from its surroundings: the clock ([Date.now()],
    milliseconds), the salt [bcrypt.genSalt] yields, and the two strings
    [Math.random().toString(36).substring(2, 15)] yields. *)
Record Env := {
  Date_now : Z;
  genSalt : string;
  random1 : string;
  random2 : string;
}.

(** [Math.floor(Date.now() / 1000)] *)
Definition clock_seconds (E : Env) : Z := Date_now E / 1000.

(* ===================================================================== *)
(** ** The user document (user.model.ts) *)
(* ===================================================================== *)

Inductive Role : Type := customer | admin | vendor.

Definition role_string (r : Role) : string :=
  match r with
  | customer => "customer"
  | admin => "admin"
  | vendor => "vendor"
  end.

Record RefreshTokenEntry := {
  rt_token : string;
  rt_createdAt : Z;
  rt_expiresAt : Z;
}.

Record IUser := {
  _id : string;
  email : string;
  password : string;
  firstName : string;
  lastName : string;
  role : Role;
  isActive : bool;
  isEmailVerified : bool;
  emailVerificationToken : option string;
  passwordResetToken : option string;
  passwordResetExpires : option Z;
  lastLogin : option Z;
  refreshTokens : list RefreshTokenEntry;
  createdAt : Z;
  updatedAt : Z;
  __v : Z;
}.

#[global] Instance Role_eq_dec : EqDecision Role.
Proof. solve_decision. Defined.
#[global] Instance RefreshTokenEntry_eq_dec : EqDecision RefreshTokenEntry.
Proof. solve_decision. Defined.
#[global] Instance IUser_eq_dec : EqDecision IUser.
Proof. solve_decision. Defined.

(** Field assignments [user.f = v]. *)
Definition with_password (v : string) (u : IUser) : IUser :=
  {| _id := _id u; email := email u; password := v;
     firstName := firstName u; lastName := lastName u; role := role u;
     isActive := isActive u; isEmailVerified := isEmailVerified u;
     emailVerificationToken := emailVerificationToken u;
     passwordResetToken := passwordResetToken u;
     passwordResetExpires := passwordResetExpires u;
     lastLogin := lastLogin u; refreshTokens := refreshTokens u;
     createdAt := createdAt u; updatedAt := updatedAt u; __v := __v u |}.

Definition with_firstName (v : string) (u : IUser) : IUser :=
  {| _id := _id u; email := email u; password := password u;
     firstName := v; lastName := lastName u; role := role u;
     isActive := isActive u; isEmailVerified := isEmailVerified u;
     emailVerificationToken := emailVerificationToken u;
     passwordResetToken := passwordResetToken u;
     passwordResetExpires := passwordResetExpires u;
     lastLogin := lastLogin u; refreshTokens := refreshTokens u;
     createdAt := createdAt u; updatedAt := updatedAt u; __v := __v u |}.

Definition with_lastName (v : string) (u : IUser) : IUser :=
  {| _id := _id u; email := email u; password := password u;
     firstName := firstName u; lastName := v; role := role u;
     isActive := isActive u; isEmailVerified := isEmailVerified u;
     emailVerificationToken := emailVerificationToken u;
     passwordResetToken := passwordResetToken u;
     passwordResetExpires := passwordResetExpires u;
     lastLogin := lastLogin u; refreshTokens := refreshTokens u;
     createdAt := createdAt u; updatedAt := updatedAt u; __v := __v u |}.

Definition with_passwordResetToken (v : option string) (u : IUser) : IUser :=
  {| _id := _id u; email := email u; password := password u;
     firstName := firstName u; lastName := lastName u; role := role u;
     isActive := isActive u; isEmailVerified := isEmailVerified u;
     emailVerificationToken := emailVerificationToken u;
     passwordResetToken := v;
     passwordResetExpires := passwordResetExpires u;
     lastLogin := lastLogin u; refreshTokens := refreshTokens u;
     createdAt := createdAt u; updatedAt := updatedAt u; __v := __v u |}.

Definition with_passwordResetExpires (v : option Z) (u : IUser) : IUser :=
  {| _id := _id u; email := email u; password := password u;
     firstName := firstName u; lastName := lastName u; role := role u;
     isActive := isActive u; isEmailVerified := isEmailVerified u;
     emailVerificationToken := emailVerificationToken u;
     passwordResetToken := passwordResetToken u;
     passwordResetExpires := v;
     lastLogin := lastLogin u; refreshTokens := refreshTokens u;
     createdAt := createdAt u; updatedAt := updatedAt u; __v := __v u |}.

Definition with_lastLogin (v : option Z) (u : IUser) : IUser :=
  {| _id := _id u; email := email u; password := password u;
     firstName := firstName u; lastName := lastName u; role := role u;
     isActive := isActive u; isEmailVerified := isEmailVerified u;
     emailVerificationToken := emailVerificationToken u;
     passwordResetToken := passwordResetToken u;
     passwordResetExpires := passwordResetExpires u;
     lastLogin := v; refreshTokens := refreshTokens u;
     createdAt := createdAt u; updatedAt := updatedAt u; __v := __v u |}.

Definition with_updatedAt (v : Z) (u : IUser) : IUser :=
  {| _id := _id u; email := email u; password := password u;
     firstName := firstName u; lastName := lastName u; role := role u;
     isActive := isActive u; isEmailVerified := isEmailVerified u;
     emailVerificationToken := emailVerificationToken u;
     passwordResetToken := passwordResetToken u;
     passwordResetExpires := passwordResetExpires u;
     lastLogin := lastLogin u; refreshTokens := refreshTokens u;
     createdAt := createdAt u; updatedAt := v; __v := __v u |}.

(** The schema's setters: [firstName] and [lastName] are declared
    [trim: true], so an assignment stores the trimmed string. *)
Definition assign_firstName `{P : Platform} (v : string) (u : IUser) : IUser :=
  with_firstName (trim v) u.
Definition assign_lastName `{P : Platform} (v : string) (u : IUser) : IUser :=
  with_lastName (trim v) u.

(* ===================================================================== *)
(** ** The cache (ioredis) and the document store (mongoose) *)
(* ===================================================================== *)

(** A key set with [SETEX key seconds value] at [set_at] (milliseconds). *)
Record Entry := {
  value : string;
  set_at : Z;
  ttl : Z;
}.

(** The key has not expired at [now] (milliseconds). *)
Definition live (now : Z) (e : Entry) : bool :=
  now <? set_at e + ttl e * 1000.

Record World := {
  users : list IUser;
  redis : gmap string Entry;
}.

Definition store_get (now : Z) (r : gmap string Entry) (key : string) : option string :=
  match r !! key with
  | Some e => if live now e then Some (value e) else None
  | None => None
  end.

(** Handlers: the world is threaded through, and an exception keeps the
    writes made before it was thrown. *)
Definition M (A : Type) : Type := World -> outcome A * World.

Definition ret {A : Type} (a : A) : M A := fun w => (Returned a, w).

Definition throw {A : Type} (e : Exn) : M A := fun w => (Thrown e, w).

Definition bind {A B : Type} (m : M A) (k : A -> M B) : M B :=
  fun w =>
    match m w with
    | (Returned a, w') => k a w'
    | (Thrown e, w') => (Thrown e, w')
    end.

(** [try { m } catch (error) { handler(error) }] *)
Definition try_catch {A : Type} (m : M A) (handler : Exn -> M A) : M A :=
  fun w =>
    match m w with
    | (Thrown e, w') => handler e w'
    | r => r
    end.

Declare Scope handler_scope.
Delimit Scope handler_scope with handler.
Notation "x <- m ;; k" := (bind m (fun x => k))
  (at level 100, m at next level, right associativity) : handler_scope.
Notation "m ;;; k" := (bind m (fun _ => k))
  (at level 100, right associativity) : handler_scope.
Local Open Scope handler_scope.

Definition redis_get (E : Env) (key : string) : M (option string) :=
  fun w => (Returned (store_get (Date_now E) (redis w) key), w).

Definition redis_setex (E : Env) (key : string) (seconds : Z) (v : string) : M unit :=
  fun w =>
    (Returned tt,
     {| users := users w;
        redis := <[key := {| value := v; set_at := Date_now E; ttl := seconds |}]> (redis w) |}).

Definition redis_del (key : string) : M unit :=
  fun w => (Returned tt, {| users := users w; redis := delete key (redis w) |}).

(** [User.findOne(filter)]: the first document the filter accepts. *)
Definition User_findOne (filter : IUser -> bool) : M (option IUser) :=
  fun w => (Returned (List.find filter (users w)), w).

(** [User.findById(id)], for an [id] that is the hex form of an ObjectId, as
    the [_id] of a stored document, the [userId] claim signed from it and
    the registry value written from it are. *)
Definition User_findById (id : string) : M (option IUser) :=
  User_findOne (fun u => String.eqb (_id u) id).

Definition CAST_ERROR : Exn :=
  JsError "CastError" "Cast to ObjectId failed".

(** [User.findById(id)] for a string taken from the request path: mongoose
    casts it to an ObjectId first and throws CastError when it is none.  A
    stored [_id] is the hex form of an ObjectId and casts to itself, so a
    string that is a stored identifier finds its document; any other string
    is looked up by the hex form of the ObjectId it casts to. *)
Definition User_findById_cast `{P : Platform} (id : string) : M (option IUser) :=
  fun w =>
    match List.find (fun u => String.eqb (_id u) id) (users w) with
    | Some u => (Returned (Some u), w)
    | None =>
        match castObjectId id with
        | Some oid => User_findById oid w
        | None => (Thrown CAST_ERROR, w)
        end
    end.

(** Every stored [_id] is the hex form of an ObjectId. *)
Definition stored_ids_cast `{P : Platform} (w : World) : Prop :=
  forall u : IUser, u ∈ users w -> castObjectId (_id u) = Some (_id u).

(** The stored document with the identifier of [u] is replaced by [u]. *)
Fixpoint store_replace (u : IUser) (l : list IUser) : list IUser :=
  match l with
  | [] => []
  | x :: l' =>
      if String.eqb (_id x) (_id u) then u :: l' else x :: store_replace u l'
  end.

(* ===================================================================== *)
(** ** Requests and responses (koa) *)
(* ===================================================================== *)

(** The parts of the koa context the handlers read:
    [ctx.headers.authorization] and [ctx.user]. *)
Record Context := {
  authorization : option string;
  user : option Jwt.Claims;
}.

Definition with_user (decoded : Jwt.Claims) (ctx : Context) : Context :=
  {| authorization := authorization ctx; user := Some decoded |}.

(** [ctx.status] and [ctx.body]; a handler that sets only the body
    answers 200. *)
Record Response := {
  status : Z;
  body : JSON;
}.

Module TokenPair.
Record t := {
  accessToken : string;
  refreshToken : string;
}.
End TokenPair.

Definition tokens_json (p : TokenPair.t) : JSON :=
  JObj [("accessToken", JStr (TokenPair.accessToken p));
        ("refreshToken", JStr (TokenPair.refreshToken p))].

Definition generic_reset_message : string :=
  "If the email exists, a reset link has been sent".

Section Service.

Context {P : Platform} (cfg : Config).

(* --------------------------------------------------------------------- *)
(** *** jsonwebtoken *)
(* --------------------------------------------------------------------- *)

(** The claims [jwt.sign(payload, secret, options)] signs: the payload,
    [iat] set to the clock in seconds, [exp] set to [iat] plus the span
    of [expiresIn], [iss] and [aud] as the options give them. *)
Definition jwt_claims (E : Env) (payload : Jwt.Claims) (o : Jwt.SignOptions) : Jwt.Claims :=
  let timestamp := clock_seconds E in
  {| Jwt.userId := Jwt.userId payload;
     Jwt.email := Jwt.email payload;
     Jwt.role := Jwt.role payload;
     Jwt.type := Jwt.type payload;
     Jwt.iat := Some timestamp;
     Jwt.exp := Some (timestamp + timespan_seconds (Jwt.expiresIn o));
     Jwt.iss := Jwt.issuer o;
     Jwt.aud := Jwt.audience o |}.

Definition jwt_sign (E : Env) (payload : Jwt.Claims) (secretOrKey : string)
    (o : Jwt.SignOptions) : string :=
  jws_encode secretOrKey (jwt_claims E payload o).

(** [jwt.verify(token, secret, options)]: [None] stands for the error it
    throws (malformed token, wrong signature, [exp] reached, audience or
    issuer other than the one asked for). *)
Definition jwt_verify (E : Env) (token secretOrKey : string)
    (o : Jwt.VerifyOptions) : option Jwt.Claims :=
  match jws_decode token with
  | None => None
  | Some c =>
      if negb (jws_check secretOrKey token) then None
      else if match Jwt.exp c with
              | Some e => e <=? clock_seconds E
              | None => false
              end then None
      else if match Jwt.v_audience o with
              | Some a => negb (bool_decide (Jwt.aud c = Some a))
              | None => false
              end then None
      else if match Jwt.v_issuer o with
              | Some i => negb (bool_decide (Jwt.iss c = Some i))
              | None => false
              end then None
      else Some c
  end.

(** [jwt.decode(token)]: the payload, nothing checked. *)
Definition jwt_decode (token : string) : option Jwt.Claims := jws_decode token.

(* --------------------------------------------------------------------- *)
(** *** JWTService (jwt.service.ts) *)
(* --------------------------------------------------------------------- *)

Definition BLACKLIST_PREFIX : string := "blacklist:".
Definition TOKEN_PREFIX : string := "token:".

Definition access_payload (user : IUser) : Jwt.Claims :=
  {| Jwt.userId := _id user;
     Jwt.email := Some (email user);
     Jwt.role := Some (role_string (role user));
     Jwt.type := None;
     Jwt.iat := None; Jwt.exp := None; Jwt.iss := None; Jwt.aud := None |}.

Definition refresh_payload (user : IUser) : Jwt.Claims :=
  {| Jwt.userId := _id user;
     Jwt.email := None;
     Jwt.role := None;
     Jwt.type := Some "refresh";
     Jwt.iat := None; Jwt.exp := None; Jwt.iss := None; Jwt.aud := None |}.

Definition access_options : Jwt.SignOptions :=
  {| Jwt.expiresIn := expiresIn (jwt cfg);
     Jwt.issuer := Some "ecommerce-auth";
     Jwt.audience := Some "ecommerce-platform" |}.

Definition refresh_options : Jwt.SignOptions :=
  {| Jwt.expiresIn := refreshExpiresIn (jwt cfg);
     Jwt.issuer := Some "ecommerce-auth";
     Jwt.audience := None |}.

Definition generateAccessToken (E : Env) (user : IUser) : string :=
  jwt_sign E (access_payload user) (secret (jwt cfg)) access_options.

Definition generateRefreshToken (E : Env) (user : IUser) : string :=
  jwt_sign E (refresh_payload user) (refreshSecret (jwt cfg)) refresh_options.

Definition generateTokenPair (E : Env) (user : IUser) : M TokenPair.t :=
  let accessToken := generateAccessToken E user in
  let refreshToken := generateRefreshToken E user in
  redis_setex E (TOKEN_PREFIX +:+ refreshToken) (7 * 24 * 60 * 60) (_id user) ;;;
  ret {| TokenPair.accessToken := accessToken;
         TokenPair.refreshToken := refreshToken |}.

Definition verifyAccessToken (E : Env) (token : string) : M Jwt.Claims :=
  match jwt_verify E token (secret (jwt cfg))
          {| Jwt.v_issuer := Some "ecommerce-auth";
             Jwt.v_audience := Some "ecommerce-platform" |} with
  | Some decoded => ret decoded
  | None => throw (JsError "Error" "Invalid or expired token")
  end.

Definition verifyRefreshToken (E : Env) (token : string) : M Jwt.Claims :=
  match jwt_verify E token (refreshSecret (jwt cfg))
          {| Jwt.v_issuer := Some "ecommerce-auth";
             Jwt.v_audience := None |} with
  | Some decoded => ret decoded
  | None => throw (JsError "Error" "Invalid or expired refresh token")
  end.

(** [decoded && decoded.exp] holds for a payload whose [exp] is a number
    other than 0. *)
Definition blacklistToken (E : Env) (token : string) : M unit :=
  match jwt_decode token with
  | Some decoded =>
      match Jwt.exp decoded with
      | Some exp =>
          if exp =? 0 then ret tt
          else
            let ttl := exp - clock_seconds E in
            if 0 <? ttl
            then redis_setex E (BLACKLIST_PREFIX +:+ token) ttl "1"
            else ret tt
      | None => ret tt
      end
  | None => ret tt
  end.

Definition isTokenBlacklisted (E : Env) (token : string) : M bool :=
  result <- redis_get E (BLACKLIST_PREFIX +:+ token) ;;
  ret (bool_decide (result = Some "1")).

Definition invalidateRefreshToken (token : string) : M unit :=
  redis_del (TOKEN_PREFIX +:+ token).

Definition validateRefreshToken (E : Env) (token : string) : M (option string) :=
  redis_get E (TOKEN_PREFIX +:+ token).

(* --------------------------------------------------------------------- *)
(** *** The user schema: hooks and methods (user.model.ts) *)
(* --------------------------------------------------------------------- *)

(** The validators of the paths a loaded document can have modified here:
    [firstName] and [lastName] are [required], [password] is [required]
    with [minlength: 6].  The result names the first path that fails. *)
Definition validation_error (orig cur : IUser) : option string :=
  if negb (bool_decide (firstName orig = firstName cur))
     && String.eqb (firstName cur) ""
  then Some "firstName"
  else if negb (bool_decide (lastName orig = lastName cur))
          && String.eqb (lastName cur) ""
  then Some "lastName"
  else if negb (bool_decide (password orig = password cur))
          && (Z.of_nat (String_length (password cur)) <? 6)
  then Some "password"
  else None.

(** [userSchema.pre('save', ...)]: the password is hashed when it was
    modified, and only then. *)
Definition pre_save (E : Env) (orig cur : IUser) : IUser :=
  if bool_decide (password orig = password cur) then cur
  else with_password (bcrypt_hash (password cur) (genSalt E)) cur.

(** [user.save()] for a document loaded as [orig] and now holding [cur]:
    nothing happens when nothing was modified; otherwise the modified
    paths are validated, the pre-save hook runs, [updatedAt] is set
    ([timestamps: true]) and the stored document is replaced.  The result
    is the document as the handler holds it afterwards. *)
Definition save (E : Env) (orig cur : IUser) : M IUser :=
  if bool_decide (orig = cur) then ret cur
  else
    match validation_error orig cur with
    | Some path => throw (JsError "ValidationError" path)
    | None =>
        let doc := with_updatedAt (Date_now E) (pre_save E orig cur) in
        fun w =>
          (Returned doc,
           {| users := store_replace doc (users w); redis := redis w |})
    end.

Definition comparePassword (candidatePassword : string) (this : IUser) : bool :=
  bcrypt_compare candidatePassword (password this).

Definition generatePasswordResetToken (E : Env) (this : IUser) : string * IUser :=
  let token := random1 E +:+ random2 E in
  (token,
   with_passwordResetExpires (Some (Date_now E + 3600000))
     (with_passwordResetToken (Some token) this)).

Definition refreshTokens_json (l : list RefreshTokenEntry) : JSON :=
  JArr (List.map (fun e =>
          JObj [("token", JStr (rt_token e));
                ("createdAt", JNum (rt_createdAt e));
                ("expiresAt", JNum (rt_expiresAt e))]) l).

(** The plain object of a document: a path whose value is [undefined] is
    left out. *)
Definition toObject (u : IUser) : list (string * JSON) :=
  [("_id", JStr (_id u));
   ("email", JStr (email u));
   ("password", JStr (password u));
   ("firstName", JStr (firstName u));
   ("lastName", JStr (lastName u));
   ("role", JStr (role_string (role u)));
   ("isActive", JBool (isActive u));
   ("isEmailVerified", JBool (isEmailVerified u))]
  ++ js_opt "emailVerificationToken" (JStr <$> emailVerificationToken u)
  ++ js_opt "passwordResetToken" (JStr <$> passwordResetToken u)
  ++ js_opt "passwordResetExpires" (JNum <$> passwordResetExpires u)
  ++ js_opt "lastLogin" (JNum <$> lastLogin u)
  ++ [("refreshTokens", refreshTokens_json (refreshTokens u));
      ("createdAt", JNum (createdAt u));
      ("updatedAt", JNum (updatedAt u));
      ("__v", JNum (__v u))].

(** The [toJSON] transform of the schema. *)
Definition toJSON_transform (ret : list (string * JSON)) : list (string * JSON) :=
  let ret := js_delete "password" ret in
  let ret := js_delete "refreshTokens" ret in
  let ret := js_delete "emailVerificationToken" ret in
  let ret := js_delete "passwordResetToken" ret in
  let ret := js_delete "__v" ret in
  ret.

Definition toJSON (u : IUser) : JSON := JObj (toJSON_transform (toObject u)).

(* --------------------------------------------------------------------- *)
(** *** AuthController (auth.controller.ts) *)
(* --------------------------------------------------------------------- *)

(** The filter [{ email }]: mongoose casts a query filter through the
    setters of the path, and [email] is declared [lowercase: true, trim:
    true], so the stored address is compared with the trimmed, lower-cased
    request value. *)
Definition by_email (body_email : string) (u : IUser) : bool :=
  String.eqb (email u) (toLowerCase (trim body_email)).

Definition login (E : Env) (body_email body_password : string) : M Response :=
  found <- User_findOne (by_email body_email) ;;
  match found with
  | None => throw (AppErr INVALID_CREDENTIALS)
  | Some user =>
      if negb (comparePassword body_password user)
      then throw (AppErr INVALID_CREDENTIALS)
      else if negb (isActive user)
      then throw (AppErr ACCOUNT_DEACTIVATED)
      else
        user' <- save E user (with_lastLogin (Some (Date_now E)) user) ;;
        tokens <- generateTokenPair E user' ;;
        ret {| status := 200;
               body := JObj [("success", JBool true);
                             ("message", JStr "Login successful");
                             ("data", JObj [("user", toJSON user');
                                            ("tokens", tokens_json tokens)])] |}
  end.

Definition refresh_response (tokens : TokenPair.t) : Response :=
  {| status := 200;
     body := JObj [("success", JBool true);
                   ("message", JStr "Token refreshed successfully");
                   ("data", JObj [("tokens", tokens_json tokens)])] |}.

Definition refreshToken (E : Env) (body_refreshToken : string) : M Response :=
  decoded <- try_catch (verifyRefreshToken E body_refreshToken)
               (fun _ => throw (AppErr INVALID_REFRESH_TOKEN)) ;;
  userId <- validateRefreshToken E body_refreshToken ;;
  match userId with
  | None => throw (AppErr INVALID_REFRESH_TOKEN)
  | Some userId =>
      if String.eqb userId "" || negb (String.eqb userId (Jwt.userId decoded))
      then throw (AppErr INVALID_REFRESH_TOKEN)
      else
        found <- User_findById userId ;;
        match found with
        | None => throw (AppErr USER_NOT_FOUND_INACTIVE)
        | Some user =>
            if negb (isActive user)
            then throw (AppErr USER_NOT_FOUND_INACTIVE)
            else
              invalidateRefreshToken body_refreshToken ;;;
              tokens <- generateTokenPair E user ;;
              ret (refresh_response tokens)
        end
  end.

Definition logout (E : Env) (ctx : Context) (body_refreshToken : option string) : M Response :=
  match authorization ctx with
  | None => throw (JsError "TypeError" "authHeader is undefined")
  | Some authHeader =>
      let token := nth 1 (split " " authHeader) "" in
      blacklistToken E token ;;;
      (match body_refreshToken with
       | Some t => if truthy (Some t) then invalidateRefreshToken t else ret tt
       | None => ret tt
       end) ;;;
      match user ctx with
      | None => throw (JsError "TypeError" "ctx.user is undefined")
      | Some _ =>
          ret {| status := 200;
                 body := JObj [("success", JBool true);
                               ("message", JStr "Logout successful")] |}
      end
  end.

Definition forgotPassword (E : Env) (body_email : string) : M Response :=
  found <- User_findOne (by_email body_email) ;;
  match found with
  | None =>
      ret {| status := 200;
             body := JObj [("success", JBool true);
                           ("message", JStr generic_reset_message)] |}
  | Some user =>
      let '(resetToken, user') := generatePasswordResetToken E user in
      save E user user' ;;;
      ret {| status := 200;
             body := JObj ([("success", JBool true);
                            ("message", JStr generic_reset_message)]
                           ++ (if bool_decide (NODE_ENV cfg = Some "development")
                               then [("resetToken", JStr resetToken)]
                               else [])) |}
  end.

(** The filter [{ passwordResetToken: token,
                  passwordResetExpires: { $gt: Date.now() } }]. *)
Definition reset_filter (E : Env) (token : string) (u : IUser) : bool :=
  bool_decide (passwordResetToken u = Some token)
  && match passwordResetExpires u with
     | Some t => Date_now E <? t
     | None => false
     end.

(** In words: [u] holds [token] and its expiry lies strictly after the
    clock. *)
Definition holds_reset_token (E : Env) (token : string) (u : IUser) : Prop :=
  passwordResetToken u = Some token
  /\ exists t : Z, passwordResetExpires u = Some t /\ Date_now E < t.

Definition reset_response : Response :=
  {| status := 200;
     body := JObj [("success", JBool true);
                   ("message", JStr "Password reset successful")] |}.

(** [user.password = password; user.passwordResetToken = undefined;
    user.passwordResetExpires = undefined] *)
Definition reset_doc (body_password : string) (user : IUser) : IUser :=
  with_passwordResetExpires None
    (with_passwordResetToken None (with_password body_password user)).

Definition resetPassword (E : Env) (body_token body_password : string) : M Response :=
  found <- User_findOne (reset_filter E body_token) ;;
  match found with
  | None => throw (AppErr INVALID_RESET_TOKEN)
  | Some user =>
      save E user (reset_doc body_password user) ;;;
      ret reset_response
  end.

(* --------------------------------------------------------------------- *)
(** *** UserController (user.controller.ts) *)
(* --------------------------------------------------------------------- *)

Definition getProfile (ctx : Context) : M Response :=
  match user ctx with
  | None => throw (JsError "TypeError" "ctx.user is undefined")
  | Some decoded =>
      found <- User_findById (Jwt.userId decoded) ;;
      match found with
      | None => throw (AppErr USER_NOT_FOUND)
      | Some user =>
          ret {| status := 200;
                 body := JObj [("success", JBool true);
                               ("data", JObj [("user", toJSON user)])] |}
      end
  end.

Definition updateProfile (E : Env) (ctx : Context)
    (body_firstName body_lastName : option string) : M Response :=
  match user ctx with
  | None => throw (JsError "TypeError" "ctx.user is undefined")
  | Some decoded =>
      found <- User_findById (Jwt.userId decoded) ;;
      match found with
      | None => throw (AppErr USER_NOT_FOUND)
      | Some user =>
          let user1 :=
            match body_firstName with
            | Some v => if truthy (Some v) then assign_firstName v user else user
            | None => user
            end in
          let user2 :=
            match body_lastName with
            | Some v => if truthy (Some v) then assign_lastName v user1 else user1
            | None => user1
            end in
          user' <- save E user user2 ;;
          ret {| status := 200;
                 body := JObj [("success", JBool true);
                               ("message", JStr "Profile updated successfully");
                               ("data", JObj [("user", toJSON user')])] |}
      end
  end.

(* --------------------------------------------------------------------- *)
(** *** The authorization guard (auth.middleware.ts) *)
(* --------------------------------------------------------------------- *)

(** [try { ... } catch (error) { if (error instanceof AppError) throw
    error; throw new AppError(e) }] *)
Definition rethrow_unless_AppError {A : Type} (m : M A) (e : AppError) : M A :=
  try_catch m (fun error =>
    match error with
    | AppErr a => throw (AppErr a)
    | JsError _ _ | JsErrorWith _ _ _ _ => throw (AppErr e)
    end).

Definition authMiddleware {A : Type} (E : Env) (ctx : Context)
    (next : Context -> M A) : M A :=
  match authorization ctx with
  | None => throw (AppErr NO_TOKEN)
  | Some authHeader =>
      if negb (truthy (Some authHeader)) || negb (startsWith "Bearer " authHeader)
      then throw (AppErr NO_TOKEN)
      else
        let token := nth 1 (split " " authHeader) "" in
        rethrow_unless_AppError
          (isBlacklisted <- isTokenBlacklisted E token ;;
           if isBlacklisted : bool
           then throw (AppErr TOKEN_REVOKED)
           else
             decoded <- verifyAccessToken E token ;;
             next (with_user decoded ctx))
          INVALID_TOKEN_401
  end.

Definition requireRole {A : Type} (roles : list string) (ctx : Context)
    (next : Context -> M A) : M A :=
  match user ctx with
  | None => throw (AppErr AUTH_REQUIRED)
  | Some u =>
      if bool_decide (Jwt.role u ∈ (Some <$> roles))
      then next ctx
      else throw (AppErr FORBIDDEN)
  end.

End Service.

(* ===================================================================== *)
(** ** The rest of the service: account handlers, registration, the error
       boundary and the routes *)
(* ===================================================================== *)

Definition INVALID_PASSWORD : AppError :=
  {| message := "Current password is incorrect"; statusCode := 401;
     code := "INVALID_PASSWORD" |}.
Definition INVALID_VERIFICATION_TOKEN : AppError :=
  {| message := "Invalid verification token"; statusCode := 400;
     code := "INVALID_TOKEN" |}.
Definition EMAIL_EXISTS : AppError :=
  {| message := "Email already registered"; statusCode := 400;
     code := "EMAIL_EXISTS" |}.

Definition with_isActive (v : bool) (u : IUser) : IUser :=
  {| _id := _id u; email := email u; password := password u;
     firstName := firstName u; lastName := lastName u; role := role u;
     isActive := v; isEmailVerified := isEmailVerified u;
     emailVerificationToken := emailVerificationToken u;
     passwordResetToken := passwordResetToken u;
     passwordResetExpires := passwordResetExpires u;
     lastLogin := lastLogin u; refreshTokens := refreshTokens u;
     createdAt := createdAt u; updatedAt := updatedAt u; __v := __v u |}.

Definition with_isEmailVerified (v : bool) (u : IUser) : IUser :=
  {| _id := _id u; email := email u; password := password u;
     firstName := firstName u; lastName := lastName u; role := role u;
     isActive := isActive u; isEmailVerified := v;
     emailVerificationToken := emailVerificationToken u;
     passwordResetToken := passwordResetToken u;
     passwordResetExpires := passwordResetExpires u;
     lastLogin := lastLogin u; refreshTokens := refreshTokens u;
     createdAt := createdAt u; updatedAt := updatedAt u; __v := __v u |}.

Definition with_emailVerificationToken (v : option string) (u : IUser) : IUser :=
  {| _id := _id u; email := email u; password := password u;
     firstName := firstName u; lastName := lastName u; role := role u;
     isActive := isActive u; isEmailVerified := isEmailVerified u;
     emailVerificationToken := v;
     passwordResetToken := passwordResetToken u;
     passwordResetExpires := passwordResetExpires u;
     lastLogin := lastLogin u; refreshTokens := refreshTokens u;
     createdAt := createdAt u; updatedAt := updatedAt u; __v := __v u |}.

(** The schema's [enum] for [role]. *)
Definition parse_role (s : string) : option Role :=
  if String.eqb s "customer" then Some customer
  else if String.eqb s "admin" then Some admin
  else if String.eqb s "vendor" then Some vendor
  else None.

(** [user.deleteOne()]: the stored document with that identifier goes. *)
Fixpoint store_remove (id : string) (l : list IUser) : list IUser :=
  match l with
  | [] => []
  | x :: l' => if String.eqb (_id x) id then l' else x :: store_remove id l'
  end.

(** [config.env] and koa's [app.env]: [process.env.NODE_ENV ||
    'development']. *)
Definition config_env (cfg : Config) : string :=
  match NODE_ENV cfg with
  | Some s => if String.eqb s "" then "development" else s
  | None => "development"
  end.

Section Accounts.

Context {P : Platform} (cfg : Config).

(* --------------------------------------------------------------------- *)
(** *** AuthController, continued *)
(* --------------------------------------------------------------------- *)

(** What [new User({...})] followed by [user.save()] stores.  The setters
    of the schema have run on the fields ([email] lower-cased and trimmed,
    the names trimmed); every path is validated ([required], [minlength],
    [enum]); the password is hashed; both timestamps are the clock; the
    unique indexes on [_id] and [email] refuse a duplicate. *)
Definition create_user (E : Env) (new_id email_ password_ firstName_ lastName_ role_ : string)
    (verification : option string) : M IUser :=
  if String.eqb email_ "" then throw (JsError "ValidationError" "email")
  else if Z.of_nat (String_length password_) <? 6
  then throw (JsError "ValidationError" "password")
  else if String.eqb firstName_ "" then throw (JsError "ValidationError" "firstName")
  else if String.eqb lastName_ "" then throw (JsError "ValidationError" "lastName")
  else
    match parse_role role_ with
    | None => throw (JsError "ValidationError" "role")
    | Some r =>
        let doc :=
          {| _id := new_id; email := email_;
             password := bcrypt_hash password_ (genSalt E);
             firstName := firstName_; lastName := lastName_; role := r;
             isActive := true; isEmailVerified := false;
             emailVerificationToken := verification;
             passwordResetToken := None; passwordResetExpires := None;
             lastLogin := None; refreshTokens := [];
             createdAt := Date_now E; updatedAt := Date_now E; __v := 0 |} in
        fun w =>
          if List.existsb (fun x => String.eqb (_id x) new_id
                                    || String.eqb (email x) email_) (users w)
          then (Thrown (JsError "MongoServerError" "E11000 duplicate key error"), w)
          else (Returned doc, {| users := users w ++ [doc]; redis := redis w |})
    end.

(** [new_id] is the identifier the driver gives the new document. *)
Definition register (E : Env) (new_id : string)
    (body_email body_password body_firstName body_lastName : string)
    (body_role : option string) : M Response :=
  existingUser <- User_findOne (by_email body_email) ;;
  match existingUser with
  | Some _ => throw (AppErr EMAIL_EXISTS)
  | None =>
      user <- create_user E new_id
                (toLowerCase (trim body_email)) body_password
                (trim body_firstName) (trim body_lastName)
                (match body_role with
                 | Some r => if truthy (Some r) then r else "customer"
                 | None => "customer"
                 end)
                (Some (random1 E)) ;;
      tokens <- generateTokenPair cfg E user ;;
      ret {| status := 201;
             body := JObj [("success", JBool true);
                           ("message",
                            JStr "Registration successful. Please verify your email.");
                           ("data", JObj [("user", toJSON user);
                                          ("tokens", tokens_json tokens)])] |}
  end.

Definition changePassword (E : Env) (ctx : Context)
    (body_currentPassword body_newPassword : string) : M Response :=
  match user ctx with
  | None => throw (JsError "TypeError" "ctx.user is undefined")
  | Some decoded =>
      found <- User_findById (Jwt.userId decoded) ;;
      match found with
      | None => throw (AppErr USER_NOT_FOUND)
      | Some user =>
          if negb (comparePassword body_currentPassword user)
          then throw (AppErr INVALID_PASSWORD)
          else
            save E user (with_password body_newPassword user) ;;;
            ret {| status := 200;
                   body := JObj [("success", JBool true);
                                 ("message", JStr "Password changed successfully")] |}
      end
  end.

Definition verifyEmail (E : Env) (params_token : string) : M Response :=
  found <- User_findOne
             (fun u => bool_decide (emailVerificationToken u = Some params_token)) ;;
  match found with
  | None => throw (AppErr INVALID_VERIFICATION_TOKEN)
  | Some user =>
      save E user
        (with_emailVerificationToken None (with_isEmailVerified true user)) ;;;
      ret {| status := 200;
             body := JObj [("success", JBool true);
                           ("message", JStr "Email verified successfully")] |}
  end.

(* --------------------------------------------------------------------- *)
(** *** UserController, continued *)
(* --------------------------------------------------------------------- *)

Definition deleteAccount (E : Env) (ctx : Context) : M Response :=
  match user ctx with
  | None => throw (JsError "TypeError" "ctx.user is undefined")
  | Some decoded =>
      found <- User_findById (Jwt.userId decoded) ;;
      match found with
      | None => throw (AppErr USER_NOT_FOUND)
      | Some user =>
          save E user (with_isActive false user) ;;;
          ret {| status := 200;
                 body := JObj [("success", JBool true);
                               ("message", JStr "Account deleted successfully")] |}
      end
  end.

(** [User.findById(id).select('-password -refreshTokens')]; the document
    in the body is serialised through [toJSON]. *)
Definition getUserById (params_id : string) : M Response :=
  found <- User_findById_cast params_id ;;
  match found with
  | None => throw (AppErr USER_NOT_FOUND)
  | Some user =>
      ret {| status := 200;
             body := JObj [("success", JBool true);
                           ("data",
                            JObj [("user",
                                   JObj (toJSON_transform
                                           (js_delete "refreshTokens"
                                              (js_delete "password" (toObject user)))))])] |}
  end.

(** For a body whose [isActive] is a boolean. *)
Definition updateUserStatus (E : Env) (params_id : string) (body_isActive : bool)
    : M Response :=
  found <- User_findById_cast params_id ;;
  match found with
  | None => throw (AppErr USER_NOT_FOUND)
  | Some user =>
      user' <- save E user (with_isActive body_isActive user) ;;
      ret {| status := 200;
             body := JObj [("success", JBool true);
                           ("message", JStr "User status updated successfully");
                           ("data", JObj [("user", toJSON user')])] |}
  end.

Definition deleteUser (params_id : string) : M Response :=
  found <- User_findById_cast params_id ;;
  match found with
  | None => throw (AppErr USER_NOT_FOUND)
  | Some user =>
      (fun w => (Returned tt,
                 {| users := store_remove (_id user) (users w); redis := redis w |})) ;;;
      ret {| status := 200;
             body := JObj [("success", JBool true);
                           ("message", JStr "User deleted successfully")] |}
  end.

(* --------------------------------------------------------------------- *)
(** *** The error boundary (error.middleware.ts) *)
(* --------------------------------------------------------------------- *)

(** JavaScript truthiness of a value. *)
Definition json_truthy (v : JSON) : bool :=
  match v with
  | JNull => false
  | JBool b => b
  | JNum n => negb (n =? 0)
  | JStr s => negb (String.eqb s "")
  | JArr _ | JObj _ => true
  end.

(** The response for an error that is no [AppError]: by its [name], then
    [error.statusCode || 500]; [error.details || error.message]. *)
Definition other_error_response (name msg : string) (sc : option Z)
    (details : option JSON) : Response :=
  if String.eqb name "ValidationError"
  then {| status := 400;
          body := JObj [("success", JBool false);
                        ("error", JObj [("message", JStr "Validation error");
                                        ("details",
                                         match details with
                                         | Some d => if json_truthy d then d else JStr msg
                                         | None => JStr msg
                                         end)])] |}
  else if String.eqb name "UnauthorizedError"
  then {| status := 401;
          body := JObj [("success", JBool false);
                        ("error", JObj [("message", JStr "Unauthorized")])] |}
  else {| status := match sc with
                    | Some n => if n =? 0 then 500 else n
                    | None => 500
                    end;
          body := JObj [("success", JBool false);
                        ("error",
                         JObj [("message",
                                JStr (if String.eqb (config_env cfg) "production"
                                      then "Internal server error"
                                      else msg))])] |}.

(** The response [errorMiddleware] writes for what it caught. *)
Definition error_response (error : Exn) : Response :=
  match error with
  | AppErr e =>
      {| status := statusCode e;
         body := JObj [("success", JBool false);
                       ("error", JObj [("message", JStr (message e));
                                       ("code", JStr (code e))])] |}
  | JsError name msg => other_error_response name msg None None
  | JsErrorWith name msg sc details => other_error_response name msg sc details
  end.

Definition errorMiddleware (next : M Response) : M Response :=
  try_catch next (fun error => ret (error_response error)).

(* --------------------------------------------------------------------- *)
(** *** Routes (auth.routes.ts, user.routes.ts) without body validation,
        under the error boundary *)
(* --------------------------------------------------------------------- *)

(** [GET /users/profile] *)
Definition route_getProfile (E : Env) (ctx : Context) : M Response :=
  errorMiddleware (authMiddleware cfg E ctx (fun ctx' => getProfile ctx')).

End Accounts.

(* ===================================================================== *)
(** ** Rate limiting (rateLimit.middleware.ts) *)
(* ===================================================================== *)

Definition RATE_LIMIT_EXCEEDED : AppError :=
  {| message := "Too many requests"; statusCode := 429;
     code := "RATE_LIMIT_EXCEEDED" |}.

(** [config.rateLimit] *)
Definition rateLimit_window : Z := 15 * 60 * 1000.
Definition rateLimit_max : Z := 100.

(** A counter key of Redis: its integer value and, once [EXPIRE] has been
    called on it, the time (milliseconds) at which Redis drops it. *)
Record Counter := {
  count : Z;
  expires_at : option Z;
}.

Definition counter_live (now : Z) (c : Counter) : bool :=
  match expires_at c with
  | Some t => now <? t
  | None => true
  end.

(** What the rate limiter works on: the counters under [rate_limit:] (which
    share no prefix with the [token:] and [blacklist:] keys of the world),
    the response headers set with [ctx.set] (a number stands for its decimal
    form), and the world of the handlers. *)
Record Gateway := {
  limits : gmap string Counter;
  headers : gmap string Z;
  world : World;
}.

Definition G (A : Type) : Type := Gateway -> outcome A * Gateway.

Definition gret {A : Type} (a : A) : G A := fun g => (Returned a, g).

Definition gthrow {A : Type} (e : Exn) : G A := fun g => (Thrown e, g).

Definition gbind {A B : Type} (m : G A) (k : A -> G B) : G B :=
  fun g =>
    match m g with
    | (Returned a, g') => k a g'
    | (Thrown e, g') => (Thrown e, g')
    end.

(** A handler of the world, run below the rate limiter. *)
Definition lift {A : Type} (m : M A) : G A :=
  fun g =>
    let (r, w') := m (world g) in
    (r, {| limits := limits g; headers := headers g; world := w' |}).

(** Whether the two commands the rate limiter sends reach Redis. *)
Record RedisLink := {
  incr_up : bool;
  expire_up : bool;
}.

Definition CONNECTION_CLOSED : Exn := JsError "Error" "Connection is closed.".
Definition INCR_OVERFLOW : Exn :=
  JsError "ReplyError" "ERR increment or decrement would overflow".

(** [INCR key]: a missing or expired key counts from 0 and has no expiry; a
    live one keeps its expiry.  The value is a signed 64-bit integer. *)
Definition INCR (now : Z) (key : string) (l : gmap string Counter)
    : option (Z * gmap string Counter) :=
  let fresh := (1, <[key := {| count := 1; expires_at := None |}]> l) in
  match l !! key with
  | Some c =>
      if counter_live now c
      then if 2 ^ 63 - 1 <? count c + 1 then None
           else Some (count c + 1,
                      <[key := {| count := count c + 1;
                                  expires_at := expires_at c |}]> l)
      else Some fresh
  | None => Some fresh
  end.

(** [EXPIRE key seconds] *)
Definition EXPIRE (now : Z) (key : string) (seconds : Z) (l : gmap string Counter)
    : gmap string Counter :=
  match l !! key with
  | Some c =>
      if counter_live now c
      then <[key := {| count := count c;
                       expires_at := Some (now + seconds * 1000) |}]> l
      else l
  | None => l
  end.

(** [redis.incr(key)] *)
Definition redis_incr (E : Env) (link : RedisLink) (key : string) : G Z :=
  fun g =>
    if incr_up link
    then match INCR (Date_now E) key (limits g) with
         | Some (n, l) =>
             (Returned n, {| limits := l; headers := headers g; world := world g |})
         | None => (Thrown INCR_OVERFLOW, g)
         end
    else (Thrown CONNECTION_CLOSED, g).

(** [redis.expire(key, seconds)] *)
Definition redis_expire (E : Env) (link : RedisLink) (key : string) (seconds : Z)
    : G unit :=
  fun g =>
    if expire_up link
    then (Returned tt,
          {| limits := EXPIRE (Date_now E) key seconds (limits g);
             headers := headers g; world := world g |})
    else (Thrown CONNECTION_CLOSED, g).

(** [ctx.set(name, value)] *)
Definition ctx_set (name : string) (v : Z) : G unit :=
  fun g =>
    (Returned tt,
     {| limits := limits g; headers := <[name := v]> (headers g);
        world := world g |}).

Definition RATE_LIMIT_PREFIX : string := "rate_limit:".

(** What koa-compose answers a middleware that calls [next] again. *)
Definition NEXT_CALLED_TWICE : Exn := JsError "Error" "next() called multiple times".

(** The statements of the [try] block before [await next()]. *)
Definition rateLimit_check (E : Env) (link : RedisLink) (key : string) : G unit :=
  gbind (redis_incr E link key) (fun current =>
  gbind (if current =? 1
         then redis_expire E link key (rateLimit_window / 1000)
         else gret tt) (fun _ =>
  if rateLimit_max <? current
  then gthrow (AppErr RATE_LIMIT_EXCEEDED)
  else
    gbind (ctx_set "X-RateLimit-Limit" rateLimit_max) (fun _ =>
    ctx_set "X-RateLimit-Remaining" (Z.max 0 (rateLimit_max - current))))).

(** [rateLimitMiddleware(ctx, next)], for a request from [ctx.ip]; the
    Redis client has been initialised.  The [catch] block rethrows an
    [AppError] and calls [next()] for anything else: when the error came
    from Redis that is the first call and the handler runs; when it came
    out of [await next()] it is the second call, which koa-compose refuses
    without running the handler again. *)
Definition rateLimitMiddleware {A : Type} (cfg : Config) (E : Env)
    (link : RedisLink) (ip : string) (next : G A) : G A :=
  if String.eqb (config_env cfg) "test" then next
  else
    fun g =>
      match rateLimit_check E link (RATE_LIMIT_PREFIX +:+ ip) g with
      | (Returned _, g1) =>
          match next g1 with
          | (Thrown (AppErr a), g2) => (Thrown (AppErr a), g2)
          | (Thrown _, g2) => (Thrown NEXT_CALLED_TWICE, g2)
          | r => r
          end
      | (Thrown (AppErr a), g1) => (Thrown (AppErr a), g1)
      | (Thrown _, g1) => next g1
      end.

(** The outcomes of a series of requests, each served in the state the one
    before left. *)
Fixpoint serve {T A : Type} (handle : T -> G A) (requests : list T) (g : Gateway)
    : list (outcome A) :=
  match requests with
  | [] => []
  | t :: rest => let (r, g') := handle t g in r :: serve handle rest g'
  end.

(** The state in which an admitted request reaches the handler. *)
Definition admitted (key : string) (c : Counter) (g : Gateway) : Gateway :=
  {| limits := <[key := c]> (limits g);
     headers := <["X-RateLimit-Remaining" := Z.max 0 (rateLimit_max - count c)]>
                  (<["X-RateLimit-Limit" := rateLimit_max]> (headers g));
     world := world g |}.

(** The record a successful [register] stores. *)
Definition registered `{P : Platform} (E : Env) (new_id : string)
    (body_email body_password body_firstName body_lastName : string)
    (r : Role) : IUser :=
  {| _id := new_id; email := toLowerCase (trim body_email);
     password := bcrypt_hash body_password (genSalt E);
     firstName := trim body_firstName; lastName := trim body_lastName; role := r;
     isActive := true; isEmailVerified := false;
     emailVerificationToken := Some (random1 E);
     passwordResetToken := None; passwordResetExpires := None;
     lastLogin := None; refreshTokens := [];
     createdAt := Date_now E; updatedAt := Date_now E; __v := 0 |}.

(** The role a registration asks for: [role || 'customer']. *)
Definition requested_role (body_role : option string) : string :=
  match body_role with
  | Some r => if truthy (Some r) then r else "customer"
  | None => "customer"
  end.

(** The record [deleteAccount] leaves in the place of [u]. *)
Definition deactivated (E : Env) (u : IUser) : IUser :=
  if bool_decide (u = with_isActive false u) then u
  else with_updatedAt (Date_now E) (with_isActive false u).

(** The world a successful rotation leaves behind: the presented token is
    deleted from the registry, the issued one is stored. *)
Definition rotated `{P : Platform} (cfg : Config) (E : Env) (presented : string)
    (u : IUser) (w : World) : World :=
  {| users := users w;
     redis := <[TOKEN_PREFIX +:+ generateRefreshToken cfg E u :=
                  {| value := _id u; set_at := Date_now E; ttl := 604800 |}]>
                (delete (TOKEN_PREFIX +:+ presented) (redis w)) |}.

(** Every path of a user document but [firstName], [lastName] and
    [updatedAt] has the same value in [u] and [u']. *)
Definition profile_frame (u u' : IUser) : Prop :=
  _id u' = _id u
  /\ email u' = email u
  /\ password u' = password u
  /\ role u' = role u
  /\ isActive u' = isActive u
  /\ isEmailVerified u' = isEmailVerified u
  /\ emailVerificationToken u' = emailVerificationToken u
  /\ passwordResetToken u' = passwordResetToken u
  /\ passwordResetExpires u' = passwordResetExpires u
  /\ lastLogin u' = lastLogin u
  /\ refreshTokens u' = refreshTokens u
  /\ createdAt u' = createdAt u
  /\ __v u' = __v u.

(** The document [updateProfile] hands to [save]:
    [if (firstName) user.firstName = firstName;
     if (lastName) user.lastName = lastName]. *)
Definition profile_edit `{P : Platform} (body_firstName body_lastName : option string)
    (u : IUser) : IUser :=
  let user1 :=
    match body_firstName with
    | Some v => if truthy (Some v) then assign_firstName v u else u
    | None => u
    end in
  match body_lastName with
  | Some v => if truthy (Some v) then assign_lastName v user1 else user1
  | None => user1
  end.

(* ===================================================================== *)
(** ** An executable platform

    A small instance of [Platform] on which the handlers run: a token is
    the secret and the claims written out between bars, a hash is the salt
    and the plaintext between dollar signs.  It keeps what the scenarios
    below rely on in the libraries: signing is a function of the secret and
    the claims, and a token verifies under the secret that signed it. *)
(* ===================================================================== *)

Module Reference.

Definition bar : ascii := "|"%char.
Definition dollar : ascii := "$"%char.

Definition print_Z (z : Z) : string := NilZero.string_of_int (Z.to_int z).
Definition parse_Z (s : string) : option Z := Z.of_int <$> NilZero.int_of_string s.

Definition print_opt (o : option string) : string :=
  match o with
  | Some s => String "="%char s
  | None => ""
  end.

Definition parse_opt (s : string) : option (option string) :=
  match s with
  | EmptyString => Some None
  | String c s' => if Ascii.eqb c "="%char then Some (Some s') else None
  end.

Definition parse_opt_Z (s : string) : option (option Z) :=
  match parse_opt s with
  | Some (Some d) => Some <$> parse_Z d
  | Some None => Some None
  | None => None
  end.

Definition encode (secretOrKey : string) (c : Jwt.Claims) : string :=
  String.concat "|"
    [secretOrKey; Jwt.userId c; print_opt (Jwt.email c); print_opt (Jwt.role c);
     print_opt (Jwt.type c); print_opt (print_Z <$> Jwt.iat c);
     print_opt (print_Z <$> Jwt.exp c); print_opt (Jwt.iss c);
     print_opt (Jwt.aud c)].

Definition decode (token : string) : option Jwt.Claims :=
  match split bar token with
  | [_; uid; e; r; ty; ia; ex; iss; au] =>
      e' ← parse_opt e; r' ← parse_opt r; ty' ← parse_opt ty;
      ia' ← parse_opt_Z ia; ex' ← parse_opt_Z ex;
      iss' ← parse_opt iss; au' ← parse_opt au;
      Some {| Jwt.userId := uid; Jwt.email := e'; Jwt.role := r';
              Jwt.type := ty'; Jwt.iat := ia'; Jwt.exp := ex';
              Jwt.iss := iss'; Jwt.aud := au' |}
  | _ => None
  end.

Definition check (secretOrKey token : string) : bool :=
  match split bar token with
  | k :: _ => String.eqb k secretOrKey
  | [] => false
  end.

Definition hash (plaintext salt : string) : string :=
  String.concat "$" [""; salt; plaintext].

Definition compare (candidate hashed : string) : bool :=
  match split dollar hashed with
  | [_; _; p] => String.eqb p candidate
  | _ => false
  end.

(** The string functions, on strings of ASCII characters. *)
Definition is_space (c : ascii) : bool :=
  let n := nat_of_ascii c in
  (Nat.eqb n 32 || Nat.eqb n 9 || Nat.eqb n 10 || Nat.eqb n 11
   || Nat.eqb n 12 || Nat.eqb n 13)%bool.

Fixpoint trimStart (s : string) : string :=
  match s with
  | EmptyString => EmptyString
  | String c s' => if is_space c then trimStart s' else s
  end.

Fixpoint trimEnd (s : string) : string :=
  match s with
  | EmptyString => EmptyString
  | String c s' =>
      match trimEnd s' with
      | EmptyString => if is_space c then EmptyString else String c EmptyString
      | t => String c t
      end
  end.

Definition trim_ascii (s : string) : string := trimEnd (trimStart s).

Definition lower_ascii (c : ascii) : ascii :=
  let n := nat_of_ascii c in
  if (Nat.leb 65 n && Nat.leb n 90)%bool then ascii_of_nat (n + 32) else c.

Fixpoint lower (s : string) : string :=
  match s with
  | EmptyString => EmptyString
  | String c s' => String (lower_ascii c) (lower s')
  end.

(** An ObjectId of any length: a non-empty string of hex digits, whose
    hex form has them in lower case. *)
Definition is_hex (c : ascii) : bool :=
  let n := nat_of_ascii c in
  ((Nat.leb 48 n && Nat.leb n 57) || (Nat.leb 65 n && Nat.leb n 70)
   || (Nat.leb 97 n && Nat.leb n 102))%bool.

Fixpoint all_hex (s : string) : bool :=
  match s with
  | EmptyString => true
  | String c s' => is_hex c && all_hex s'
  end.

Definition cast_hex (s : string) : option string :=
  if negb (String.eqb s "") && all_hex s then Some (lower s) else None.

Definition platform : Platform :=
  {| jws_encode := encode;
     jws_decode := decode;
     jws_check := check;
     bcrypt_hash := hash;
     bcrypt_compare := compare;
     trim := trim_ascii;
     toLowerCase := lower;
     String_length := String.length;
     castObjectId := cast_hex |}.

End Reference.

(* ===================================================================== *)
(** ** Scenarios: concrete stores and requests *)
(* ===================================================================== *)

Module Scenario.

Definition cfg : Config := {| NODE_ENV := None; jwt := default_jwt |}.

Definition cfg_development : Config :=
  {| NODE_ENV := Some "development"; jwt := default_jwt |}.

(** [JWT_REFRESH_EXPIRES_IN=30d] *)
Definition cfg_30d : Config :=
  {| NODE_ENV := None;
     jwt := {| secret := "your-secret-key";
               refreshSecret := "your-refresh-secret-key";
               expiresIn := Minutes 15;
               refreshExpiresIn := Days 30 |} |}.

Definition at_time (t : Z) : Env :=
  {| Date_now := t; genSalt := "salt"; random1 := "k3j9x2m1q"; random2 := "p0w8z7y6v" |}.

Definition alice : IUser :=
  {| _id := "64a1"; email := "alice@example.com";
     password := Reference.hash "secret123" "salt0";
     firstName := "Alice"; lastName := "Liddell"; role := customer;
     isActive := true; isEmailVerified := false;
     emailVerificationToken := Some "evt1";
     passwordResetToken := None; passwordResetExpires := None;
     lastLogin := None; refreshTokens := [];
     createdAt := 0; updatedAt := 0; __v := 0 |}.

(** A deactivated account. *)
Definition bob : IUser :=
  {| _id := "64b2"; email := "bob@example.com";
     password := Reference.hash "hunter22" "salt0";
     firstName := "Bob"; lastName := "Builder"; role := vendor;
     isActive := false; isEmailVerified := true;
     emailVerificationToken := None;
     passwordResetToken := None; passwordResetExpires := None;
     lastLogin := None; refreshTokens := [];
     createdAt := 0; updatedAt := 0; __v := 0 |}.

Definition store : World := {| users := [alice; bob]; redis := ∅ |}.

(** Alice after a [forgotPassword] at 0 s: she holds a reset token that
    expires at 3 600 s. *)
Definition carol : IUser :=
  with_passwordResetExpires (Some 3600000)
    (with_passwordResetToken (Some "resettoken") alice).

(** The store with her record in that state. *)
Definition store_reset : World := {| users := [carol; bob]; redis := ∅ |}.

(** Alice logs in at 5.000 s. *)
Definition logged_in : outcome Response * World :=
  login (P := Reference.platform) cfg (at_time 5000)
    "alice@example.com" "secret123" store.

Definition alice_refresh_token : string :=
  generateRefreshToken (P := Reference.platform) cfg (at_time 5000) alice.

Definition alice_access_token : string :=
  generateAccessToken (P := Reference.platform) cfg (at_time 5000) alice.

(** Bob holds a session opened at 5.000 s, before his account was
    deactivated. *)
Definition bob_refresh_token : string :=
  generateRefreshToken (P := Reference.platform) cfg (at_time 5000) bob.

Definition store_bob_session : World :=
  {| users := [alice; bob];
     redis := {[ TOKEN_PREFIX +:+ bob_refresh_token :=
                   {| value := "64b2"; set_at := 5000; ttl := 604800 |} ]} |}.

(** A request to register Erin. *)
Definition erin : IUser :=
  registered (P := Reference.platform) (at_time 5000) "64e5" "erin@example.com"
    "erinpass1" "Erin" "Eve" customer.

(** A string that is no token sits in the blacklist. *)
Definition store_revoked : World :=
  {| users := [alice; bob];
     redis := {[ BLACKLIST_PREFIX +:+ "not-a-token" :=
                   {| value := "1"; set_at := 5000; ttl := 900 |} ]} |}.

Definition request (header : option string) : Context :=
  {| authorization := header; user := None |}.

(** A handler that answers with the identity the guard attached. *)
Definition whoami (ctx : Context) : M (option Jwt.Claims) := ret (user ctx).

(** A request the guard has let through for Alice. *)
Definition as_alice : Context :=
  {| authorization := Some ("Bearer " +:+ alice_access_token);
     user := jws_decode (Platform := Reference.platform) alice_access_token |}.

(** Eight days after 5.000 s. *)
Definition day8 : Env := at_time (5000 + 8 * 24 * 60 * 60 * 1000).

Definition alice_access_claims : Jwt.Claims :=
  {| Jwt.userId := "64a1"; Jwt.email := Some "alice@example.com";
     Jwt.role := Some "customer"; Jwt.type := None; Jwt.iat := Some 5;
     Jwt.exp := Some 905; Jwt.iss := Some "ecommerce-auth";
     Jwt.aud := Some "ecommerce-platform" |}.

(** The rate limiter: Redis reachable, a client without a counter, a client
    who has used up the window opened at 5.000 s, and the profile route
    under the error boundary. *)
Definition link_up : RedisLink := {| incr_up := true; expire_up := true |}.
Definition link_down : RedisLink := {| incr_up := false; expire_up := false |}.
Definition link_no_expire : RedisLink := {| incr_up := true; expire_up := false |}.

Definition gateway : Gateway := {| limits := ∅; headers := ∅; world := store |}.

Definition gateway_spent : Gateway :=
  {| limits := {[ RATE_LIMIT_PREFIX +:+ "10.0.0.7" :=
                    {| count := 100; expires_at := Some 905000 |} ]};
     headers := ∅; world := store |}.

Definition profile_stack (q : Env * RedisLink) : G Response :=
  lift (route_getProfile (P := Reference.platform) cfg q.1 as_alice).

(** A handler that throws a plain [Error]. *)
Definition broken_handler : G Jwt.Claims :=
  lift (verifyAccessToken (P := Reference.platform) cfg (at_time 5000) "garbage").

End Scenario.

(* ===================================================================== *)
(** ** Basic facts: keys, the cache, the store *)
(* ===================================================================== *)

Lemma append_inj_r (p a b : string) : p +:+ a = p +:+ b -> a = b.
Proof.
  induction p as [|c p IH]; simpl; intros H; [exact H|].
  injection H as H. auto.
Qed.

(** The two key spaces of the cache do not meet. *)
Lemma blacklist_key_ne_token_key (a b : string) :
  BLACKLIST_PREFIX +:+ a <> TOKEN_PREFIX +:+ b.
Proof. unfold BLACKLIST_PREFIX, TOKEN_PREFIX. simpl. discriminate. Qed.

Lemma store_get_insert_eq (now : Z) (r : gmap string Entry) (k : string) (e : Entry) :
  store_get now (<[k := e]> r) k = if live now e then Some (value e) else None.
Proof. unfold store_get. by rewrite lookup_insert_eq. Qed.

Lemma store_get_insert_ne (now : Z) (r : gmap string Entry) (k k' : string) (e : Entry) :
  k <> k' -> store_get now (<[k := e]> r) k' = store_get now r k'.
Proof. intros H. unfold store_get. by rewrite lookup_insert_ne. Qed.

Lemma store_get_delete_eq (now : Z) (r : gmap string Entry) (k : string) :
  store_get now (delete k r) k = None.
Proof. unfold store_get. by rewrite lookup_delete_eq. Qed.

Lemma store_get_delete_ne (now : Z) (r : gmap string Entry) (k k' : string) :
  k <> k' -> store_get now (delete k r) k' = store_get now r k'.
Proof. intros H. unfold store_get. by rewrite lookup_delete_ne. Qed.

Lemma find_by_id_Some (l : list IUser) (id : string) (u : IUser) :
  List.find (fun u => String.eqb (_id u) id) l = Some u -> _id u = id /\ In u l.
Proof.
  intros H. apply List.find_some in H as [Hin Heq].
  split; [by apply String.eqb_eq|done].
Qed.

Lemma store_replace_length (u : IUser) (l : list IUser) :
  length (store_replace u l) = length l.
Proof.
  induction l as [|x l IH]; simpl; [done|].
  destruct (String.eqb (_id x) (_id u)); simpl; congruence.
Qed.

(** Saving never changes the identifiers in the store. *)
Lemma store_replace_ids (u : IUser) (l : list IUser) :
  List.map _id (store_replace u l) = List.map _id l.
Proof.
  induction l as [|x l IH]; simpl; [done|].
  destruct (String.eqb (_id x) (_id u)) eqn:Hx; simpl.
  - apply String.eqb_eq in Hx. by rewrite Hx.
  - by rewrite IH.
Qed.

(* ===================================================================== *)
(** ** Running a handler *)
(* ===================================================================== *)

Lemma bind_Returned {A B : Type} (m : M A) (k : A -> M B) (w w' : World) (a : A) :
  m w = (Returned a, w') -> bind m k w = k a w'.
Proof. intros H. unfold bind. by rewrite H. Qed.

Lemma bind_Thrown {A B : Type} (m : M A) (k : A -> M B) (w w' : World) (e : Exn) :
  m w = (Thrown e, w') -> bind m k w = (Thrown e, w').
Proof. intros H. unfold bind. by rewrite H. Qed.

(** Verification reads the token and the clock only. *)
Lemma verifyRefreshToken_pure `{P : Platform} (cfg : Config) (E : Env)
    (token : string) (w w' : World) (r : outcome Jwt.Claims) :
  verifyRefreshToken cfg E token w = (r, w') ->
  w' = w /\ forall w0, verifyRefreshToken cfg E token w0 = (r, w0).
Proof.
  unfold verifyRefreshToken. destruct (jwt_verify _ _ _ _); unfold ret, throw;
    intros [= <- <-]; auto.
Qed.

Lemma verifyAccessToken_pure `{P : Platform} (cfg : Config) (E : Env)
    (token : string) (w w' : World) (r : outcome Jwt.Claims) :
  verifyAccessToken cfg E token w = (r, w') ->
  w' = w /\ forall w0, verifyAccessToken cfg E token w0 = (r, w0).
Proof.
  unfold verifyAccessToken. destruct (jwt_verify _ _ _ _); unfold ret, throw;
    intros [= <- <-]; auto.
Qed.

(** What a verified access token went through: its payload is [d], the
    signature is the one the access secret yields, [exp] (if any) lies
    after the clock, issuer and audience are the platform's. *)
Lemma verifyAccessToken_Returned `{P : Platform} (cfg : Config) (E : Env)
    (token : string) (w w' : World) (d : Jwt.Claims) :
  verifyAccessToken cfg E token w = (Returned d, w') ->
  jwt_decode token = Some d
  /\ jws_check (secret (jwt cfg)) token = true
  /\ (forall e, Jwt.exp d = Some e -> clock_seconds E < e)
  /\ Jwt.iss d = Some "ecommerce-auth"
  /\ Jwt.aud d = Some "ecommerce-platform".
Proof.
  unfold verifyAccessToken, jwt_verify, jwt_decode.
  destruct (jws_decode token) as [c|]; [|discriminate].
  destruct (jws_check _ _); [|discriminate]. simpl.
  destruct (match Jwt.exp c with Some e => e <=? clock_seconds E | None => false end)
    eqn:Hexp; [discriminate|].
  case_bool_decide as Haud; [|discriminate]. simpl.
  case_bool_decide as Hiss; [|discriminate]. simpl.
  unfold ret. intros [= <- <-]. repeat split; try done.
  intros e He. rewrite He in Hexp. by apply Z.leb_gt.
Qed.

(** What [verifyRefreshToken] throws is never an [AppError]. *)
Lemma verifyRefreshToken_throws `{P : Platform} (cfg : Config) (E : Env)
    (token : string) (w w' : World) (e : Exn) :
  verifyRefreshToken cfg E token w = (Thrown e, w') ->
  e = JsError "Error" "Invalid or expired refresh token".
Proof.
  unfold verifyRefreshToken. destruct (jwt_verify _ _ _ _); unfold ret, throw;
    intros [= <- <-]; auto.
Qed.

(** The refresh token depends on the user only through the identifier and
    on the clock only through its seconds. *)
Lemma generateRefreshToken_same_second `{P : Platform} (cfg : Config)
    (E E' : Env) (u u' : IUser) :
  _id u = _id u' -> clock_seconds E = clock_seconds E' ->
  generateRefreshToken cfg E u = generateRefreshToken cfg E' u'.
Proof.
  intros Hid Hs.
  unfold generateRefreshToken, jwt_sign, jwt_claims, refresh_payload; simpl.
  by rewrite Hid, Hs.
Qed.

(** The success path of [refreshToken]: signature, registry entry for the
    same identifier, user present and active. *)
Lemma refreshToken_success `{P : Platform} (cfg : Config) (E : Env)
    (rt : string) (d : Jwt.Claims) (u : IUser) (w : World) :
  verifyRefreshToken cfg E rt w = (Returned d, w) ->
  store_get (Date_now E) (redis w) (TOKEN_PREFIX +:+ rt) = Some (Jwt.userId d) ->
  Jwt.userId d <> "" ->
  List.find (fun x => String.eqb (_id x) (Jwt.userId d)) (users w) = Some u ->
  isActive u = true ->
  refreshToken cfg E rt w =
    (Returned (refresh_response
                 {| TokenPair.accessToken := generateAccessToken cfg E u;
                    TokenPair.refreshToken := generateRefreshToken cfg E u |}),
     rotated cfg E rt u w).
Proof.
  intros Hv Hreg Hne Hfind Hact.
  unfold refreshToken.
  rewrite (bind_Returned _ _ w w d);
    [|unfold try_catch; by rewrite Hv].
  unfold validateRefreshToken, redis_get, bind at 1. rewrite Hreg.
  apply String.eqb_neq in Hne. rewrite Hne, String.eqb_refl. simpl.
  unfold User_findById, User_findOne, bind at 1. rewrite Hfind, Hact. simpl.
  reflexivity.
Qed.

(** A registry miss is answered [INVALID_REFRESH_TOKEN], whatever the
    signature says. *)
Lemma refreshToken_registry_miss `{P : Platform} (cfg : Config) (E : Env)
    (rt : string) (w : World) :
  store_get (Date_now E) (redis w) (TOKEN_PREFIX +:+ rt) = None ->
  refreshToken cfg E rt w = (Thrown (AppErr INVALID_REFRESH_TOKEN), w).
Proof.
  intros Hreg. unfold refreshToken.
  destruct (verifyRefreshToken cfg E rt w) as [[d|e] w1] eqn:Hv.
  - destruct (verifyRefreshToken_pure _ _ _ _ _ _ Hv) as [-> _].
    rewrite (bind_Returned _ _ w w d);
      [|unfold try_catch; by rewrite Hv].
    unfold validateRefreshToken, redis_get, bind at 1. by rewrite Hreg.
  - destruct (verifyRefreshToken_pure _ _ _ _ _ _ Hv) as [-> _].
    apply bind_Thrown. unfold try_catch. by rewrite Hv.
Qed.

(** After a rotation that issued a token other than the presented one, the
    presented token is refused. *)
Lemma refreshToken_replay_rejected `{P : Platform} (cfg : Config) (E1 E2 : Env)
    (rt : string) (u : IUser) (w : World) :
  generateRefreshToken cfg E1 u <> rt ->
  refreshToken cfg E2 rt (rotated cfg E1 rt u w) =
    (Thrown (AppErr INVALID_REFRESH_TOKEN), rotated cfg E1 rt u w).
Proof.
  intros Hne. apply refreshToken_registry_miss. unfold rotated; simpl.
  rewrite store_get_insert_ne, store_get_delete_eq; [done|].
  intros Heq. by apply append_inj_r in Heq.
Qed.

(* ===================================================================== *)
(** ** Refresh: rotation and failure *)
(* ===================================================================== *)

(** C1 (the code departs from it).  The claim: a refresh token is single
    use; after a successful refresh the same token is refused with
    INVALID_REFRESH_TOKEN.  What the code does when the refresh happens in
    the clock second in which the token was issued: the token it signs for
    the rotation is the presented token again (same identifier, same
    [iat], same [exp]), [SETEX] stores it right after [DEL] removed it, and
    a second refresh presenting the same token succeeds as long as it
    still verifies and the new registry entry has not lapsed. *)
Theorem refreshToken_replay_same_second `{P : Platform} (cfg : Config)
    (E0 E1 E2 : Env) (u0 u : IUser) (d : Jwt.Claims) (w : World) :
  let rt := generateRefreshToken cfg E0 u0 in
  clock_seconds E1 = clock_seconds E0 ->
  verifyRefreshToken cfg E1 rt w = (Returned d, w) ->
  verifyRefreshToken cfg E2 rt w = (Returned d, w) ->
  Jwt.userId d = _id u0 ->
  _id u0 <> "" ->
  store_get (Date_now E1) (redis w) (TOKEN_PREFIX +:+ rt) = Some (_id u0) ->
  List.find (fun x => String.eqb (_id x) (_id u0)) (users w) = Some u ->
  isActive u = true ->
  Date_now E2 < Date_now E1 + 604800 * 1000 ->
  exists w1 w2 : World,
    refreshToken cfg E1 rt w =
      (Returned (refresh_response
                   {| TokenPair.accessToken := generateAccessToken cfg E1 u;
                      TokenPair.refreshToken := rt |}), w1)
    /\ refreshToken cfg E2 rt w1 =
         (Returned (refresh_response
                      {| TokenPair.accessToken := generateAccessToken cfg E2 u;
                         TokenPair.refreshToken := generateRefreshToken cfg E2 u |}),
          w2).
Proof.
  intros rt Hsec Hv1 Hv2 Hid Hne Hreg Hfind Hact Hlive.
  destruct (find_by_id_Some _ _ _ Hfind) as [Hu _].
  assert (Hsame : generateRefreshToken cfg E1 u = rt).
  { unfold rt. by apply generateRefreshToken_same_second. }
  exists (rotated cfg E1 rt u w), (rotated cfg E2 rt u (rotated cfg E1 rt u w)).
  rewrite <- Hid in Hreg, Hfind, Hne.
  split.
  - rewrite (refreshToken_success cfg E1 rt d u w) by done.
    by rewrite Hsame.
  - destruct (verifyRefreshToken_pure _ _ _ _ _ _ Hv2) as [_ Hv2'].
    apply (refreshToken_success cfg E2 rt d u); try done.
    unfold rotated; simpl. rewrite Hsame, store_get_insert_eq.
    unfold live; simpl.
    destruct (Z.ltb_spec (Date_now E2) (Date_now E1 + 604800 * 1000)); [|lia].
    by rewrite Hid, Hu.
Qed.

(** Alice logs in at 5.000 s, refreshes at 5.900 s and presents the same
    token again at 7.000 s. *)
Lemma refreshToken_replay_same_second_witness :
  exists w1 w2 : World,
    refreshToken (P := Reference.platform) Scenario.cfg (Scenario.at_time 5900)
      Scenario.alice_refresh_token (snd Scenario.logged_in) =
      (Returned (refresh_response
                   {| TokenPair.accessToken :=
                        generateAccessToken (P := Reference.platform) Scenario.cfg
                          (Scenario.at_time 5900)
                          (with_updatedAt 5000 (with_lastLogin (Some 5000) Scenario.alice));
                      TokenPair.refreshToken := Scenario.alice_refresh_token |}), w1)
    /\ refreshToken (P := Reference.platform) Scenario.cfg (Scenario.at_time 7000)
         Scenario.alice_refresh_token w1 =
         (Returned (refresh_response
                      {| TokenPair.accessToken :=
                           generateAccessToken (P := Reference.platform) Scenario.cfg
                             (Scenario.at_time 7000)
                             (with_updatedAt 5000 (with_lastLogin (Some 5000) Scenario.alice));
                         TokenPair.refreshToken :=
                           generateRefreshToken (P := Reference.platform) Scenario.cfg
                             (Scenario.at_time 7000)
                             (with_updatedAt 5000 (with_lastLogin (Some 5000) Scenario.alice)) |}),
          w2).
Proof.
  apply (refreshToken_replay_same_second (P := Reference.platform) Scenario.cfg
           (Scenario.at_time 5000) (Scenario.at_time 5900) (Scenario.at_time 7000)
           Scenario.alice
           (with_updatedAt 5000 (with_lastLogin (Some 5000) Scenario.alice))
           {| Jwt.userId := "64a1"; Jwt.email := None; Jwt.role := None;
              Jwt.type := Some "refresh"; Jwt.iat := Some 5;
              Jwt.exp := Some 604805; Jwt.iss := Some "ecommerce-auth";
              Jwt.aud := None |}
           (snd Scenario.logged_in)).
  - vm_compute; reflexivity.
  - vm_compute; reflexivity.
  - vm_compute; reflexivity.
  - vm_compute; reflexivity.
  - discriminate.
  - vm_compute; reflexivity.
  - vm_compute; reflexivity.
  - vm_compute; reflexivity.
  - vm_compute; reflexivity.
Defined.

(** C9.  Whenever [refreshToken] fails, the world it leaves is the world it
    found: the registry entry of the presented token (and every other one)
    is as before, and the error is INVALID_REFRESH_TOKEN (401) or
    USER_NOT_FOUND (404). *)
Theorem refreshToken_failure_atomic `{P : Platform} (cfg : Config) (E : Env)
    (rt : string) (w w' : World) (e : Exn) :
  refreshToken cfg E rt w = (Thrown e, w') ->
  w' = w
  /\ redis w' !! (TOKEN_PREFIX +:+ rt) = redis w !! (TOKEN_PREFIX +:+ rt)
  /\ (e = AppErr INVALID_REFRESH_TOKEN \/ e = AppErr USER_NOT_FOUND_INACTIVE).
Proof.
  intros H.
  assert (Hgoal : w' = w /\ (e = AppErr INVALID_REFRESH_TOKEN
                             \/ e = AppErr USER_NOT_FOUND_INACTIVE));
    [|destruct Hgoal as [-> ?]; auto].
  revert H. unfold refreshToken.
  destruct (verifyRefreshToken cfg E rt w) as [[d|e0] w1] eqn:Hv;
    destruct (verifyRefreshToken_pure _ _ _ _ _ _ Hv) as [-> _].
  - rewrite (bind_Returned _ _ w w d); [|unfold try_catch; by rewrite Hv].
    unfold validateRefreshToken, redis_get, bind at 1.
    destruct (store_get _ _ _) as [uid|]; [|intros [= <- <-]; auto].
    destruct (String.eqb uid "" || negb (String.eqb uid (Jwt.userId d)));
      [intros [= <- <-]; auto|].
    unfold User_findById, User_findOne, bind at 1.
    destruct (List.find _ _) as [u|]; [|intros [= <- <-]; auto].
    destruct (isActive u); simpl; [|intros [= <- <-]; auto].
    unfold bind, invalidateRefreshToken, redis_del, generateTokenPair,
      redis_setex, ret; simpl. discriminate.
  - rewrite (bind_Thrown _ _ w w (AppErr INVALID_REFRESH_TOKEN));
      [|unfold try_catch; by rewrite Hv].
    intros [= <- <-]; auto.
Qed.

(** One such failure: the token verifies and is registered for
    its user, but the user is gone or deactivated.  The answer is
    USER_NOT_FOUND (404) and the token stays registered. *)
Lemma refreshToken_user_gone `{P : Platform} (cfg : Config) (E : Env)
    (rt : string) (d : Jwt.Claims) (w : World) :
  verifyRefreshToken cfg E rt w = (Returned d, w) ->
  store_get (Date_now E) (redis w) (TOKEN_PREFIX +:+ rt) = Some (Jwt.userId d) ->
  Jwt.userId d <> "" ->
  (forall u, List.find (fun x => String.eqb (_id x) (Jwt.userId d)) (users w) = Some u ->
             isActive u = false) ->
  refreshToken cfg E rt w = (Thrown (AppErr USER_NOT_FOUND_INACTIVE), w)
  /\ statusCode USER_NOT_FOUND_INACTIVE = 404.
Proof.
  intros Hv Hreg Hne Hgone. split; [|done].
  unfold refreshToken.
  rewrite (bind_Returned _ _ w w d); [|unfold try_catch; by rewrite Hv].
  unfold validateRefreshToken, redis_get, bind at 1. rewrite Hreg.
  apply String.eqb_neq in Hne. rewrite Hne, String.eqb_refl. simpl.
  unfold User_findById, User_findOne, bind at 1.
  destruct (List.find _ _) as [u|] eqn:Hf; [|done].
  by rewrite (Hgone u eq_refl).
Qed.

(** Bob, deactivated, presents the refresh token of his open session. *)
Lemma refreshToken_failure_atomic_witness :
  snd (refreshToken (P := Reference.platform) Scenario.cfg (Scenario.at_time 9000)
         Scenario.bob_refresh_token Scenario.store_bob_session)
    = Scenario.store_bob_session
  /\ redis (snd (refreshToken (P := Reference.platform) Scenario.cfg
                   (Scenario.at_time 9000) Scenario.bob_refresh_token
                   Scenario.store_bob_session))
       !! (TOKEN_PREFIX +:+ Scenario.bob_refresh_token)
     = redis Scenario.store_bob_session !! (TOKEN_PREFIX +:+ Scenario.bob_refresh_token)
  /\ (AppErr USER_NOT_FOUND_INACTIVE = AppErr INVALID_REFRESH_TOKEN
      \/ AppErr USER_NOT_FOUND_INACTIVE = AppErr USER_NOT_FOUND_INACTIVE).
Proof.
  apply (refreshToken_failure_atomic (P := Reference.platform) Scenario.cfg
           (Scenario.at_time 9000) Scenario.bob_refresh_token
           Scenario.store_bob_session).
  vm_compute; reflexivity.
Defined.

(* ===================================================================== *)
(** ** The authorization guard *)
(* ===================================================================== *)

Lemma split_Bearer (t : string) :
  split " " ("Bearer " +:+ t) = "Bearer" :: split " " t.
Proof. reflexivity. Qed.

(** The token the guard reads from [Bearer t]: [t] up to its first
    space. *)
Lemma bearer_token (t : string) :
  nth 1 (split " " ("Bearer " +:+ t)) "" = hd "" (split " " t).
Proof. rewrite split_Bearer. simpl. by destruct (split " " t). Qed.

Lemma startsWith_nonempty (p h : string) :
  p <> "" -> startsWith p h = true -> truthy (Some h) = true.
Proof.
  intros Hp. destruct h; simpl; [|done].
  destruct p; [done|]. discriminate.
Qed.

Lemma rethrow_Returned {A : Type} (m : M A) (e : AppError) (w w' : World) (a : A) :
  m w = (Returned a, w') -> rethrow_unless_AppError m e w = (Returned a, w').
Proof. intros H. unfold rethrow_unless_AppError, try_catch. by rewrite H. Qed.

Lemma rethrow_AppErr {A : Type} (m : M A) (e a : AppError) (w w' : World) :
  m w = (Thrown (AppErr a), w') ->
  rethrow_unless_AppError m e w = (Thrown (AppErr a), w').
Proof. intros H. unfold rethrow_unless_AppError, try_catch. by rewrite H. Qed.

Lemma rethrow_JsError {A : Type} (m : M A) (e : AppError) (w w' : World) (n s : string) :
  m w = (Thrown (JsError n s), w') ->
  rethrow_unless_AppError (A := A) m e w = (Thrown (AppErr e), w').
Proof. intros H. unfold rethrow_unless_AppError, try_catch. by rewrite H. Qed.

(** Past the header check the guard looks the token up in the blacklist
    and only then verifies it. *)
Lemma authMiddleware_bearer `{P : Platform} (cfg : Config) (E : Env) {A : Type}
    (ctx : Context) (next : Context -> M A) (w : World) (h : string) :
  authorization ctx = Some h -> startsWith "Bearer " h = true ->
  authMiddleware cfg E ctx next w =
    let token := nth 1 (split " " h) "" in
    if bool_decide (store_get (Date_now E) (redis w) (BLACKLIST_PREFIX +:+ token)
                    = Some "1")
    then (Thrown (AppErr TOKEN_REVOKED), w)
    else rethrow_unless_AppError
           (decoded <- verifyAccessToken cfg E token ;;
            next (with_user decoded ctx)) INVALID_TOKEN_401 w.
Proof.
  intros Hh Hb. unfold authMiddleware. rewrite Hh, Hb.
  rewrite (startsWith_nonempty "Bearer " h) by done. cbn [negb orb].
  cbv zeta.
  unfold rethrow_unless_AppError, try_catch, isTokenBlacklisted, redis_get,
    bind, ret.
  by case_bool_decide.
Qed.

(** C2.  The guard, in the order of its checks:
    - no [Authorization] header, or one that does not start with
      ['Bearer ']: NO_TOKEN (401), nothing else is looked at;
    - otherwise, the token in the blacklist: TOKEN_REVOKED (401), whatever
      verification would say (the lookup comes first);
    - otherwise, verification throws: INVALID_TOKEN (401);
    - otherwise the decoded claims (with [userId], [email], [role]) are
      what the handler finds in [ctx.user], and the handler runs. *)
Theorem authMiddleware_order `{P : Platform} (cfg : Config) (E : Env) {A : Type}
    (ctx : Context) (next : Context -> M A) (w : World) :
  ((authorization ctx = None
    \/ exists h, authorization ctx = Some h /\ startsWith "Bearer " h = false) ->
   authMiddleware cfg E ctx next w = (Thrown (AppErr NO_TOKEN), w))
  /\ (forall h : string,
        authorization ctx = Some h -> startsWith "Bearer " h = true ->
        let token := nth 1 (split " " h) "" in
        (store_get (Date_now E) (redis w) (BLACKLIST_PREFIX +:+ token) = Some "1" ->
         authMiddleware cfg E ctx next w = (Thrown (AppErr TOKEN_REVOKED), w))
        /\ (store_get (Date_now E) (redis w) (BLACKLIST_PREFIX +:+ token) <> Some "1" ->
            (forall e, verifyAccessToken cfg E token w = (Thrown e, w) ->
               authMiddleware cfg E ctx next w = (Thrown (AppErr INVALID_TOKEN_401), w))
            /\ (forall d, verifyAccessToken cfg E token w = (Returned d, w) ->
                  user (with_user d ctx) = Some d
                  /\ authMiddleware cfg E ctx next w =
                       rethrow_unless_AppError (next (with_user d ctx))
                         INVALID_TOKEN_401 w)))
  /\ statusCode NO_TOKEN = 401
  /\ statusCode TOKEN_REVOKED = 401
  /\ statusCode INVALID_TOKEN_401 = 401.
Proof.
  split; [|split; [|done]].
  - intros [Hn|(h & Hh & Hb)]; unfold authMiddleware.
    + by rewrite Hn.
    + rewrite Hh, Hb. by rewrite orb_true_r.
  - intros h Hh Hb token. subst token.
    rewrite (authMiddleware_bearer cfg E ctx next w h Hh Hb). cbv zeta.
    split.
    + intros ->. by rewrite bool_decide_eq_true_2.
    + intros Hnb. rewrite bool_decide_eq_false_2 by done.
      unfold rethrow_unless_AppError, try_catch, bind.
      split.
      * intros e He. rewrite He.
        destruct e as [a|n s|n s sc dt]; [|done|done].
        unfold verifyAccessToken in He.
        destruct (jwt_verify _ _ _ _); unfold ret, throw in He; congruence.
      * intros d Hd. split; [done|]. by rewrite Hd.
Qed.

(** A request with a token that is not blacklisted and verifies gets what
    the handler returns. *)
Lemma authMiddleware_passes `{P : Platform} (cfg : Config) (E : Env) {A : Type}
    (ctx : Context) (next : Context -> M A) (w w' : World) (h : string)
    (d : Jwt.Claims) (a : A) :
  authorization ctx = Some h -> startsWith "Bearer " h = true ->
  store_get (Date_now E) (redis w)
    (BLACKLIST_PREFIX +:+ nth 1 (split " " h) "") <> Some "1" ->
  verifyAccessToken cfg E (nth 1 (split " " h) "") w = (Returned d, w) ->
  next (with_user d ctx) w = (Returned a, w') ->
  authMiddleware cfg E ctx next w = (Returned a, w').
Proof.
  intros Hh Hb Hnb Hv Hn.
  rewrite (authMiddleware_bearer cfg E ctx next w h Hh Hb). cbv zeta.
  rewrite bool_decide_eq_false_2 by done.
  apply rethrow_Returned. unfold bind. by rewrite Hv.
Qed.

(** Four requests: no header; a blacklisted string that is no token; a
    string that is no token; the access token Alice was issued. *)
Lemma authMiddleware_order_witness :
  authMiddleware (P := Reference.platform) Scenario.cfg (Scenario.at_time 6000)
    (Scenario.request (Some "Basic abc")) Scenario.whoami Scenario.store
    = (Thrown (AppErr NO_TOKEN), Scenario.store)
  /\ authMiddleware (P := Reference.platform) Scenario.cfg (Scenario.at_time 6000)
       (Scenario.request (Some "Bearer not-a-token")) Scenario.whoami
       Scenario.store_revoked
     = (Thrown (AppErr TOKEN_REVOKED), Scenario.store_revoked)
  /\ authMiddleware (P := Reference.platform) Scenario.cfg (Scenario.at_time 6000)
       (Scenario.request (Some "Bearer not-a-token")) Scenario.whoami
       Scenario.store
     = (Thrown (AppErr INVALID_TOKEN_401), Scenario.store)
  /\ authMiddleware (P := Reference.platform) Scenario.cfg (Scenario.at_time 6000)
       (Scenario.request (Some ("Bearer " +:+ Scenario.alice_access_token)))
       Scenario.whoami Scenario.store
     = (Returned (Some Scenario.alice_access_claims), Scenario.store).
Proof.
  split; [|split; [|split]].
  - apply (authMiddleware_order (P := Reference.platform) Scenario.cfg
             (Scenario.at_time 6000) (Scenario.request (Some "Basic abc"))
             Scenario.whoami Scenario.store).
    right. exists "Basic abc". split; reflexivity.
  - apply (authMiddleware_order (P := Reference.platform) Scenario.cfg
             (Scenario.at_time 6000) (Scenario.request (Some "Bearer not-a-token"))
             Scenario.whoami Scenario.store_revoked) with (h := "Bearer not-a-token").
    + reflexivity.
    + reflexivity.
    + vm_compute; reflexivity.
  - apply (authMiddleware_order (P := Reference.platform) Scenario.cfg
             (Scenario.at_time 6000) (Scenario.request (Some "Bearer not-a-token"))
             Scenario.whoami Scenario.store) with (h := "Bearer not-a-token")
             (e := JsError "Error" "Invalid or expired token").
    + reflexivity.
    + reflexivity.
    + vm_compute; discriminate.
    + vm_compute; reflexivity.
  - destruct (authMiddleware_order (P := Reference.platform) Scenario.cfg
                (Scenario.at_time 6000)
                (Scenario.request (Some ("Bearer " +:+ Scenario.alice_access_token)))
                Scenario.whoami Scenario.store) as (_ & H & _).
    destruct (H ("Bearer " +:+ Scenario.alice_access_token) eq_refl eq_refl)
      as [_ H'].
    destruct H' as [_ H']; [vm_compute; discriminate|].
    destruct (H' Scenario.alice_access_claims) as [_ ->];
      [vm_compute; reflexivity|].
    vm_compute; reflexivity.
Defined.

(* ===================================================================== *)
(** ** Login *)
(* ===================================================================== *)

(** Saving a document on which only paths without validators were
    modified goes through. *)
Lemma save_unvalidated `{P : Platform} (E : Env) (orig cur : IUser) (w : World) :
  firstName cur = firstName orig -> lastName cur = lastName orig ->
  password cur = password orig ->
  exists doc w', save E orig cur w = (Returned doc, w')
                 /\ redis w' = redis w
                 /\ (doc = cur \/ doc = with_updatedAt (Date_now E) cur).
Proof.
  intros Hf Hl Hp. unfold save. case_bool_decide as Heq.
  - exists cur, w. unfold ret. auto.
  - unfold validation_error, pre_save. rewrite Hf, Hl, Hp.
    rewrite !bool_decide_eq_true_2 by done. simpl.
    eexists _, _. split; [reflexivity|]. auto.
Qed.

(** C3.  [login] checks the credentials before it looks at [isActive]
    (the user is the one whose stored address is the request's, trimmed
    and lower-cased as the schema's setters do for a query):
    - unknown email: INVALID_CREDENTIALS (401);
    - the password does not verify: INVALID_CREDENTIALS (401), for an
      active and for a deactivated account alike;
    - the password verifies and the account is deactivated:
      ACCOUNT_DEACTIVATED (403).
    No failure writes to the store or the cache. *)
Theorem login_failure_precedence `{P : Platform} (cfg : Config) (E : Env)
    (body_email body_password : string) (w : World) :
  (List.find (by_email body_email) (users w) = None ->
   login cfg E body_email body_password w = (Thrown (AppErr INVALID_CREDENTIALS), w))
  /\ (forall u : IUser,
        List.find (by_email body_email) (users w) = Some u ->
        comparePassword body_password u = false ->
        login cfg E body_email body_password w
          = (Thrown (AppErr INVALID_CREDENTIALS), w))
  /\ (forall u : IUser,
        List.find (by_email body_email) (users w) = Some u ->
        isActive u = false ->
        (comparePassword body_password u = true ->
         login cfg E body_email body_password w
           = (Thrown (AppErr ACCOUNT_DEACTIVATED), w))
        /\ (comparePassword body_password u = false ->
            login cfg E body_email body_password w
              = (Thrown (AppErr INVALID_CREDENTIALS), w)))
  /\ statusCode INVALID_CREDENTIALS = 401
  /\ statusCode ACCOUNT_DEACTIVATED = 403.
Proof.
  split; [|split; [|split; [|done]]].
  - intros Hf. unfold login, User_findOne, bind at 1. by rewrite Hf.
  - intros u Hf Hc. unfold login, User_findOne, bind at 1. by rewrite Hf, Hc.
  - intros u Hf Ha.
    split; intros Hc; unfold login, User_findOne, bind at 1; rewrite Hf, Hc;
      [by rewrite Ha|done].
Qed.

(** Bob's account is deactivated and he types his address with capitals:
    his password, a wrong password, and an address nobody registered. *)
Lemma login_failure_precedence_witness :
  login (P := Reference.platform) Scenario.cfg (Scenario.at_time 5000)
    "Bob@Example.com" "hunter22" Scenario.store
    = (Thrown (AppErr ACCOUNT_DEACTIVATED), Scenario.store)
  /\ login (P := Reference.platform) Scenario.cfg (Scenario.at_time 5000)
       "Bob@Example.com" "hunter23" Scenario.store
     = (Thrown (AppErr INVALID_CREDENTIALS), Scenario.store)
  /\ login (P := Reference.platform) Scenario.cfg (Scenario.at_time 5000)
       "nobody@example.com" "hunter22" Scenario.store
     = (Thrown (AppErr INVALID_CREDENTIALS), Scenario.store).
Proof.
  split; [|split].
  - apply (login_failure_precedence (P := Reference.platform) Scenario.cfg
             (Scenario.at_time 5000) "Bob@Example.com" "hunter22" Scenario.store)
      with (u := Scenario.bob); vm_compute; reflexivity.
  - apply (login_failure_precedence (P := Reference.platform) Scenario.cfg
             (Scenario.at_time 5000) "Bob@Example.com" "hunter23" Scenario.store)
      with (u := Scenario.bob); vm_compute; reflexivity.
  - apply (login_failure_precedence (P := Reference.platform) Scenario.cfg
             (Scenario.at_time 5000) "nobody@example.com" "hunter22" Scenario.store).
    vm_compute; reflexivity.
Defined.

(** With the right password on an active account [login] answers 200 and
    registers the refresh token it returns. *)
Lemma login_success `{P : Platform} (cfg : Config) (E : Env)
    (body_email body_password : string) (u : IUser) (w : World) :
  List.find (by_email body_email) (users w) = Some u ->
  comparePassword body_password u = true ->
  isActive u = true ->
  exists r w', login cfg E body_email body_password w = (Returned r, w')
               /\ status r = 200.
Proof.
  intros Hf Hc Ha. unfold login, User_findOne, bind at 1. rewrite Hf, Hc, Ha.
  simpl.
  destruct (save_unvalidated E u (with_lastLogin (Some (Date_now E)) u) w)
    as (doc & w' & Hs & _); try done.
  unfold bind at 1. rewrite Hs.
  unfold generateTokenPair, redis_setex, bind, ret. simpl.
  eexists _, _. split; reflexivity.
Qed.

(* ===================================================================== *)
(** ** The blacklist *)
(* ===================================================================== *)

(** C4.  [blacklistToken] reads [exp] from the unverified payload and
    takes [exp] minus the clock in seconds as the remaining life:
    - when that is positive, the marker ["1"] is stored under
      [blacklist:<token>] with exactly that time-to-live;
    - when the token has expired, or has no payload or no [exp] that
      can be read, the cache is left as it was. *)
Theorem blacklistToken_ttl `{P : Platform} (E : Env) (token : string) (w : World) :
  0 <= Date_now E ->
  (forall (d : Jwt.Claims) (e : Z),
     jwt_decode token = Some d -> Jwt.exp d = Some e ->
     0 < e - clock_seconds E ->
     blacklistToken E token w =
       (Returned tt,
        {| users := users w;
           redis := <[BLACKLIST_PREFIX +:+ token :=
                        {| value := "1"; set_at := Date_now E;
                           ttl := e - clock_seconds E |}]> (redis w) |}))
  /\ (jwt_decode token = None
      \/ (exists d, jwt_decode token = Some d
                    /\ (Jwt.exp d = None
                        \/ exists e, Jwt.exp d = Some e /\ e - clock_seconds E <= 0)) ->
      blacklistToken E token w = (Returned tt, w)).
Proof.
  intros Hnow.
  assert (Hclock : 0 <= clock_seconds E).
  { unfold clock_seconds. apply Z.div_pos; lia. }
  split.
  - intros d e Hd He Hpos. unfold blacklistToken. rewrite Hd, He.
    destruct (Z.eqb_spec e 0) as [->|_]; [lia|].
    destruct (Z.ltb_spec 0 (e - clock_seconds E)); [|lia].
    reflexivity.
  - intros [Hd|(d & Hd & [He|(e & He & Hle)])]; unfold blacklistToken;
      rewrite Hd; [done|by rewrite He|].
    rewrite He. destruct (Z.eqb_spec e 0); [done|].
    by destruct (Z.ltb_spec 0 (e - clock_seconds E)); [lia|].
Qed.

(** Alice's access token ([exp] = 905 s) blacklisted at 6 s and again at
    905 s; a string that is no token. *)
Lemma blacklistToken_ttl_witness :
  blacklistToken (P := Reference.platform) (Scenario.at_time 6000)
    Scenario.alice_access_token Scenario.store
    = (Returned tt,
       {| users := users Scenario.store;
          redis := <[BLACKLIST_PREFIX +:+ Scenario.alice_access_token :=
                       {| value := "1"; set_at := 6000; ttl := 899 |}]>
                     (redis Scenario.store) |})
  /\ blacklistToken (P := Reference.platform) (Scenario.at_time 905000)
       Scenario.alice_access_token Scenario.store
     = (Returned tt, Scenario.store)
  /\ blacklistToken (P := Reference.platform) (Scenario.at_time 6000)
       "not-a-token" Scenario.store
     = (Returned tt, Scenario.store).
Proof.
  split; [|split].
  - apply (blacklistToken_ttl (P := Reference.platform) (Scenario.at_time 6000)
             Scenario.alice_access_token Scenario.store)
      with (d := Scenario.alice_access_claims) (e := 905);
      vm_compute; (reflexivity || discriminate).
  - apply (blacklistToken_ttl (P := Reference.platform) (Scenario.at_time 905000)
             Scenario.alice_access_token Scenario.store).
    + vm_compute; discriminate.
    + right. exists Scenario.alice_access_claims.
      split; [vm_compute; reflexivity|].
      right. exists 905. split; [reflexivity|vm_compute; discriminate].
  - apply (blacklistToken_ttl (P := Reference.platform) (Scenario.at_time 6000)
             "not-a-token" Scenario.store).
    + vm_compute; discriminate.
    + left. vm_compute; reflexivity.
Defined.

(* ===================================================================== *)
(** ** Forgotten passwords *)
(* ===================================================================== *)

(** C5 (as stated, refuted).  With [NODE_ENV=development] the answer for a
    registered address carries the reset token and the answer for an
    unknown address does not: the two differ. *)
Lemma forgotPassword_development_reveals :
  List.find (by_email (P := Reference.platform) "alice@example.com")
    (users Scenario.store) = Some Scenario.alice
  /\ List.find (by_email (P := Reference.platform) "nobody@example.com")
       (users Scenario.store) = None
  /\ fst (forgotPassword (P := Reference.platform) Scenario.cfg_development
            (Scenario.at_time 5000) "alice@example.com" Scenario.store)
     <> fst (forgotPassword (P := Reference.platform) Scenario.cfg_development
               (Scenario.at_time 5000) "nobody@example.com" Scenario.store).
Proof.
  split; [reflexivity|]. split; [reflexivity|].
  vm_compute. discriminate.
Qed.

(** C5 (amended).  For a registered and for an unknown address
    [forgotPassword] answers 200 with [success: true] and the same generic
    message, and throws nothing.  Unless [NODE_ENV] is ['development'] the
    two answers are equal; in development the answer for the registered
    address has one more field, [resetToken]. *)
Theorem forgotPassword_uniform `{P : Platform} (cfg : Config) (E : Env)
    (known unknown : string) (u : IUser) (w : World) :
  List.find (by_email known) (users w) = Some u ->
  List.find (by_email unknown) (users w) = None ->
  exists (r1 r2 : Response) (w1 : World),
    forgotPassword cfg E known w = (Returned r1, w1)
    /\ forgotPassword cfg E unknown w = (Returned r2, w)
    /\ status r1 = 200 /\ status r2 = 200
    /\ obj_get "success" (body r1) = Some (JBool true)
    /\ obj_get "success" (body r2) = Some (JBool true)
    /\ obj_get "message" (body r1) = Some (JStr generic_reset_message)
    /\ obj_get "message" (body r2) = Some (JStr generic_reset_message)
    /\ (NODE_ENV cfg <> Some "development" -> r1 = r2)
    /\ (NODE_ENV cfg = Some "development" ->
        obj_get "resetToken" (body r1) = Some (JStr (random1 E +:+ random2 E))
        /\ obj_get "resetToken" (body r2) = None).
Proof.
  intros Hk Hu.
  unfold forgotPassword, User_findOne, bind at 1 3. rewrite Hk, Hu.
  unfold generatePasswordResetToken.
  destruct (save_unvalidated E u
              (with_passwordResetExpires (Some (Date_now E + 3600000))
                 (with_passwordResetToken (Some (random1 E +:+ random2 E)) u)) w)
    as (doc & w1 & Hs & _); try done.
  unfold bind. rewrite Hs. unfold ret.
  eexists _, _, w1. split; [reflexivity|]. split; [reflexivity|].
  repeat (split; [reflexivity|]).
  split.
  - intros Hne. by rewrite bool_decide_eq_false_2.
  - intros He. by rewrite bool_decide_eq_true_2.
Qed.

Lemma forgotPassword_uniform_witness :
  exists (r1 r2 : Response) (w1 : World),
    forgotPassword (P := Reference.platform) Scenario.cfg (Scenario.at_time 5000)
      "ALICE@Example.com" Scenario.store = (Returned r1, w1)
    /\ forgotPassword (P := Reference.platform) Scenario.cfg (Scenario.at_time 5000)
         "nobody@example.com" Scenario.store = (Returned r2, Scenario.store)
    /\ r1 = r2.
Proof.
  destruct (forgotPassword_uniform (P := Reference.platform) Scenario.cfg
              (Scenario.at_time 5000) "ALICE@Example.com" "nobody@example.com"
              Scenario.alice Scenario.store)
    as (r1 & r2 & w1 & H1 & H2 & _ & _ & _ & _ & _ & _ & Heq & _);
    [reflexivity|reflexivity|].
  exists r1, r2, w1. split; [exact H1|]. split; [exact H2|].
  apply Heq. discriminate.
Defined.

(* ===================================================================== *)
(** ** Password reset *)
(* ===================================================================== *)

Lemma reset_filter_spec (E : Env) (token : string) (u : IUser) :
  reset_filter E token u = true <-> holds_reset_token E token u.
Proof.
  unfold reset_filter, holds_reset_token. rewrite andb_true_iff, bool_decide_eq_true.
  split.
  - intros [Ht Hx]. split; [done|].
    destruct (passwordResetExpires u) as [t|]; [|done].
    exists t. split; [done|]. by apply Z.ltb_lt.
  - intros [Ht (t & -> & Hlt)]. split; [done|]. by apply Z.ltb_lt.
Qed.

Lemma find_None_iff {A : Type} (f : A -> bool) (l : list A) :
  List.find f l = None <-> forall x, x ∈ l -> f x = false.
Proof.
  split.
  - intros H x Hx. apply list_elem_of_In in Hx. by apply (List.find_none f l).
  - intros H. destruct (List.find f l) as [x|] eqn:Hf; [|done].
    apply List.find_some in Hf as [Hin Hx].
    apply list_elem_of_In in Hin. rewrite (H x Hin) in Hx. discriminate.
Qed.

(** In a store with distinct identifiers, saving [doc] leaves no other
    document with the identifier of [doc]. *)
Lemma store_replace_NoDup (doc v : IUser) (l : list IUser) :
  List.NoDup (List.map _id l) ->
  v ∈ store_replace doc l ->
  v = doc \/ (v ∈ l /\ _id v <> _id doc).
Proof.
  induction l as [|y l IH]; simpl; intros Hnd Hv.
  - by apply elem_of_nil in Hv.
  - apply List.NoDup_cons_iff in Hnd as [Hy Hnd].
    destruct (String.eqb (_id y) (_id doc)) eqn:Hyd.
    + apply String.eqb_eq in Hyd.
      apply elem_of_cons in Hv as [->|Hv]; [by left|].
      right. split; [by apply elem_of_cons; right|].
      intros Hid. apply Hy. rewrite Hyd, <- Hid.
      apply List.in_map. by apply list_elem_of_In.
    + apply String.eqb_neq in Hyd.
      apply elem_of_cons in Hv as [->|Hv].
      * right. split; [by apply elem_of_cons; left|done].
      * destruct (IH Hnd Hv) as [->|[Hin Hne]]; [by left|].
        right. split; [by apply elem_of_cons; right|done].
Qed.

(** For a user found by the reset filter and a password the schema
    accepts, [save] stores the document with the token fields cleared. *)
Lemma save_reset `{P : Platform} (E : Env) (token body_password : string)
    (u : IUser) (w : World) :
  reset_filter E token u = true ->
  (6 <= String_length body_password)%nat ->
  exists doc : IUser,
    save E u (reset_doc body_password u) w
      = (Returned doc, {| users := store_replace doc (users w); redis := redis w |})
    /\ _id doc = _id u
    /\ passwordResetToken doc = None
    /\ passwordResetExpires doc = None
    /\ password doc = (if bool_decide (body_password = password u)
                       then password u
                       else bcrypt_hash body_password (genSalt E)).
Proof.
  intros Hf Hlen. apply reset_filter_spec in Hf as [Ht _].
  unfold save. rewrite bool_decide_eq_false_2.
  2:{ intros Heq. apply (f_equal passwordResetToken) in Heq.
      simpl in Heq. congruence. }
  unfold validation_error. simpl.
  rewrite !bool_decide_eq_true_2 by done. simpl.
  replace (Z.of_nat (String_length body_password) <? 6) with false
    by (symmetry; apply Z.ltb_ge; lia).
  rewrite andb_false_r.
  eexists. split; [reflexivity|]. unfold pre_save. simpl.
  case_bool_decide as Hp; simpl;
    (split; [done|]); (split; [done|]); (split; [done|]).
  - by rewrite bool_decide_eq_true_2.
  - rewrite bool_decide_eq_false_2; [done|congruence].
Qed.

(** C6 (as stated, refuted).  A user holds the reset token, unexpired, and
    the reset does not succeed: the new password ['abc'] is shorter than
    the [minlength: 6] of the schema, [save] throws a ValidationError, and
    nothing is written (the token stays usable). *)
Lemma resetPassword_short_password_refused :
  Scenario.carol ∈ users Scenario.store_reset
  /\ holds_reset_token (Scenario.at_time 1000) "resettoken" Scenario.carol
  /\ resetPassword (P := Reference.platform) (Scenario.at_time 1000)
       "resettoken" "abc" Scenario.store_reset
     = (Thrown (JsError "ValidationError" "password"), Scenario.store_reset).
Proof.
  split; [apply elem_of_cons; by left|].
  split; [|vm_compute; reflexivity].
  split; [reflexivity|]. exists 3600000. split; [reflexivity|].
  vm_compute; reflexivity.
Qed.

(** C6 (amended).
    - [generatePasswordResetToken] sets the token and an expiry one hour
      (3 600 000 ms) after the clock.
    - When no user holds the token with an expiry strictly after the
      clock, [resetPassword] throws INVALID_TOKEN (400) and changes
      nothing.
    - For a new password the schema accepts (six characters or more),
      [resetPassword] succeeds exactly when some user holds the token with
      an expiry strictly after the clock; it then stores, for the first
      such user, the hash of the new password (a new password equal,
      character for character, to the stored hash is no modification and
      stays as it is) with both reset fields cleared; and when that user
      was the only one holding the token (in a store with distinct
      identifiers) every later reset with the same token throws
      INVALID_TOKEN. *)
Theorem resetPassword_window `{P : Platform} (E : Env)
    (body_token body_password : string) (w : World) :
  (forall u : IUser,
     passwordResetExpires (snd (generatePasswordResetToken E u))
       = Some (Date_now E + 3600000)
     /\ passwordResetToken (snd (generatePasswordResetToken E u))
        = Some (fst (generatePasswordResetToken E u)))
  /\ ((forall u, u ∈ users w -> ~ holds_reset_token E body_token u) ->
      resetPassword E body_token body_password w
        = (Thrown (AppErr INVALID_RESET_TOKEN), w))
  /\ statusCode INVALID_RESET_TOKEN = 400
  /\ ((6 <= String_length body_password)%nat ->
      ((exists r w', resetPassword E body_token body_password w = (Returned r, w'))
       <-> (exists u, u ∈ users w /\ holds_reset_token E body_token u))
      /\ (forall r w',
            resetPassword E body_token body_password w = (Returned r, w') ->
            exists u doc : IUser,
              List.find (reset_filter E body_token) (users w) = Some u
              /\ holds_reset_token E body_token u
              /\ w' = {| users := store_replace doc (users w); redis := redis w |}
              /\ _id doc = _id u
              /\ passwordResetToken doc = None
              /\ passwordResetExpires doc = None
              /\ password doc = (if bool_decide (body_password = password u)
                                 then password u
                                 else bcrypt_hash body_password (genSalt E))
              /\ (List.NoDup (List.map _id (users w)) ->
                  (forall v, v ∈ users w ->
                             passwordResetToken v = Some body_token -> v = u) ->
                  forall (E2 : Env) (pw2 : string),
                    resetPassword E2 body_token pw2 w'
                      = (Thrown (AppErr INVALID_RESET_TOKEN), w')))).
Proof.
  split; [by intros u|].
  split.
  { intros Hnone. unfold resetPassword, User_findOne, bind at 1.
    replace (List.find (reset_filter E body_token) (users w)) with (@None IUser);
      [done|].
    symmetry. apply find_None_iff. intros u Hu.
    destruct (reset_filter E body_token u) eqn:Hf; [|done].
    apply reset_filter_spec in Hf. by destruct (Hnone u Hu). }
  split; [done|].
  intros Hlen.
  assert (Hrun : forall u, List.find (reset_filter E body_token) (users w) = Some u ->
            exists doc, resetPassword E body_token body_password w
                        = (Returned reset_response,
                           {| users := store_replace doc (users w); redis := redis w |})
              /\ _id doc = _id u /\ passwordResetToken doc = None
              /\ passwordResetExpires doc = None
              /\ password doc = (if bool_decide (body_password = password u)
                                 then password u
                                 else bcrypt_hash body_password (genSalt E))).
  { intros u Hf. pose proof Hf as Hf'. apply List.find_some in Hf' as [_ Hflt].
    destruct (save_reset E body_token body_password u w Hflt Hlen)
      as (doc & Hs & Hrest).
    exists doc. split; [|exact Hrest].
    unfold resetPassword, User_findOne, bind at 1. rewrite Hf.
    unfold bind. by rewrite Hs. }
  split.
  - split.
    + intros (r & w' & Hr). revert Hr.
      unfold resetPassword, User_findOne, bind at 1.
      destruct (List.find _ _) as [u|] eqn:Hf; [|discriminate].
      intros _. apply List.find_some in Hf as [Hin Hflt].
      exists u. split; [by apply list_elem_of_In|by apply reset_filter_spec].
    + intros (u & Hin & Hh).
      destruct (List.find (reset_filter E body_token) (users w)) as [u'|] eqn:Hf.
      * destruct (Hrun u' eq_refl) as (doc & Hr & _). eauto.
      * apply reset_filter_spec in Hh.
        rewrite (proj1 (find_None_iff _ _) Hf u Hin) in Hh. discriminate.
  - intros r w' Hr.
    destruct (List.find (reset_filter E body_token) (users w)) as [u|] eqn:Hf.
    2:{ revert Hr. unfold resetPassword, User_findOne, bind at 1.
        by rewrite Hf. }
    destruct (Hrun u eq_refl) as (doc & Hr' & Hid & Htok & Hexp & Hpw).
    rewrite Hr' in Hr. injection Hr as <- <-.
    pose proof Hf as Hf'. apply List.find_some in Hf' as [_ Hflt].
    exists u, doc. repeat (split; [done || by apply reset_filter_spec|]).
    intros Hnd Huniq E2 pw2.
    unfold resetPassword, User_findOne, bind at 1. simpl.
    replace (List.find (reset_filter E2 body_token) (store_replace doc (users w)))
      with (@None IUser); [done|].
    symmetry. apply find_None_iff. intros v Hv.
    destruct (reset_filter E2 body_token v) eqn:Hv2; [|done].
    apply reset_filter_spec in Hv2 as [Hvt _].
    destruct (store_replace_NoDup doc v (users w) Hnd Hv) as [->|[Hin Hne]].
    + congruence.
    + rewrite (Huniq v Hin Hvt) in Hne. by destruct Hne.
Qed.

(** A new password shorter than the schema's [minlength] is refused by
    [save], and the token stays usable. *)
Lemma resetPassword_short_password `{P : Platform} (E : Env)
    (body_token body_password : string) (u : IUser) (w : World) :
  List.find (reset_filter E body_token) (users w) = Some u ->
  body_password <> password u ->
  (String_length body_password < 6)%nat ->
  resetPassword E body_token body_password w
    = (Thrown (JsError "ValidationError" "password"), w).
Proof.
  intros Hf Hne Hlen. pose proof Hf as Hf'.
  apply List.find_some in Hf' as [_ Hflt].
  apply reset_filter_spec in Hflt as [Ht _].
  unfold resetPassword, User_findOne, bind at 1. rewrite Hf.
  unfold bind, save. rewrite bool_decide_eq_false_2.
  2:{ intros Heq. apply (f_equal passwordResetToken) in Heq.
      simpl in Heq. congruence. }
  unfold validation_error. simpl.
  rewrite !bool_decide_eq_true_2 by done. simpl.
  rewrite bool_decide_eq_false_2 by congruence. simpl.
  replace (Z.of_nat (String_length body_password) <? 6) with true
    by (symmetry; apply Z.ltb_lt; lia).
  reflexivity.
Qed.

(** Carol alone holds the token: the reset at 1 s goes through, the same
    token presented again at 2 s is refused. *)
Lemma resetPassword_window_witness :
  (exists r w', resetPassword (P := Reference.platform) (Scenario.at_time 1000)
                  "resettoken" "newpassword1" Scenario.store_reset
                = (Returned r, w'))
  /\ resetPassword (P := Reference.platform) (Scenario.at_time 2000)
       "resettoken" "newpassword2"
       (snd (resetPassword (P := Reference.platform) (Scenario.at_time 1000)
               "resettoken" "newpassword1" Scenario.store_reset))
     = (Thrown (AppErr INVALID_RESET_TOKEN),
        snd (resetPassword (P := Reference.platform) (Scenario.at_time 1000)
               "resettoken" "newpassword1" Scenario.store_reset)).
Proof.
  destruct (resetPassword_window (P := Reference.platform) (Scenario.at_time 1000)
              "resettoken" "newpassword1" Scenario.store_reset)
    as (_ & _ & _ & H).
  destruct H as [Hiff Heff]; [vm_compute; lia|].
  assert (Hex : exists r w',
             resetPassword (P := Reference.platform) (Scenario.at_time 1000)
               "resettoken" "newpassword1" Scenario.store_reset = (Returned r, w')).
  { apply Hiff. exists Scenario.carol. split.
    - apply elem_of_cons. by left.
    - split; [reflexivity|]. exists 3600000. split; [reflexivity|].
      vm_compute; reflexivity. }
  split; [exact Hex|].
  destruct Hex as (r & w' & Hr).
  destruct (Heff r w' Hr) as (u & doc & Hf & _ & Hw & _ & _ & _ & _ & Hsingle).
  rewrite Hr. simpl snd.
  apply Hsingle.
  - vm_compute. repeat constructor; simpl; intuition discriminate.
  - injection Hf as <-. intros v Hv Ht.
    apply elem_of_cons in Hv as [->|Hv]; [done|].
    apply elem_of_cons in Hv as [->|Hv]; [discriminate Ht|].
    by apply elem_of_nil in Hv.
Defined.

(* ===================================================================== *)
(** ** Serialisation of a user *)
(* ===================================================================== *)

(** C7.  Whatever the stored record holds, the object [toJSON] yields has
    no [password], no [refreshTokens], no [emailVerificationToken] and no
    [passwordResetToken]; the identity fields are still there. *)
Theorem toJSON_strips_sensitive (u : IUser) :
  exists o : list (string * JSON),
    toJSON u = JObj o
    /\ js_get "password" o = None
    /\ js_get "refreshTokens" o = None
    /\ js_get "emailVerificationToken" o = None
    /\ js_get "passwordResetToken" o = None
    /\ js_get "_id" o = Some (JStr (_id u))
    /\ js_get "email" o = Some (JStr (email u)).
Proof.
  exists (toJSON_transform (toObject u)). split; [reflexivity|].
  unfold toObject.
  destruct (emailVerificationToken u), (passwordResetToken u),
    (passwordResetExpires u), (lastLogin u); repeat split; reflexivity.
Qed.

(** The profile a client reads is the [toJSON] of the stored record. *)
Lemma getProfile_serialises `{P : Platform} (ctx : Context) (w w' : World) (r : Response) :
  getProfile ctx w = (Returned r, w') ->
  exists (d : Jwt.Claims) (u : IUser),
    user ctx = Some d
    /\ List.find (fun x => String.eqb (_id x) (Jwt.userId d)) (users w) = Some u
    /\ w' = w
    /\ r = {| status := 200;
              body := JObj [("success", JBool true);
                            ("data", JObj [("user", toJSON u)])] |}.
Proof.
  unfold getProfile. destruct (user ctx) as [d|]; [|discriminate].
  unfold User_findById, User_findOne, bind.
  destruct (List.find _ _) as [u|] eqn:Hf; [|discriminate].
  unfold ret. intros [= <- <-]. by exists d, u.
Qed.

(* ===================================================================== *)
(** ** Issuing a token pair *)
(* ===================================================================== *)

(** What [generateTokenPair] does, for every configuration: the refresh
    token is registered for 604 800 seconds, while the token itself is
    signed to live for the span of [refreshExpiresIn]. *)
Lemma generateTokenPair_registry `{P : Platform} (cfg : Config) (E : Env)
    (u : IUser) (w : World) :
  let rt := generateRefreshToken cfg E u in
  let claims := jwt_claims E (refresh_payload u) (refresh_options cfg) in
  generateTokenPair cfg E u w =
    (Returned {| TokenPair.accessToken := generateAccessToken cfg E u;
                 TokenPair.refreshToken := rt |},
     {| users := users w;
        redis := <[TOKEN_PREFIX +:+ rt :=
                     {| value := _id u; set_at := Date_now E; ttl := 604800 |}]>
                   (redis w) |})
  /\ rt = jws_encode (refreshSecret (jwt cfg)) claims
  /\ Jwt.iat claims = Some (clock_seconds E)
  /\ Jwt.exp claims
     = Some (clock_seconds E + timespan_seconds (refreshExpiresIn (jwt cfg))).
Proof. repeat split. Qed.

(** Under the default configuration the two agree. *)
Lemma default_refresh_lifetime :
  timespan_seconds (refreshExpiresIn default_jwt) = 604800.
Proof. reflexivity. Qed.

(** C8 (the code departs from it).  The claim: the registry entry lives as
    long as the refresh token, for every configured lifetime.  With
    [JWT_REFRESH_EXPIRES_IN=30d] the token Alice is issued at 5 s is signed
    to expire 2 592 000 s later, and its registry entry is stored with a
    time-to-live of 604 800 s.  Eight days later the token still verifies,
    the registry no longer knows it, and [refreshToken] answers
    INVALID_REFRESH_TOKEN. *)
Theorem registry_ttl_ignores_refreshExpiresIn :
  let issue := Scenario.at_time 5000 in
  let rt := generateRefreshToken (P := Reference.platform) Scenario.cfg_30d issue
              Scenario.alice in
  let w' := snd (generateTokenPair (P := Reference.platform) Scenario.cfg_30d issue
                   Scenario.alice Scenario.store) in
  timespan_seconds (refreshExpiresIn (jwt Scenario.cfg_30d)) = 2592000
  /\ (Jwt.exp <$> jwt_decode (P := Reference.platform) rt) = Some (Some (5 + 2592000))
  /\ (ttl <$> redis w' !! (TOKEN_PREFIX +:+ rt)) = Some 604800
  /\ (exists d, verifyRefreshToken (P := Reference.platform) Scenario.cfg_30d
                  Scenario.day8 rt w' = (Returned d, w'))
  /\ store_get (Date_now Scenario.day8) (redis w') (TOKEN_PREFIX +:+ rt) = None
  /\ refreshToken (P := Reference.platform) Scenario.cfg_30d Scenario.day8 rt w'
     = (Thrown (AppErr INVALID_REFRESH_TOKEN), w').
Proof.
  cbv zeta. split; [reflexivity|]. split; [vm_compute; reflexivity|].
  split; [vm_compute; reflexivity|].
  split; [eexists; vm_compute; reflexivity|].
  split; [vm_compute; reflexivity|].
  apply refreshToken_registry_miss. vm_compute; reflexivity.
Qed.

(* ===================================================================== *)
(** ** Profile update *)
(* ===================================================================== *)

(** [save] on a document whose password was not touched: either the
    store is left alone (nothing modified, or a validator refused), or the
    document is stored with a fresh [updatedAt]. *)
Lemma save_same_password `{P : Platform} (E : Env) (orig cur : IUser)
    (w w' : World) (r : outcome IUser) :
  password cur = password orig ->
  save E orig cur w = (r, w') ->
  w' = w
  \/ w' = {| users := store_replace (with_updatedAt (Date_now E) cur) (users w);
             redis := redis w |}.
Proof.
  intros Hp. unfold save. case_bool_decide as Heq.
  - unfold ret. intros [= <- <-]. by left.
  - destruct (validation_error orig cur).
    + unfold throw. intros [= <- <-]. by left.
    + unfold pre_save. rewrite bool_decide_eq_true_2 by done.
      intros [= <- <-]. by right.
Qed.

(** Where [store_replace] acts when the document was loaded by its
    identifier: on the loaded document and nowhere else. *)
Lemma store_replace_found (doc orig : IUser) (l : list IUser) (i : nat) (x x' : IUser) :
  List.find (fun y => String.eqb (_id y) (_id doc)) l = Some orig ->
  l !! i = Some x -> store_replace doc l !! i = Some x' ->
  x' = x \/ (x = orig /\ x' = doc).
Proof.
  revert i. induction l as [|y l IH]; intros i Hf Hx Hx'; [done|].
  simpl in Hf, Hx'. destruct (String.eqb (_id y) (_id doc)) eqn:Hy.
  - injection Hf as <-. destruct i as [|i]; simpl in *.
    + right. split; congruence.
    + left. congruence.
  - destruct i as [|i]; simpl in *.
    + left. congruence.
    + eauto.
Qed.

Lemma profile_edit_frame `{P : Platform} (fn ln : option string) (u : IUser) (now : Z) :
  profile_frame u (with_updatedAt now (profile_edit fn ln u))
  /\ (truthy fn = false ->
      firstName (with_updatedAt now (profile_edit fn ln u)) = firstName u)
  /\ (truthy ln = false ->
      lastName (with_updatedAt now (profile_edit fn ln u)) = lastName u).
Proof.
  unfold profile_edit, profile_frame.
  destruct fn as [f|], ln as [l|]; simpl;
    repeat match goal with
           | |- context [String.eqb ?a ""] => destruct (String.eqb a "")
           end; simpl; repeat split; try done.
Qed.

Lemma updateProfile_found `{P : Platform} (E : Env) (ctx : Context)
    (body_firstName body_lastName : option string) (w : World)
    (d : Jwt.Claims) (orig : IUser) :
  user ctx = Some d ->
  List.find (fun x => String.eqb (_id x) (Jwt.userId d)) (users w) = Some orig ->
  updateProfile E ctx body_firstName body_lastName w =
    bind (save E orig (profile_edit body_firstName body_lastName orig))
      (fun user' =>
         ret {| status := 200;
                body := JObj [("success", JBool true);
                              ("message", JStr "Profile updated successfully");
                              ("data", JObj [("user", toJSON user')])] |}) w.
Proof.
  intros Hd Hf. unfold updateProfile, User_findById, User_findOne. rewrite Hd.
  unfold bind at 1. cbv beta. by rewrite Hf.
Qed.

Lemma updateProfile_rejected `{P : Platform} (E : Env) (ctx : Context)
    (body_firstName body_lastName : option string) (w : World) :
  user ctx = None
  \/ (exists d, user ctx = Some d
                /\ List.find (fun x => String.eqb (_id x) (Jwt.userId d)) (users w)
                   = None) ->
  snd (updateProfile E ctx body_firstName body_lastName w) = w.
Proof.
  intros [Hd|(d & Hd & Hf)]; unfold updateProfile; rewrite Hd; [done|].
  unfold User_findById, User_findOne, bind at 1. cbv beta. by rewrite Hf.
Qed.

(** C10 (as stated, refuted).  Alice changes her first name at 9 s: the
    stored record also has a new [updatedAt] (9000 instead of 0). *)
Lemma updateProfile_touches_updatedAt :
  users Scenario.store !! 0%nat = Some Scenario.alice
  /\ users (snd (updateProfile (P := Reference.platform) (Scenario.at_time 9000)
                   Scenario.as_alice (Some "Alicia") None Scenario.store)) !! 0%nat
     = Some (with_updatedAt 9000 (with_firstName "Alicia" Scenario.alice))
  /\ updatedAt (with_updatedAt 9000 (with_firstName "Alicia" Scenario.alice))
     <> updatedAt Scenario.alice.
Proof.
  split; [reflexivity|]. split; [vm_compute; reflexivity|].
  simpl. discriminate.
Qed.

(** C10 (amended).  Whatever [updateProfile] answers, the cache is as it
    was and so is every stored record but the caller's; the caller's
    record keeps every path but [firstName], [lastName] and [updatedAt]
    (which [save] sets, the schema having [timestamps: true]); and a name
    the request leaves out or gives as the empty string keeps its stored
    value. *)
Theorem updateProfile_frame `{P : Platform} (E : Env) (ctx : Context)
    (body_firstName body_lastName : option string) (w : World) :
  let w' := snd (updateProfile E ctx body_firstName body_lastName w) in
  redis w' = redis w
  /\ length (users w') = length (users w)
  /\ forall (i : nat) (u u' : IUser),
       users w !! i = Some u -> users w' !! i = Some u' ->
       profile_frame u u'
       /\ (truthy body_firstName = false -> firstName u' = firstName u)
       /\ (truthy body_lastName = false -> lastName u' = lastName u)
       /\ (forall d, user ctx = Some d -> _id u <> Jwt.userId d -> u' = u).
Proof.
  assert (Hsame : forall u, profile_frame u u) by (intros u; by repeat split).
  assert (Hkeep : forall w0 : World,
            w0 = w ->
            redis w0 = redis w /\ length (users w0) = length (users w)
            /\ forall (i : nat) (u u' : IUser),
                 users w !! i = Some u -> users w0 !! i = Some u' ->
                 profile_frame u u'
                 /\ (truthy body_firstName = false -> firstName u' = firstName u)
                 /\ (truthy body_lastName = false -> lastName u' = lastName u)
                 /\ (forall d, user ctx = Some d -> _id u <> Jwt.userId d -> u' = u)).
  { intros w0 ->. repeat split; try done; intros; congruence. }
  cbv zeta.
  destruct (user ctx) as [d|] eqn:Hd.
  2:{ rewrite (updateProfile_rejected E ctx body_firstName body_lastName w)
        by (by left).
      by apply Hkeep. }
  destruct (List.find (fun x => String.eqb (_id x) (Jwt.userId d)) (users w))
    as [orig|] eqn:Hf.
  2:{ rewrite (updateProfile_rejected E ctx body_firstName body_lastName w)
        by (right; eauto).
      by apply Hkeep. }
  rewrite (updateProfile_found E ctx body_firstName body_lastName w d orig Hd Hf).
  set (cur := profile_edit body_firstName body_lastName orig).
  unfold bind.
  assert (Hpw : password cur = password orig).
  { destruct (profile_edit_frame body_firstName body_lastName orig 0)
      as [(_ & _ & Hp & _) _]. exact Hp. }
  destruct (save E orig cur w) as [r w1] eqn:Hs.
  assert (Hmain : redis w1 = redis w /\ length (users w1) = length (users w)
            /\ forall (i : nat) (u u' : IUser),
                 users w !! i = Some u -> users w1 !! i = Some u' ->
                 profile_frame u u'
                 /\ (truthy body_firstName = false -> firstName u' = firstName u)
                 /\ (truthy body_lastName = false -> lastName u' = lastName u)
                 /\ (forall d0, Some d = Some d0 -> _id u <> Jwt.userId d0 -> u' = u));
    [|by destruct r].
  destruct (save_same_password E orig cur w w1 r Hpw Hs) as [->| ->];
    [by apply Hkeep|].
  simpl. split; [done|]. split; [apply store_replace_length|].
  intros i u u' Hu Hu'.
  destruct (find_by_id_Some _ _ _ Hf) as [Hid _].
  destruct (profile_edit_frame body_firstName body_lastName orig (Date_now E))
    as (Hframe & Hfn & Hln).
  fold cur in Hframe, Hfn, Hln.
  assert (Hdoc : _id (with_updatedAt (Date_now E) cur) = Jwt.userId d).
  { destruct Hframe as [-> _]. exact Hid. }
  rewrite <- Hdoc in Hf.
  destruct (store_replace_found _ _ _ i u u' Hf Hu Hu') as [->|[-> ->]].
  - split; [apply Hsame|]. repeat split; done.
  - split; [exact Hframe|]. split; [exact Hfn|]. split; [exact Hln|].
    intros d0 [= <-] Hne. by destruct Hne.
Qed.

(** Alice sends a first name and an empty last name. *)
Lemma updateProfile_frame_witness :
  profile_frame Scenario.alice
    (with_updatedAt 9000 (with_firstName "Alicia" Scenario.alice))
  /\ lastName (with_updatedAt 9000 (with_firstName "Alicia" Scenario.alice))
     = lastName Scenario.alice.
Proof.
  destruct (updateProfile_frame (P := Reference.platform) (Scenario.at_time 9000)
              Scenario.as_alice (Some " Alicia ") (Some "") Scenario.store)
    as (_ & _ & H).
  destruct (H 0%nat Scenario.alice
              (with_updatedAt 9000 (with_firstName "Alicia" Scenario.alice)))
    as (Hframe & _ & Hln & _); [reflexivity|vm_compute; reflexivity|].
  split; [exact Hframe|]. apply Hln. reflexivity.
Defined.

(* ===================================================================== *)
(** ** Logout *)
(* ===================================================================== *)

Lemma clock_seconds_mono (E E' : Env) :
  Date_now E <= Date_now E' -> clock_seconds E <= clock_seconds E'.
Proof. intros H. unfold clock_seconds. apply Z.div_le_mono; lia. Qed.

Lemma clock_seconds_bounds (E : Env) :
  clock_seconds E * 1000 <= Date_now E < (clock_seconds E + 1) * 1000.
Proof.
  unfold clock_seconds.
  pose proof (Z.div_mod (Date_now E) 1000 ltac:(lia)).
  pose proof (Z.mod_pos_bound (Date_now E) 1000 ltac:(lia)). lia.
Qed.

(** The world [blacklistToken] leaves for a token with time left. *)
Lemma blacklistToken_writes `{P : Platform} (E : Env) (token : string)
    (d : Jwt.Claims) (e : Z) (w : World) :
  0 <= Date_now E ->
  jwt_decode token = Some d -> Jwt.exp d = Some e ->
  0 < e - clock_seconds E ->
  blacklistToken E token w =
    (Returned tt,
     {| users := users w;
        redis := <[BLACKLIST_PREFIX +:+ token :=
                     {| value := "1"; set_at := Date_now E;
                        ttl := e - clock_seconds E |}]> (redis w) |}).
Proof.
  intros Hnow Hd He Hpos. unfold blacklistToken. rewrite Hd, He.
  pose proof (clock_seconds_bounds E).
  destruct (Z.eqb_spec e 0) as [->|_]; [lia|].
  by destruct (Z.ltb_spec 0 (e - clock_seconds E)); [|lia].
Qed.

(** [blacklistToken] never throws and never touches the users. *)
Lemma blacklistToken_returns `{P : Platform} (E : Env) (token : string) (w : World) :
  exists w', blacklistToken E token w = (Returned tt, w') /\ users w' = users w.
Proof.
  unfold blacklistToken.
  repeat match goal with
         | |- context [match ?x with _ => _ end] => destruct x
         end; unfold ret, redis_setex; eauto.
Qed.

(** The world [logout] leaves, whatever it answers: the blacklist write of
    [blacklistToken], then the registry entry of the body's refresh token
    deleted. *)
Lemma logout_world `{P : Platform} (E : Env) (ctx : Context)
    (body_refreshToken : option string) (w : World) (h : string) :
  authorization ctx = Some h ->
  let wb := snd (blacklistToken E (nth 1 (split " " h) "") w) in
  snd (logout E ctx body_refreshToken w) =
    if truthy body_refreshToken
    then {| users := users wb;
            redis := delete (TOKEN_PREFIX +:+ default "" body_refreshToken) (redis wb) |}
    else wb.
Proof.
  intros Hh. cbv zeta. unfold logout. rewrite Hh.
  unfold bind at 1.
  destruct (blacklistToken_returns E (nth 1 (split " " h) "") w) as (wb & -> & _).
  simpl snd. unfold bind.
  destruct body_refreshToken as [t|]; simpl.
  - destruct (String.eqb t ""); simpl.
    + unfold ret. by destruct (user ctx).
    + unfold invalidateRefreshToken, redis_del. simpl. by destruct (user ctx).
  - unfold ret. by destruct (user ctx).
Qed.

(** X1.  A token that went through [logout] is never let through again.
    For an access token whose payload carries [exp], the guard answers
    every later request that presents it without running the handler:
    TOKEN_REVOKED while the token's own lifetime lasts, and afterwards
    TOKEN_REVOKED or INVALID_TOKEN (NO_TOKEN if the header was no bearer
    header in the first place). *)
Theorem logout_revokes_access_token `{P : Platform} (cfg : Config) (E E' : Env)
    {A : Type} (ctx : Context) (body_refreshToken : option string)
    (next : Context -> M A) (w : World) (h : string) (d : Jwt.Claims) (e : Z) :
  authorization ctx = Some h ->
  jwt_decode (nth 1 (split " " h) "") = Some d ->
  Jwt.exp d = Some e ->
  0 <= Date_now E -> Date_now E <= Date_now E' ->
  let w1 := snd (logout E ctx body_refreshToken w) in
  exists err : AppError,
    authMiddleware cfg E' ctx next w1 = (Thrown (AppErr err), w1)
    /\ (err = NO_TOKEN \/ err = TOKEN_REVOKED \/ err = INVALID_TOKEN_401)
    /\ (startsWith "Bearer " h = true -> clock_seconds E' < e ->
        err = TOKEN_REVOKED).
Proof.
  intros Hh Hd He Hnow Hlater w1.
  destruct (startsWith "Bearer " h) eqn:Hb.
  2:{ exists NO_TOKEN. split; [|split; [auto|done]].
      unfold authMiddleware. rewrite Hh, Hb. by rewrite orb_true_r. }
  rewrite (authMiddleware_bearer cfg E' ctx next w1 h Hh Hb). cbv zeta.
  set (token := nth 1 (split " " h) "") in *.
  assert (Hverify : e <= clock_seconds E' ->
            forall w0, verifyAccessToken cfg E' token w0
                       = (Thrown (JsError "Error" "Invalid or expired token"), w0)).
  { intros Hexp w0. unfold verifyAccessToken, jwt_verify.
    unfold jwt_decode in Hd. rewrite Hd, He.
    destruct (jws_check _ _); simpl; [|done].
    by destruct (Z.leb_spec e (clock_seconds E')); [|lia]. }
  assert (Hblack : clock_seconds E' < e ->
            store_get (Date_now E') (redis w1) (BLACKLIST_PREFIX +:+ token) = Some "1").
  { intros Hlt. unfold w1. rewrite (logout_world E ctx body_refreshToken w h Hh).
    cbv zeta. fold token.
    pose proof (clock_seconds_mono E E' Hlater) as Hmono.
    rewrite (blacklistToken_writes E token d e w) by (done || lia). simpl snd.
    assert (Hlive : live (Date_now E')
                      {| value := "1"; set_at := Date_now E;
                         ttl := e - clock_seconds E |} = true).
    { unfold live; simpl.
      pose proof (clock_seconds_bounds E). pose proof (clock_seconds_bounds E').
      apply Z.ltb_lt. lia. }
    destruct (truthy body_refreshToken); simpl.
    - rewrite store_get_delete_ne
        by (intros Hk; symmetry in Hk; by apply blacklist_key_ne_token_key in Hk).
      rewrite store_get_insert_eq. by rewrite Hlive.
    - rewrite store_get_insert_eq. by rewrite Hlive. }
  case_bool_decide as Hbl.
  - exists TOKEN_REVOKED. split; [done|]. split; auto.
  - exists INVALID_TOKEN_401.
    destruct (Z.le_gt_cases e (clock_seconds E')) as [Hexp|Hlt];
      [|by destruct Hbl; apply Hblack; lia].
    split; [|split; [auto|lia]].
    unfold rethrow_unless_AppError, try_catch, bind.
    by rewrite (Hverify Hexp w1).
Qed.

(** Alice logs out at 6 s; a second later the guard refuses her token. *)
Lemma logout_revokes_access_token_witness :
  authMiddleware (P := Reference.platform) Scenario.cfg (Scenario.at_time 7000)
    Scenario.as_alice Scenario.whoami
    (snd (logout (P := Reference.platform) (Scenario.at_time 6000)
            Scenario.as_alice None Scenario.store))
  = (Thrown (AppErr TOKEN_REVOKED),
     snd (logout (P := Reference.platform) (Scenario.at_time 6000)
            Scenario.as_alice None Scenario.store)).
Proof.
  destruct (logout_revokes_access_token (P := Reference.platform) Scenario.cfg
              (Scenario.at_time 6000) (Scenario.at_time 7000) Scenario.as_alice None
              Scenario.whoami Scenario.store
              ("Bearer " +:+ Scenario.alice_access_token)
              Scenario.alice_access_claims 905)
    as (err & Hrun & _ & Hrev);
    [reflexivity|vm_compute; reflexivity|reflexivity|vm_compute; discriminate
    |vm_compute; discriminate|].
  rewrite Hrun. rewrite (Hrev eq_refl); [reflexivity|vm_compute; reflexivity].
Defined.

(** X2.  [logout] with a refresh token in the body ends that session: every
    later [refreshToken] presenting it is answered INVALID_REFRESH_TOKEN.
    No other registry entry is deleted, and without a refresh token in the
    body none is. *)
Theorem logout_invalidates_refresh_token `{P : Platform} (cfg : Config) (E : Env)
    (ctx : Context) (body_refreshToken : option string) (w : World) (h : string) :
  authorization ctx = Some h ->
  let w1 := snd (logout E ctx body_refreshToken w) in
  (forall rt, body_refreshToken = Some rt -> rt <> "" ->
     forall E', refreshToken cfg E' rt w1
                = (Thrown (AppErr INVALID_REFRESH_TOKEN), w1))
  /\ (forall t, body_refreshToken <> Some t ->
        redis w1 !! (TOKEN_PREFIX +:+ t) = redis w !! (TOKEN_PREFIX +:+ t))
  /\ users w1 = users w.
Proof.
  intros Hh w1. unfold w1. rewrite (logout_world E ctx body_refreshToken w h Hh).
  cbv zeta.
  destruct (blacklistToken_returns E (nth 1 (split " " h) "") w) as (wb & Hb & Hu).
  assert (Hreg : forall t, redis wb !! (TOKEN_PREFIX +:+ t)
                           = redis w !! (TOKEN_PREFIX +:+ t)).
  { intros t. revert Hb. unfold blacklistToken.
    repeat match goal with
           | |- context [match ?x with _ => _ end] => destruct x
           end; unfold ret, redis_setex; intros [= <-]; try done.
    simpl. apply lookup_insert_ne. apply blacklist_key_ne_token_key. }
  rewrite Hb. simpl snd.
  split; [|split].
  - intros rt -> Hne E'. apply String.eqb_neq in Hne.
    simpl. rewrite Hne. simpl.
    apply refreshToken_registry_miss. simpl. apply store_get_delete_eq.
  - intros t Hne. destruct body_refreshToken as [rt|]; simpl; [|apply Hreg].
    destruct (String.eqb rt ""); simpl; [apply Hreg|].
    rewrite lookup_delete_ne; [apply Hreg|].
    intros Hk. apply append_inj_r in Hk. congruence.
  - by destruct (truthy body_refreshToken).
Qed.

(** Alice logs out with her refresh token in the body. *)
Lemma logout_invalidates_refresh_token_witness :
  refreshToken (P := Reference.platform) Scenario.cfg (Scenario.at_time 7000)
    Scenario.alice_refresh_token
    (snd (logout (P := Reference.platform) (Scenario.at_time 6000) Scenario.as_alice
            (Some Scenario.alice_refresh_token) (snd Scenario.logged_in)))
  = (Thrown (AppErr INVALID_REFRESH_TOKEN),
     snd (logout (P := Reference.platform) (Scenario.at_time 6000) Scenario.as_alice
            (Some Scenario.alice_refresh_token) (snd Scenario.logged_in))).
Proof.
  destruct (logout_invalidates_refresh_token (P := Reference.platform) Scenario.cfg
              (Scenario.at_time 6000) Scenario.as_alice
              (Some Scenario.alice_refresh_token) (snd Scenario.logged_in)
              ("Bearer " +:+ Scenario.alice_access_token) eq_refl) as [H _].
  apply H; [reflexivity|discriminate].
Defined.

(* ===================================================================== *)
(** ** Issued tokens against the guard and the registry *)
(* ===================================================================== *)

(** X3.  A refresh token can be exchanged while its signature is valid and
    for 604 800 seconds after it was issued, whatever lifetime is
    configured.  Given that the token decodes to the claims it was signed
    with and carries the signature of the refresh secret: until both the
    signed expiry and the registry entry lapse, [refreshToken] succeeds for
    an active user; from 604 800 seconds on it answers
    INVALID_REFRESH_TOKEN. *)
Theorem issued_refresh_token_window `{P : Platform} (cfg : Config) (E E' : Env)
    (u u' : IUser) (w : World) :
  let rt := generateRefreshToken cfg E u in
  let w1 := snd (generateTokenPair cfg E u w) in
  jws_decode rt = Some (jwt_claims E (refresh_payload u) (refresh_options cfg)) ->
  jws_check (refreshSecret (jwt cfg)) rt = true ->
  _id u <> "" ->
  (clock_seconds E'
     < clock_seconds E + timespan_seconds (refreshExpiresIn (jwt cfg)) ->
   Date_now E' < Date_now E + 604800 * 1000 ->
   List.find (fun x => String.eqb (_id x) (_id u)) (users w) = Some u' ->
   isActive u' = true ->
   exists r w2, refreshToken cfg E' rt w1 = (Returned r, w2) /\ status r = 200)
  /\ (Date_now E + 604800 * 1000 <= Date_now E' ->
      refreshToken cfg E' rt w1 = (Thrown (AppErr INVALID_REFRESH_TOKEN), w1)).
Proof.
  intros rt w1 Hdec Hchk Hid.
  assert (Hw1 : w1 = {| users := users w;
                        redis := <[TOKEN_PREFIX +:+ rt :=
                                     {| value := _id u; set_at := Date_now E;
                                        ttl := 604800 |}]> (redis w) |}) by done.
  split.
  - intros Hexp Hlive Hfind Hact.
    assert (Hv : verifyRefreshToken cfg E' rt w1
                 = (Returned (jwt_claims E (refresh_payload u) (refresh_options cfg)), w1)).
    { unfold verifyRefreshToken, jwt_verify. rewrite Hdec, Hchk. simpl.
      destruct (Z.leb_spec
                  (clock_seconds E + timespan_seconds (refreshExpiresIn (jwt cfg)))
                  (clock_seconds E')); [lia|].
      reflexivity. }
    assert (Hl : live (Date_now E')
                   {| value := _id u; set_at := Date_now E; ttl := 604800 |} = true)
      by (unfold live; simpl; apply Z.ltb_lt; lia).
    rewrite (refreshToken_success cfg E' rt _ u' w1 Hv).
    + eexists _, _. split; reflexivity.
    + rewrite Hw1. cbn [redis]. by rewrite store_get_insert_eq, Hl.
    + exact Hid.
    + rewrite Hw1. exact Hfind.
    + exact Hact.
  - intros Hlate. apply refreshToken_registry_miss.
    assert (Hl : live (Date_now E')
                   {| value := _id u; set_at := Date_now E; ttl := 604800 |} = false)
      by (unfold live; simpl; apply Z.ltb_ge; lia).
    rewrite Hw1. cbn [redis]. by rewrite store_get_insert_eq, Hl.
Qed.

(** Alice's token, one second and then seven days after it was issued. *)
Lemma issued_refresh_token_window_witness :
  (exists r w2,
     refreshToken (P := Reference.platform) Scenario.cfg (Scenario.at_time 6000)
       Scenario.alice_refresh_token
       (snd (generateTokenPair (P := Reference.platform) Scenario.cfg
               (Scenario.at_time 5000) Scenario.alice Scenario.store))
     = (Returned r, w2) /\ status r = 200)
  /\ refreshToken (P := Reference.platform) Scenario.cfg
       (Scenario.at_time (5000 + 604800 * 1000)) Scenario.alice_refresh_token
       (snd (generateTokenPair (P := Reference.platform) Scenario.cfg
               (Scenario.at_time 5000) Scenario.alice Scenario.store))
     = (Thrown (AppErr INVALID_REFRESH_TOKEN),
        snd (generateTokenPair (P := Reference.platform) Scenario.cfg
               (Scenario.at_time 5000) Scenario.alice Scenario.store)).
Proof.
  split.
  - apply (issued_refresh_token_window (P := Reference.platform) Scenario.cfg
             (Scenario.at_time 5000) (Scenario.at_time 6000)
             Scenario.alice Scenario.alice Scenario.store);
      (vm_compute; reflexivity) || discriminate.
  - apply (issued_refresh_token_window (P := Reference.platform) Scenario.cfg
             (Scenario.at_time 5000) (Scenario.at_time (5000 + 604800 * 1000))
             Scenario.alice Scenario.alice Scenario.store);
      (vm_compute; reflexivity) || (vm_compute; discriminate) || discriminate.
Defined.

Lemma startsWith_Bearer_append (t : string) :
  startsWith "Bearer " ("Bearer " +:+ t) = true.
Proof. unfold startsWith. simpl. by destruct t. Qed.

(** What the guard verifies, spelled out for a token that decodes to [c]
    and carries the signature of the access secret. *)
Lemma verifyAccessToken_decoded `{P : Platform} (cfg : Config) (E : Env)
    (token : string) (c : Jwt.Claims) (w : World) :
  jws_decode token = Some c ->
  verifyAccessToken cfg E token w =
    if jws_check (secret (jwt cfg)) token
       && negb (match Jwt.exp c with Some e => e <=? clock_seconds E | None => false end)
       && bool_decide (Jwt.aud c = Some "ecommerce-platform")
       && bool_decide (Jwt.iss c = Some "ecommerce-auth")
    then (Returned c, w)
    else (Thrown (JsError "Error" "Invalid or expired token"), w).
Proof.
  intros Hd. unfold verifyAccessToken, jwt_verify. rewrite Hd.
  destruct (jws_check _ _); simpl; [|done].
  destruct (match Jwt.exp c with Some e => e <=? clock_seconds E | None => false end);
    simpl; [done|].
  by repeat case_bool_decide.
Qed.

(** X4.  An access token as [generateAccessToken] signs it (decoding to the
    claims it was signed with, carrying the signature of the access
    secret, free of spaces) and not blacklisted gets through the guard
    until its configured lifetime is over, and the handler then finds the
    user's identifier, email and role in [ctx.user]; from the expiry on
    the guard answers INVALID_TOKEN. *)
Theorem issued_access_token_accepted `{P : Platform} (cfg : Config) (E E' : Env)
    {A : Type} (ctx : Context) (next : Context -> M A) (w : World) (u : IUser) :
  let token := generateAccessToken cfg E u in
  jws_decode token = Some (jwt_claims E (access_payload u) (access_options cfg)) ->
  jws_check (secret (jwt cfg)) token = true ->
  split " " token = [token] ->
  authorization ctx = Some ("Bearer " +:+ token) ->
  store_get (Date_now E') (redis w) (BLACKLIST_PREFIX +:+ token) <> Some "1" ->
  (clock_seconds E' < clock_seconds E + timespan_seconds (expiresIn (jwt cfg)) ->
   exists d : Jwt.Claims,
     Jwt.userId d = _id u /\ Jwt.email d = Some (email u)
     /\ Jwt.role d = Some (role_string (role u))
     /\ authMiddleware cfg E' ctx next w
        = rethrow_unless_AppError (next (with_user d ctx)) INVALID_TOKEN_401 w)
  /\ (clock_seconds E + timespan_seconds (expiresIn (jwt cfg)) <= clock_seconds E' ->
      authMiddleware cfg E' ctx next w = (Thrown (AppErr INVALID_TOKEN_401), w)).
Proof.
  intros token Hdec Hchk Hsp Hh Hnb.
  assert (Htok : nth 1 (split " " ("Bearer " +:+ token)) "" = token).
  { rewrite bearer_token, Hsp. reflexivity. }
  assert (Hrun : authMiddleware cfg E' ctx next w =
                 rethrow_unless_AppError
                   (decoded <- verifyAccessToken cfg E' token ;;
                    next (with_user decoded ctx)) INVALID_TOKEN_401 w).
  { rewrite (authMiddleware_bearer cfg E' ctx next w _ Hh
               (startsWith_Bearer_append _)). cbv zeta.
    rewrite Htok. by rewrite bool_decide_eq_false_2. }
  rewrite Hrun. unfold rethrow_unless_AppError, try_catch, bind.
  rewrite (verifyAccessToken_decoded cfg E' token _ w Hdec), Hchk. simpl.
  split.
  - intros Hlt.
    destruct (Z.leb_spec
                (clock_seconds E + timespan_seconds (expiresIn (jwt cfg)))
                (clock_seconds E')); [lia|]. simpl.
    by exists (jwt_claims E (access_payload u) (access_options cfg)).
  - intros Hge.
    by destruct (Z.leb_spec
                   (clock_seconds E + timespan_seconds (expiresIn (jwt cfg)))
                   (clock_seconds E')); [|lia].
Qed.

(** Alice's access token (issued at 5 s, fifteen minutes to live) at 6 s
    and at 905 s. *)
Lemma issued_access_token_accepted_witness :
  (exists d : Jwt.Claims,
     Jwt.userId d = "64a1" /\ Jwt.email d = Some "alice@example.com"
     /\ Jwt.role d = Some "customer"
     /\ authMiddleware (P := Reference.platform) Scenario.cfg (Scenario.at_time 6000)
          Scenario.as_alice Scenario.whoami Scenario.store
        = (Returned (Some d), Scenario.store))
  /\ authMiddleware (P := Reference.platform) Scenario.cfg (Scenario.at_time 905000)
       Scenario.as_alice Scenario.whoami Scenario.store
     = (Thrown (AppErr INVALID_TOKEN_401), Scenario.store).
Proof.
  split.
  - destruct (issued_access_token_accepted (P := Reference.platform) Scenario.cfg
                (Scenario.at_time 5000) (Scenario.at_time 6000) Scenario.as_alice
                Scenario.whoami Scenario.store Scenario.alice)
      as [H _];
      [vm_compute; reflexivity|vm_compute; reflexivity|vm_compute; reflexivity
      |vm_compute; reflexivity|vm_compute; discriminate|].
    destruct H as (d & Hid & Hem & Hro & Hrun); [vm_compute; reflexivity|].
    exists d. split; [exact Hid|]. split; [exact Hem|]. split; [exact Hro|].
    rewrite Hrun. reflexivity.
  - apply (issued_access_token_accepted (P := Reference.platform) Scenario.cfg
             (Scenario.at_time 5000) (Scenario.at_time 905000) Scenario.as_alice
             Scenario.whoami Scenario.store Scenario.alice);
      [vm_compute; reflexivity|vm_compute; reflexivity|vm_compute; reflexivity
      |vm_compute; reflexivity|vm_compute; discriminate|vm_compute; discriminate].
Defined.

(** X5.  A refresh token is never accepted as an access token, whatever the
    two secrets are: the claims [generateRefreshToken] signs have no
    audience, and the guard asks for one. *)
Theorem refresh_token_rejected_by_guard `{P : Platform} (cfg : Config) (E E' : Env)
    {A : Type} (ctx : Context) (next : Context -> M A) (w : World) (u : IUser) :
  let rt := generateRefreshToken cfg E u in
  jws_decode rt = Some (jwt_claims E (refresh_payload u) (refresh_options cfg)) ->
  split " " rt = [rt] ->
  authorization ctx = Some ("Bearer " +:+ rt) ->
  exists err : AppError,
    authMiddleware cfg E' ctx next w = (Thrown (AppErr err), w)
    /\ (err = TOKEN_REVOKED \/ err = INVALID_TOKEN_401).
Proof.
  intros rt Hdec Hsp Hh.
  assert (Htok : nth 1 (split " " ("Bearer " +:+ rt)) "" = rt).
  { rewrite bearer_token, Hsp. reflexivity. }
  rewrite (authMiddleware_bearer cfg E' ctx next w _ Hh
               (startsWith_Bearer_append _)). cbv zeta.
  rewrite Htok. case_bool_decide.
  - exists TOKEN_REVOKED. auto.
  - exists INVALID_TOKEN_401. split; [|auto].
    unfold rethrow_unless_AppError, try_catch, bind.
    rewrite (verifyAccessToken_decoded cfg E' rt _ w Hdec). simpl.
    by rewrite !andb_false_r.
Qed.

Lemma refresh_token_rejected_by_guard_witness :
  exists err : AppError,
    authMiddleware (P := Reference.platform) Scenario.cfg (Scenario.at_time 6000)
      (Scenario.request (Some ("Bearer " +:+ Scenario.alice_refresh_token)))
      Scenario.whoami Scenario.store
    = (Thrown (AppErr err), Scenario.store)
    /\ (err = TOKEN_REVOKED \/ err = INVALID_TOKEN_401).
Proof.
  apply (refresh_token_rejected_by_guard (P := Reference.platform) Scenario.cfg
           (Scenario.at_time 5000) (Scenario.at_time 6000)
           (Scenario.request (Some ("Bearer " +:+ Scenario.alice_refresh_token)))
           Scenario.whoami Scenario.store Scenario.alice);
    vm_compute; reflexivity.
Defined.

(* ===================================================================== *)
(** ** Roles, the error boundary, routes *)
(* ===================================================================== *)

Lemma requireRole_admin {A : Type} (ctx : Context) (next : Context -> M A)
    (d : Jwt.Claims) (w : World) :
  user ctx = Some d ->
  requireRole ["admin"] ctx next w =
    if bool_decide (Jwt.role d = Some "admin") then next ctx w
    else (Thrown (AppErr FORBIDDEN), w).
Proof.
  intros Hu. unfold requireRole. rewrite Hu.
  case_bool_decide as Hin; case_bool_decide as Hr; try done.
  - apply list_elem_of_fmap in Hin as (r & Hr' & Hin).
    apply list_elem_of_singleton in Hin. congruence.
  - destruct Hin. rewrite Hr. apply list_elem_of_fmap. exists "admin".
    split; [done|]. by apply list_elem_of_singleton.
Qed.

(** X6.  Behind [authMiddleware] and [requireRole('admin')] a handler runs
    only for a verified token whose role claim is ['admin']; a verified,
    unrevoked token with any other role is answered FORBIDDEN (403) and
    the handler is not run. *)
Theorem admin_route_requires_admin `{P : Platform} (cfg : Config) (E : Env)
    {A : Type} (ctx : Context) (handler : Context -> M A) (w : World) :
  (forall (a : A) (w' : World),
     authMiddleware cfg E ctx (fun c => requireRole ["admin"] c handler) w
       = (Returned a, w') ->
     exists (h : string) (d : Jwt.Claims),
       authorization ctx = Some h
       /\ verifyAccessToken cfg E (nth 1 (split " " h) "") w = (Returned d, w)
       /\ Jwt.role d = Some "admin"
       /\ handler (with_user d ctx) w = (Returned a, w'))
  /\ (forall (h : string) (d : Jwt.Claims),
        authorization ctx = Some h -> startsWith "Bearer " h = true ->
        store_get (Date_now E) (redis w)
          (BLACKLIST_PREFIX +:+ nth 1 (split " " h) "") <> Some "1" ->
        verifyAccessToken cfg E (nth 1 (split " " h) "") w = (Returned d, w) ->
        Jwt.role d <> Some "admin" ->
        authMiddleware cfg E ctx (fun c => requireRole ["admin"] c handler) w
          = (Thrown (AppErr FORBIDDEN), w))
  /\ statusCode FORBIDDEN = 403.
Proof.
  split; [|split; [|done]].
  - intros a w'. unfold authMiddleware at 1.
    destruct (authorization ctx) as [h|] eqn:Hh; [|discriminate].
    destruct (startsWith "Bearer " h) eqn:Hb.
    2:{ rewrite orb_true_r. discriminate. }
    rewrite (startsWith_nonempty "Bearer " h) by done. cbn [negb orb].
    unfold rethrow_unless_AppError, try_catch, isTokenBlacklisted, redis_get,
      bind, ret.
    case_bool_decide; [discriminate|].
    destruct (verifyAccessToken cfg E (nth 1 (split " " h) "") w)
      as [[d|e] w1] eqn:Hv;
      destruct (verifyAccessToken_pure _ _ _ _ _ _ Hv) as [-> _].
    2:{ by destruct e. }
    rewrite (requireRole_admin (with_user d ctx) handler d w eq_refl).
    case_bool_decide as Hr; [|discriminate].
    destruct (handler (with_user d ctx) w) as [[a'|[e|n m|n m sc dt]] w2] eqn:Hrun;
      try discriminate.
    intros [= <- <-]. by exists h, d.
  - intros h d Hh Hb Hnb Hv Hr.
    rewrite (authMiddleware_bearer cfg E ctx _ w h Hh Hb). cbv zeta.
    rewrite bool_decide_eq_false_2 by done.
    unfold rethrow_unless_AppError, try_catch, bind. rewrite Hv.
    rewrite (requireRole_admin (with_user d ctx) handler d w eq_refl).
    by rewrite bool_decide_eq_false_2.
Qed.

(** Alice, a customer, asks for another user's record. *)
Lemma admin_route_requires_admin_witness :
  authMiddleware (P := Reference.platform) Scenario.cfg (Scenario.at_time 6000)
    Scenario.as_alice
    (fun c => requireRole ["admin"] c (fun _ => getUserById (P := Reference.platform) "64b2")) Scenario.store
  = (Thrown (AppErr FORBIDDEN), Scenario.store).
Proof.
  apply (admin_route_requires_admin (P := Reference.platform) Scenario.cfg
           (Scenario.at_time 6000) Scenario.as_alice
           (fun _ => getUserById (P := Reference.platform) "64b2") Scenario.store)
    with (h := "Bearer " +:+ Scenario.alice_access_token)
         (d := Scenario.alice_access_claims);
    [reflexivity|reflexivity|vm_compute; discriminate|vm_compute; reflexivity
    |discriminate].
Defined.

(** X7.  The guard's [try] encloses the handler.  Whatever a protected
    handler throws that is no [AppError] (a validation error of [save], a
    [TypeError]) leaves the guard as INVALID_TOKEN (401), with the writes
    the handler had made, and so does an error that carries a status code
    of its own; an [AppError] of the handler passes unchanged. *)
Theorem authMiddleware_masks_handler_errors `{P : Platform} (cfg : Config) (E : Env)
    {A : Type} (ctx : Context) (next : Context -> M A) (w w' : World)
    (h : string) (d : Jwt.Claims) :
  authorization ctx = Some h -> startsWith "Bearer " h = true ->
  store_get (Date_now E) (redis w)
    (BLACKLIST_PREFIX +:+ nth 1 (split " " h) "") <> Some "1" ->
  verifyAccessToken cfg E (nth 1 (split " " h) "") w = (Returned d, w) ->
  (forall name msg,
     next (with_user d ctx) w = (Thrown (JsError name msg), w') ->
     authMiddleware cfg E ctx next w = (Thrown (AppErr INVALID_TOKEN_401), w'))
  /\ (forall e,
        next (with_user d ctx) w = (Thrown (AppErr e), w') ->
        authMiddleware cfg E ctx next w = (Thrown (AppErr e), w'))
  /\ (forall name msg sc details,
        next (with_user d ctx) w = (Thrown (JsErrorWith name msg sc details), w') ->
        authMiddleware cfg E ctx next w = (Thrown (AppErr INVALID_TOKEN_401), w')).
Proof.
  intros Hh Hb Hnb Hv.
  rewrite (authMiddleware_bearer cfg E ctx next w h Hh Hb). cbv zeta.
  rewrite bool_decide_eq_false_2 by done.
  unfold rethrow_unless_AppError, try_catch, bind. rewrite Hv.
  split; [intros name msg Hn|split; [intros e Hn|intros name msg sc details Hn]];
    by rewrite Hn.
Qed.

(** Alice sends a first name of blanks: the schema's validator refuses it
    and the answer says her token is invalid. *)
Lemma authMiddleware_masks_handler_errors_witness :
  updateProfile (P := Reference.platform) (Scenario.at_time 6000)
    (with_user Scenario.alice_access_claims Scenario.as_alice) (Some "  ") None
    Scenario.store
  = (Thrown (JsError "ValidationError" "firstName"), Scenario.store)
  /\ authMiddleware (P := Reference.platform) Scenario.cfg (Scenario.at_time 6000)
       Scenario.as_alice
       (fun c => updateProfile (P := Reference.platform) (Scenario.at_time 6000) c
                   (Some "  ") None)
       Scenario.store
     = (Thrown (AppErr INVALID_TOKEN_401), Scenario.store).
Proof.
  split; [vm_compute; reflexivity|].
  apply (authMiddleware_masks_handler_errors (P := Reference.platform) Scenario.cfg
           (Scenario.at_time 6000) Scenario.as_alice
           (fun c => updateProfile (P := Reference.platform) (Scenario.at_time 6000) c
                   (Some "  ") None)
           Scenario.store Scenario.store
           ("Bearer " +:+ Scenario.alice_access_token) Scenario.alice_access_claims)
    with (name := "ValidationError") (msg := "firstName");
    [reflexivity|reflexivity|vm_compute; discriminate|vm_compute; reflexivity
    |vm_compute; reflexivity].
Defined.

(** X8.  Nothing gets past [errorMiddleware]: whatever the inner
    middleware does, the result is a response, and the world is as the
    inner middleware left it.  A response passes unchanged; an [AppError]
    becomes a response with its status, its message and its code and
    [success: false]; any other error becomes 400 when its name is
    ['ValidationError'], 401 when it is ['UnauthorizedError'], and otherwise
    the status code the error carries (500 when it carries none, or 0),
    with the message replaced by a generic one in production. *)
Theorem errorMiddleware_total (cfg : Config) (next : M Response) (w : World) :
  exists r : Response,
    errorMiddleware cfg next w = (Returned r, snd (next w))
    /\ (forall r0, fst (next w) = Returned r0 -> r = r0)
    /\ (forall e, fst (next w) = Thrown (AppErr e) ->
          status r = statusCode e
          /\ obj_get "success" (body r) = Some (JBool false)
          /\ obj_get "error" (body r)
             = Some (JObj [("message", JStr (message e)); ("code", JStr (code e))]))
    /\ (forall (name msg : string) (sc : option Z) (details : option JSON),
          fst (next w) = Thrown (JsErrorWith name msg sc details)
          \/ (fst (next w) = Thrown (JsError name msg)
              /\ sc = None /\ details = None) ->
          obj_get "success" (body r) = Some (JBool false)
          /\ (name = "ValidationError" -> status r = 400)
          /\ (name <> "ValidationError" -> name = "UnauthorizedError" ->
              status r = 401)
          /\ (name <> "ValidationError" -> name <> "UnauthorizedError" ->
              status r = match sc with
                         | Some n => if n =? 0 then 500 else n
                         | None => 500
                         end
              /\ obj_get "error" (body r)
                 = Some (JObj [("message",
                                JStr (if String.eqb (config_env cfg) "production"
                                      then "Internal server error" else msg))]))).
Proof.
  assert (Hother : forall name msg sc details,
            let r := other_error_response cfg name msg sc details in
            obj_get "success" (body r) = Some (JBool false)
            /\ (name = "ValidationError" -> status r = 400)
            /\ (name <> "ValidationError" -> name = "UnauthorizedError" ->
                status r = 401)
            /\ (name <> "ValidationError" -> name <> "UnauthorizedError" ->
                status r = match sc with
                           | Some n => if n =? 0 then 500 else n
                           | None => 500
                           end
                /\ obj_get "error" (body r)
                   = Some (JObj [("message",
                                  JStr (if String.eqb (config_env cfg) "production"
                                        then "Internal server error" else msg))]))).
  { intros name msg sc details. cbv zeta. unfold other_error_response.
    destruct (String.eqb_spec name "ValidationError") as [->|Hv];
      [by repeat split|].
    destruct (String.eqb_spec name "UnauthorizedError") as [->|Hu];
      by repeat split. }
  unfold errorMiddleware, try_catch.
  destruct (next w) as [[r0|[e|name msg|name msg sc details]] w'] eqn:Hn; simpl.
  - exists r0. split; [done|]. split; [congruence|]. split; [done|].
    by intros ? ? ? ? [?|[? _]].
  - eexists. split; [reflexivity|]. split; [done|]. split.
    + intros e0 [= <-]. by repeat split.
    + by intros ? ? ? ? [?|[? _]].
  - eexists. split; [reflexivity|]. split; [done|]. split; [done|].
    intros name' msg' sc details [Hw|[[= <- <-] [-> ->]]]; [done|].
    apply Hother.
  - eexists. split; [reflexivity|]. split; [done|]. split; [done|].
    intros name' msg' sc' details' [[= <- <- <- <-]|[Hw _]]; [|done].
    apply Hother.
Qed.

(** A wrong password at the login route, seen from outside. *)
Lemma errorMiddleware_total_witness :
  exists r : Response,
    errorMiddleware Scenario.cfg
      (login (P := Reference.platform) Scenario.cfg (Scenario.at_time 5000)
         "alice@example.com" "wrong-password") Scenario.store
    = (Returned r, Scenario.store)
    /\ status r = 401
    /\ obj_get "success" (body r) = Some (JBool false).
Proof.
  destruct (errorMiddleware_total Scenario.cfg
              (login (P := Reference.platform) Scenario.cfg (Scenario.at_time 5000)
                 "alice@example.com" "wrong-password") Scenario.store)
    as (r & Hrun & _ & Happ & _).
  destruct (Happ INVALID_CREDENTIALS) as (Hs & Hok & _); [vm_compute; reflexivity|].
  exists r. split; [exact Hrun|]. split; [exact Hs|exact Hok].
Defined.

(** [getProfile] for a request the guard has let through. *)
Lemma getProfile_cases (ctx : Context) (d : Jwt.Claims) (w : World) :
  user ctx = Some d ->
  getProfile ctx w =
    match List.find (fun x => String.eqb (_id x) (Jwt.userId d)) (users w) with
    | Some u =>
        (Returned {| status := 200;
                     body := JObj [("success", JBool true);
                                   ("data", JObj [("user", toJSON u)])] |}, w)
    | None => (Thrown (AppErr USER_NOT_FOUND), w)
    end.
Proof.
  intros Hu. unfold getProfile. rewrite Hu.
  unfold User_findById, User_findOne, bind. by destruct (List.find _ _).
Qed.

(** X9.  [GET /users/profile] always answers, never writes, and answers
    one of three ways: 401 (no token, revoked token, invalid token), 404
    (the token's user is not in the store), or 200 with the [toJSON] of a
    stored user whose identifier is the token's. *)
Theorem route_getProfile_answers `{P : Platform} (cfg : Config) (E : Env)
    (ctx : Context) (w : World) :
  exists r : Response,
    route_getProfile cfg E ctx w = (Returned r, w)
    /\ (status r = 401
        \/ status r = 404
        \/ (status r = 200
            /\ exists u : IUser,
                 u ∈ users w
                 /\ body r = JObj [("success", JBool true);
                                   ("data", JObj [("user", toJSON u)])])).
Proof.
  unfold route_getProfile, errorMiddleware, try_catch.
  unfold authMiddleware.
  destruct (authorization ctx) as [h|] eqn:Hh;
    [|eexists; split; [reflexivity|by left]].
  destruct (negb (truthy (Some h)) || negb (startsWith "Bearer " h));
    [eexists; split; [reflexivity|by left]|].
  unfold rethrow_unless_AppError, try_catch, isTokenBlacklisted, redis_get,
    bind, ret.
  case_bool_decide; [eexists; split; [reflexivity|by left]|].
  destruct (verifyAccessToken cfg E (nth 1 (split " " h) "") w)
    as [[d|e] w1] eqn:Hv;
    destruct (verifyAccessToken_pure _ _ _ _ _ _ Hv) as [-> _].
  2:{ assert (e = JsError "Error" "Invalid or expired token") as ->.
      { unfold verifyAccessToken in Hv.
        destruct (jwt_verify _ _ _ _); unfold ret, throw in Hv; congruence. }
      eexists. split; [reflexivity|by left]. }
  rewrite (getProfile_cases (with_user d ctx) d w eq_refl).
  destruct (List.find _ _) as [u|] eqn:Hf.
  - eexists. split; [reflexivity|]. right. right. split; [done|].
    exists u. split; [|done].
    apply List.find_some in Hf as [Hin _]. by apply list_elem_of_In.
  - eexists. split; [reflexivity|]. right. by left.
Qed.

(* ===================================================================== *)
(** ** Saving and finding *)
(* ===================================================================== *)

(** [save] on a document whose names and password were not touched. *)
Lemma save_plain `{P : Platform} (E : Env) (orig cur : IUser) (w : World) :
  firstName cur = firstName orig -> lastName cur = lastName orig ->
  password cur = password orig ->
  save E orig cur w =
    if bool_decide (orig = cur) then (Returned cur, w)
    else (Returned (with_updatedAt (Date_now E) cur),
          {| users := store_replace (with_updatedAt (Date_now E) cur) (users w);
             redis := redis w |}).
Proof.
  intros Hf Hl Hp. unfold save. case_bool_decide as Heq; [done|].
  unfold validation_error, pre_save. rewrite Hf, Hl, Hp.
  by rewrite !bool_decide_eq_true_2.
Qed.

(** After [store_replace doc], a query that found the document now finds
    [doc], provided the document was the one loaded by its identifier and
    [doc] still matches. *)
Lemma find_store_replace (f : IUser -> bool) (doc u : IUser) (l : list IUser) :
  List.find f l = Some u ->
  List.find (fun x => String.eqb (_id x) (_id doc)) l = Some u ->
  f doc = true ->
  List.find f (store_replace doc l) = Some doc.
Proof.
  induction l as [|y l IH]; simpl; [discriminate|].
  destruct (String.eqb (_id y) (_id doc)) eqn:Hy.
  - intros _ _ Hd. simpl. by rewrite Hd.
  - intros Hf Hid Hd. destruct (f y) eqn:Hfy.
    + injection Hf as ->. apply List.find_some in Hid as [_ Hu].
      rewrite Hu in Hy. discriminate.
    + simpl. rewrite Hfy. by apply IH.
Qed.

(** A query that found nothing still finds nothing, provided [doc] does
    not match. *)
Lemma find_store_replace_None (f : IUser -> bool) (doc : IUser) (l : list IUser) :
  List.find f l = None -> f doc = false ->
  List.find f (store_replace doc l) = None.
Proof.
  induction l as [|y l IH]; simpl; [done|].
  destruct (f y) eqn:Hfy; [discriminate|]. intros Hf Hd.
  destruct (String.eqb (_id y) (_id doc)); simpl.
  - by rewrite Hd.
  - rewrite Hfy. by apply IH.
Qed.

(** In a store with distinct identifiers a document is stored under its
    identifier only: replacing it moves no identifier and no email. *)
Lemma store_replace_emails (doc u : IUser) (l : list IUser) :
  List.NoDup (List.map _id l) -> u ∈ l ->
  _id doc = _id u -> email doc = email u ->
  List.map email (store_replace doc l) = List.map email l.
Proof.
  induction l as [|y l IH]; simpl; intros Hnd Hin Hid Hem; [done|].
  apply List.NoDup_cons_iff in Hnd as [Hy Hnd].
  destruct (String.eqb (_id y) (_id doc)) eqn:Hyd; simpl.
  - apply String.eqb_eq in Hyd.
    apply elem_of_cons in Hin as [->|Hin]; [by rewrite Hem|].
    destruct Hy. rewrite Hyd, Hid. apply List.in_map. by apply list_elem_of_In.
  - apply String.eqb_neq in Hyd.
    apply elem_of_cons in Hin as [->|Hin]; [by destruct Hyd|].
    by rewrite IH.
Qed.

(* ===================================================================== *)
(** ** Deactivating an account *)
(* ===================================================================== *)

Lemma deactivated_fields (E : Env) (u : IUser) :
  isActive (deactivated E u) = false
  /\ _id (deactivated E u) = _id u
  /\ email (deactivated E u) = email u
  /\ password (deactivated E u) = password u.
Proof.
  unfold deactivated. case_bool_decide as Heq; [|done].
  repeat split; try done. by rewrite Heq.
Qed.

Lemma deleteAccount_world `{P : Platform} (E : Env) (ctx : Context) (w : World)
    (d : Jwt.Claims) (u : IUser) :
  user ctx = Some d ->
  List.find (fun x => String.eqb (_id x) (Jwt.userId d)) (users w) = Some u ->
  exists r,
    deleteAccount E ctx w =
      (Returned r,
       {| users := if bool_decide (u = with_isActive false u) then users w
                   else store_replace (deactivated E u) (users w);
          redis := redis w |})
    /\ status r = 200.
Proof.
  intros Hu Hf. unfold deleteAccount. rewrite Hu.
  unfold User_findById, User_findOne, bind at 1. cbv beta. rewrite Hf.
  unfold bind. rewrite (save_plain E u (with_isActive false u) w) by done.
  unfold deactivated. case_bool_decide; unfold ret; eexists.
  - split; [by destruct w|reflexivity].
  - split; reflexivity.
Qed.

(** What a query finds after [deleteAccount]. *)
Lemma deleteAccount_find `{P : Platform} (E : Env) (w : World)
    (f : IUser -> bool) (u : IUser) (id : string) :
  List.find (fun x => String.eqb (_id x) id) (users w) = Some u ->
  List.find f (users w) = Some u ->
  f (deactivated E u) = true ->
  List.find f (if bool_decide (u = with_isActive false u) then users w
               else store_replace (deactivated E u) (users w))
  = Some (deactivated E u).
Proof.
  intros Hid Hf Hd. case_bool_decide as Heq.
  - rewrite Hf. unfold deactivated. by rewrite bool_decide_eq_true_2.
  - apply (find_store_replace f _ u); try done.
    destruct (deactivated_fields E u) as (_ & -> & _).
    destruct (find_by_id_Some _ _ _ Hid) as [-> _]. exact Hid.
Qed.

(** [login] on a deactivated record. *)
Lemma login_inactive `{P : Platform} (cfg : Config) (E : Env)
    (body_email body_password : string) (doc : IUser) (w : World) :
  List.find (by_email body_email) (users w) = Some doc ->
  isActive doc = false ->
  exists err : AppError,
    login cfg E body_email body_password w = (Thrown (AppErr err), w)
    /\ (err = INVALID_CREDENTIALS \/ err = ACCOUNT_DEACTIVATED)
    /\ (comparePassword body_password doc = true -> err = ACCOUNT_DEACTIVATED).
Proof.
  intros Hf Hact. unfold login, User_findOne, bind at 1. cbv beta.
  rewrite Hf, Hact.
  destruct (comparePassword body_password doc); simpl.
  - exists ACCOUNT_DEACTIVATED. auto.
  - exists INVALID_CREDENTIALS. split; [done|]. split; [auto|discriminate].
Qed.

(** X10.  After [deleteAccount] the account can no longer log in or
    refresh: [login] answers ACCOUNT_DEACTIVATED (403) for the right
    password and INVALID_CREDENTIALS otherwise, and [refreshToken] answers
    USER_NOT_FOUND (404) for the account's registered tokens.  The cache
    is not touched: neither the registry entries nor the blacklist
    change. *)
Theorem deleteAccount_locks_out `{P : Platform} (cfg : Config) (E : Env)
    (ctx : Context) (w : World) (d : Jwt.Claims) (u : IUser) :
  user ctx = Some d ->
  List.find (fun x => String.eqb (_id x) (Jwt.userId d)) (users w) = Some u ->
  let w1 := snd (deleteAccount E ctx w) in
  redis w1 = redis w
  /\ (forall (E' : Env) (body_email body_password : string),
        List.find (by_email body_email) (users w) = Some u ->
        exists err : AppError,
          login cfg E' body_email body_password w1 = (Thrown (AppErr err), w1)
          /\ (err = INVALID_CREDENTIALS \/ err = ACCOUNT_DEACTIVATED)
          /\ (comparePassword body_password u = true -> err = ACCOUNT_DEACTIVATED))
  /\ (forall (E' : Env) (rt : string) (dd : Jwt.Claims),
        verifyRefreshToken cfg E' rt w1 = (Returned dd, w1) ->
        Jwt.userId dd = Jwt.userId d -> Jwt.userId d <> "" ->
        store_get (Date_now E') (redis w1) (TOKEN_PREFIX +:+ rt)
          = Some (Jwt.userId d) ->
        refreshToken cfg E' rt w1 = (Thrown (AppErr USER_NOT_FOUND_INACTIVE), w1)).
Proof.
  intros Hu Hf w1.
  destruct (deleteAccount_world E ctx w d u Hu Hf) as (r & Hrun & _).
  unfold w1. rewrite Hrun. simpl snd. clear w1.
  destruct (deactivated_fields E u) as (Hact & Hid & Hem & Hpw).
  split; [done|]. split.
  - intros E' body_email body_password Hfe.
    assert (Hfind : List.find (by_email body_email)
                      (if bool_decide (u = with_isActive false u) then users w
                       else store_replace (deactivated E u) (users w))
                    = Some (deactivated E u)).
    { apply (deleteAccount_find E w _ u (Jwt.userId d)); try done.
      apply List.find_some in Hfe as [_ Hfe]. unfold by_email in *.
      by rewrite Hem. }
    destruct (login_inactive cfg E' body_email body_password (deactivated E u)
                {| users := if bool_decide (u = with_isActive false u) then users w
                            else store_replace (deactivated E u) (users w);
                   redis := redis w |}
                Hfind Hact) as (err & Hrun' & Hkind & Herr).
    exists err. split; [exact Hrun'|]. split; [exact Hkind|].
    intros Hc. apply Herr. unfold comparePassword in *. by rewrite Hpw.
  - intros E' rt dd Hv Hdd Hne Hreg.
    apply (refreshToken_user_gone cfg E' rt dd); try done; try congruence.
    intros u' Hu'. cbn [users] in Hu'. rewrite Hdd in Hu'.
    rewrite (deleteAccount_find E w _ u (Jwt.userId d)) in Hu'; try done.
    + by injection Hu' as <-.
    + rewrite Hid. by apply List.find_some in Hf as [_ Hf].
Qed.

(** Alice deletes her account at 6 s and tries to log in. *)
Lemma deleteAccount_locks_out_witness :
  login (P := Reference.platform) Scenario.cfg (Scenario.at_time 7000)
    "alice@example.com" "secret123"
    (snd (deleteAccount (P := Reference.platform) (Scenario.at_time 6000)
            Scenario.as_alice Scenario.store))
  = (Thrown (AppErr ACCOUNT_DEACTIVATED),
     snd (deleteAccount (P := Reference.platform) (Scenario.at_time 6000)
            Scenario.as_alice Scenario.store)).
Proof.
  destruct (deleteAccount_locks_out (P := Reference.platform) Scenario.cfg
              (Scenario.at_time 6000) Scenario.as_alice Scenario.store
              Scenario.alice_access_claims Scenario.alice)
    as (_ & Hlogin & _); [vm_compute; reflexivity|reflexivity|].
  destruct (Hlogin (Scenario.at_time 7000) "alice@example.com" "secret123")
    as (err & Hrun & _ & Herr); [reflexivity|].
  rewrite Hrun, Herr; [reflexivity|vm_compute; reflexivity].
Defined.

(* ===================================================================== *)
(** ** Changing the password *)
(* ===================================================================== *)

(** [changePassword] for a request the guard has let through and a user in
    the store. *)
Lemma changePassword_found `{P : Platform} (E : Env) (ctx : Context)
    (body_currentPassword body_newPassword : string) (w : World)
    (d : Jwt.Claims) (u : IUser) :
  user ctx = Some d ->
  List.find (fun x => String.eqb (_id x) (Jwt.userId d)) (users w) = Some u ->
  changePassword E ctx body_currentPassword body_newPassword w =
    if negb (comparePassword body_currentPassword u)
    then (Thrown (AppErr INVALID_PASSWORD), w)
    else bind (save E u (with_password body_newPassword u))
           (fun _ => ret {| status := 200;
                            body := JObj [("success", JBool true);
                                          ("message",
                                           JStr "Password changed successfully")] |}) w.
Proof.
  intros Hu Hf. unfold changePassword. rewrite Hu.
  unfold User_findById, User_findOne, bind at 1. cbv beta. rewrite Hf.
  by destruct (comparePassword body_currentPassword u).
Qed.

(** [save] of a new password the schema accepts. *)
Lemma save_new_password `{P : Platform} (E : Env) (new : string) (u : IUser) (w : World) :
  new <> password u -> (6 <= String_length new)%nat ->
  save E u (with_password new u) w =
    (Returned (with_updatedAt (Date_now E)
                 (with_password (bcrypt_hash new (genSalt E)) u)),
     {| users := store_replace
                   (with_updatedAt (Date_now E)
                      (with_password (bcrypt_hash new (genSalt E)) u)) (users w);
        redis := redis w |}).
Proof.
  intros Hne Hlen. unfold save. rewrite bool_decide_eq_false_2.
  2:{ intros Heq. apply (f_equal password) in Heq. simpl in Heq. congruence. }
  unfold validation_error, pre_save. simpl.
  rewrite !bool_decide_eq_true_2 by done. simpl.
  rewrite bool_decide_eq_false_2 by congruence. simpl.
  replace (Z.of_nat (String_length new) <? 6) with false
    by (symmetry; apply Z.ltb_ge; lia).
  reflexivity.
Qed.

(** X11.  A [changePassword] that fails changes nothing.  It fails with
    USER_NOT_FOUND (404) when the token's user is not in the store, with
    INVALID_PASSWORD (401) when the current password does not verify, and
    otherwise only on a new password the schema refuses. *)
Theorem changePassword_failure_atomic `{P : Platform} (E : Env) (ctx : Context)
    (body_currentPassword body_newPassword : string) (w : World) :
  (forall (e : Exn) (w' : World),
     changePassword E ctx body_currentPassword body_newPassword w = (Thrown e, w') ->
     w' = w)
  /\ (forall d : Jwt.Claims,
        user ctx = Some d ->
        (List.find (fun x => String.eqb (_id x) (Jwt.userId d)) (users w) = None ->
         changePassword E ctx body_currentPassword body_newPassword w
           = (Thrown (AppErr USER_NOT_FOUND), w))
        /\ (forall u : IUser,
              List.find (fun x => String.eqb (_id x) (Jwt.userId d)) (users w)
                = Some u ->
              comparePassword body_currentPassword u = false ->
              changePassword E ctx body_currentPassword body_newPassword w
                = (Thrown (AppErr INVALID_PASSWORD), w)))
  /\ statusCode INVALID_PASSWORD = 401
  /\ statusCode USER_NOT_FOUND = 404.
Proof.
  assert (Hnone : forall d, user ctx = Some d ->
            List.find (fun x => String.eqb (_id x) (Jwt.userId d)) (users w) = None ->
            changePassword E ctx body_currentPassword body_newPassword w
              = (Thrown (AppErr USER_NOT_FOUND), w)).
  { intros d Hu Hf. unfold changePassword. rewrite Hu.
    unfold User_findById, User_findOne, bind at 1. cbv beta. by rewrite Hf. }
  split; [|split; [|done]].
  - intros e w'.
    destruct (user ctx) as [d|] eqn:Hu.
    2:{ unfold changePassword. rewrite Hu. unfold throw. by intros [= _ <-]. }
    destruct (List.find (fun x => String.eqb (_id x) (Jwt.userId d)) (users w))
      as [u|] eqn:Hf.
    2:{ rewrite (Hnone d eq_refl Hf). by intros [= _ <-]. }
    rewrite (changePassword_found E ctx _ _ w d u Hu Hf).
    destruct (comparePassword body_currentPassword u); simpl;
      [|by intros [= _ <-]].
    unfold bind, save. case_bool_decide; [discriminate|].
    destruct (validation_error _ _); [unfold throw; by intros [= _ <-]|].
    discriminate.
  - intros d Hu. split; [by apply Hnone|].
    intros u Hf Hc. rewrite (changePassword_found E ctx _ _ w d u Hu Hf).
    by rewrite Hc.
Qed.

Lemma changePassword_failure_atomic_witness :
  changePassword (P := Reference.platform) (Scenario.at_time 6000)
    (with_user Scenario.alice_access_claims Scenario.as_alice)
    "not-my-password" "newsecret456" Scenario.store
  = (Thrown (AppErr INVALID_PASSWORD), Scenario.store).
Proof.
  apply (changePassword_failure_atomic (P := Reference.platform)
           (Scenario.at_time 6000)
           (with_user Scenario.alice_access_claims Scenario.as_alice)
           "not-my-password" "newsecret456" Scenario.store)
    with (d := Scenario.alice_access_claims) (u := Scenario.alice);
    [reflexivity|reflexivity|vm_compute; reflexivity].
Defined.

(** [save] of a password the handler assigned: the stored hash assigned
    again is no modification, anything else of six characters or more is
    hashed and stored. *)
Lemma save_password `{P : Platform} (E : Env) (new : string) (u : IUser) (w : World) :
  (6 <= String_length new)%nat ->
  exists (doc : IUser) (w1 : World),
    save E u (with_password new u) w = (Returned doc, w1)
    /\ redis w1 = redis w
    /\ (w1 = w /\ doc = u
        \/ users w1 = store_replace doc (users w) /\ _id doc = _id u
           /\ email doc = email u)
    /\ isActive doc = isActive u
    /\ password doc = (if bool_decide (new = password u) then password u
                       else bcrypt_hash new (genSalt E)).
Proof.
  intros Hlen. case_bool_decide as Hsame.
  - subst new. exists u, w. unfold save.
    rewrite bool_decide_eq_true_2 by (by destruct u).
    split; [by destruct u|]. split; [done|]. split; [by left|]. done.
  - rewrite (save_new_password E new u w Hsame Hlen).
    eexists _, _. split; [reflexivity|]. split; [done|].
    split; [right; by split|]. done.
Qed.

(** X12.  After a successful [changePassword] (the current password
    verifies, the new one has six characters or more) [login] for that
    account goes by the password now stored: a candidate that does not
    verify against it is refused with INVALID_CREDENTIALS; one that
    verifies gets 200 on an active account and ACCOUNT_DEACTIVATED on a
    deactivated one, since [changePassword] does not look at [isActive].
    The stored password is the hash of the new one, except that a new
    password equal, character for character, to the stored hash is no
    modification for mongoose and leaves the stored value as it is.  The
    cache is unchanged, so tokens issued before stay valid. *)
Theorem changePassword_then_login `{P : Platform} (cfg : Config) (E E' : Env)
    (ctx : Context) (body_currentPassword body_newPassword body_email : string)
    (w : World) (d : Jwt.Claims) (u : IUser) :
  user ctx = Some d ->
  List.find (fun x => String.eqb (_id x) (Jwt.userId d)) (users w) = Some u ->
  List.find (by_email body_email) (users w) = Some u ->
  comparePassword body_currentPassword u = true ->
  (6 <= String_length body_newPassword)%nat ->
  exists (r : Response) (w1 : World) (doc : IUser),
    changePassword E ctx body_currentPassword body_newPassword w = (Returned r, w1)
    /\ status r = 200
    /\ redis w1 = redis w
    /\ List.find (by_email body_email) (users w1) = Some doc
    /\ isActive doc = isActive u
    /\ password doc = (if bool_decide (body_newPassword = password u)
                       then password u
                       else bcrypt_hash body_newPassword (genSalt E))
    /\ (forall candidate : string,
          (bcrypt_compare candidate (password doc) = false ->
           login cfg E' body_email candidate w1
             = (Thrown (AppErr INVALID_CREDENTIALS), w1))
          /\ (bcrypt_compare candidate (password doc) = true ->
              isActive u = false ->
              login cfg E' body_email candidate w1
                = (Thrown (AppErr ACCOUNT_DEACTIVATED), w1))
          /\ (bcrypt_compare candidate (password doc) = true ->
              isActive u = true ->
              exists r2 w2,
                login cfg E' body_email candidate w1 = (Returned r2, w2)
                /\ status r2 = 200)).
Proof.
  intros Hu Hf Hfe Hc Hlen.
  rewrite (changePassword_found E ctx _ _ w d u Hu Hf), Hc. simpl.
  destruct (save_password E body_newPassword u w Hlen)
    as (doc & w1 & Hs & Hredis & Hw1 & Hact & Hpw).
  unfold bind. rewrite Hs. unfold ret.
  assert (Hfind : List.find (by_email body_email) (users w1) = Some doc).
  { destruct Hw1 as [[-> ->]|(-> & Hid & Hem)]; [done|].
    apply (find_store_replace _ doc u); try done.
    - destruct (find_by_id_Some _ _ _ Hf) as [Hid' _]. by rewrite Hid, Hid'.
    - apply List.find_some in Hfe as [_ Hfe]. unfold by_email in *.
      by rewrite Hem. }
  eexists _, w1, doc. split; [reflexivity|]. split; [done|]. split; [done|].
  split; [done|]. split; [done|]. split; [done|].
  intros candidate. split; [|split].
  - intros Hno. unfold login, User_findOne, bind at 1. cbv beta.
    rewrite Hfind. unfold comparePassword. by rewrite Hno.
  - intros Hyes Hoff. unfold login, User_findOne, bind at 1. cbv beta.
    rewrite Hfind. unfold comparePassword. by rewrite Hyes, Hact, Hoff.
  - intros Hyes Hon.
    apply (login_success cfg E' body_email candidate doc); try done.
    by rewrite Hact.
Qed.

(** Alice changes her password at 6 s and logs in with the new one. *)
Lemma changePassword_then_login_witness :
  exists (r : Response) (w1 : World),
    changePassword (P := Reference.platform) (Scenario.at_time 6000)
      (with_user Scenario.alice_access_claims Scenario.as_alice)
      "secret123" "newsecret456" Scenario.store = (Returned r, w1)
    /\ (exists r2 w2,
          login (P := Reference.platform) Scenario.cfg (Scenario.at_time 7000)
            "Alice@Example.com" "newsecret456" w1 = (Returned r2, w2)
          /\ status r2 = 200)
    /\ login (P := Reference.platform) Scenario.cfg (Scenario.at_time 7000)
         "Alice@Example.com" "secret123" w1
       = (Thrown (AppErr INVALID_CREDENTIALS), w1).
Proof.
  destruct (changePassword_then_login (P := Reference.platform) Scenario.cfg
              (Scenario.at_time 6000) (Scenario.at_time 7000)
              (with_user Scenario.alice_access_claims Scenario.as_alice)
              "secret123" "newsecret456" "Alice@Example.com" Scenario.store
              Scenario.alice_access_claims Scenario.alice)
    as (r & w1 & doc & Hrun & _ & _ & _ & _ & Hpw & Hlogin);
    [reflexivity|reflexivity|reflexivity|vm_compute; reflexivity|vm_compute; lia|].
  exists r, w1. split; [exact Hrun|].
  destruct (Hlogin "newsecret456") as (_ & _ & Hnew).
  destruct (Hlogin "secret123") as (Hold & _ & _).
  split.
  - apply Hnew; [rewrite Hpw; vm_compute; reflexivity|reflexivity].
  - apply Hold. rewrite Hpw. vm_compute; reflexivity.
Defined.

(* ===================================================================== *)
(** ** Email verification *)
(* ===================================================================== *)

(** X13.  [verifyEmail] answers INVALID_TOKEN (400) and changes nothing
    when no user holds the token.  Otherwise it marks the first holder
    verified and clears the holder's token, touching nothing else but
    [updatedAt]; and when that holder was the only one (in a store with
    distinct identifiers) the same link never works again. *)
Theorem verifyEmail_effect `{P : Platform} (E : Env) (params_token : string)
    (w : World) :
  ((forall u, u ∈ users w -> emailVerificationToken u <> Some params_token) ->
   verifyEmail E params_token w = (Thrown (AppErr INVALID_VERIFICATION_TOKEN), w))
  /\ statusCode INVALID_VERIFICATION_TOKEN = 400
  /\ (forall u : IUser,
        List.find (fun x => bool_decide (emailVerificationToken x = Some params_token))
          (users w) = Some u ->
        let doc := with_updatedAt (Date_now E)
                     (with_emailVerificationToken None
                        (with_isEmailVerified true u)) in
        let w1 := {| users := store_replace doc (users w); redis := redis w |} in
        (exists r, verifyEmail E params_token w = (Returned r, w1) /\ status r = 200)
        /\ (List.NoDup (List.map _id (users w)) ->
            (forall v, v ∈ users w ->
                       emailVerificationToken v = Some params_token -> v = u) ->
            forall E2 : Env,
              verifyEmail E2 params_token w1
                = (Thrown (AppErr INVALID_VERIFICATION_TOKEN), w1))).
Proof.
  assert (Hmiss : forall w0 : World,
            List.find (fun x => bool_decide (emailVerificationToken x = Some params_token))
              (users w0) = None ->
            forall E0, verifyEmail E0 params_token w0
                       = (Thrown (AppErr INVALID_VERIFICATION_TOKEN), w0)).
  { intros w0 Hf E0. unfold verifyEmail, User_findOne, bind at 1. cbv beta.
    by rewrite Hf. }
  split; [|split; [done|]].
  - intros Hnone. apply Hmiss. apply find_None_iff. intros u Hu.
    apply bool_decide_eq_false_2. by apply Hnone.
  - intros u Hf doc w1. pose proof Hf as Hf'.
    apply List.find_some in Hf' as [_ Hholds].
    apply bool_decide_eq_true in Hholds.
    split.
    + unfold verifyEmail, User_findOne, bind at 1. cbv beta. rewrite Hf.
      unfold bind.
      rewrite (save_plain E u
                 (with_emailVerificationToken None (with_isEmailVerified true u)) w)
        by done.
      rewrite bool_decide_eq_false_2.
      2:{ intros Heq. apply (f_equal emailVerificationToken) in Heq.
          simpl in Heq. congruence. }
      unfold ret. eexists. split; reflexivity.
    + intros Hnd Huniq E2. apply Hmiss. apply find_None_iff. intros v Hv.
      apply bool_decide_eq_false_2. intros Hvt.
      destruct (store_replace_NoDup doc v (users w) Hnd Hv) as [->|[Hin Hne]].
      * discriminate Hvt.
      * rewrite (Huniq v Hin Hvt) in Hne. by destruct Hne.
Qed.

(** Alice follows her verification link twice. *)
Lemma verifyEmail_effect_witness :
  (exists r, verifyEmail (P := Reference.platform) (Scenario.at_time 6000) "evt1"
               Scenario.store
             = (Returned r,
                {| users := [with_updatedAt 6000
                               (with_emailVerificationToken None
                                  (with_isEmailVerified true Scenario.alice));
                             Scenario.bob];
                   redis := ∅ |})
             /\ status r = 200)
  /\ verifyEmail (P := Reference.platform) (Scenario.at_time 7000) "evt1"
       {| users := [with_updatedAt 6000
                      (with_emailVerificationToken None
                         (with_isEmailVerified true Scenario.alice));
                    Scenario.bob];
          redis := ∅ |}
     = (Thrown (AppErr INVALID_VERIFICATION_TOKEN),
        {| users := [with_updatedAt 6000
                       (with_emailVerificationToken None
                          (with_isEmailVerified true Scenario.alice));
                     Scenario.bob];
           redis := ∅ |}).
Proof.
  destruct (verifyEmail_effect (P := Reference.platform) (Scenario.at_time 6000)
              "evt1" Scenario.store) as (_ & _ & H).
  destruct (H Scenario.alice eq_refl) as [Hrun Hagain].
  split; [exact Hrun|].
  apply Hagain.
  - vm_compute. repeat constructor; simpl; intuition discriminate.
  - intros v Hv Ht.
    apply elem_of_cons in Hv as [->|Hv]; [done|].
    apply elem_of_cons in Hv as [->|Hv]; [discriminate Ht|].
    by apply elem_of_nil in Hv.
Defined.

(* ===================================================================== *)
(** ** Administration *)
(* ===================================================================== *)

Lemma User_findById_cast_found `{P : Platform} (id : string) (w : World) (u : IUser) :
  List.find (fun x => String.eqb (_id x) id) (users w) = Some u ->
  User_findById_cast id w = (Returned (Some u), w).
Proof. intros Hf. unfold User_findById_cast. by rewrite Hf. Qed.

(** In a store whose identifiers are hex forms of ObjectIds, the lookup is
    mongoose's: cast the string, then match the ObjectId. *)
Lemma User_findById_cast_spec `{P : Platform} (id : string) (w : World) :
  stored_ids_cast w ->
  User_findById_cast id w
  = match castObjectId id with
    | Some oid => User_findById oid w
    | None => (Thrown CAST_ERROR, w)
    end.
Proof.
  intros Hwf. unfold User_findById_cast.
  destruct (List.find (fun x => String.eqb (_id x) id) (users w)) as [u|] eqn:Hf;
    [|done].
  pose proof Hf as Hf'. apply List.find_some in Hf' as [Hin Hid].
  apply String.eqb_eq in Hid. apply list_elem_of_In in Hin.
  rewrite <- Hid, (Hwf u Hin). unfold User_findById, User_findOne.
  by rewrite Hid, Hf.
Qed.

Lemma updateUserStatus_found `{P : Platform} (E : Env) (params_id : string)
    (body_isActive : bool) (w : World) (u : IUser) :
  List.find (fun x => String.eqb (_id x) params_id) (users w) = Some u ->
  with_isActive body_isActive u <> u ->
  let doc := with_updatedAt (Date_now E) (with_isActive body_isActive u) in
  updateUserStatus E params_id body_isActive w =
    (Returned {| status := 200;
                 body := JObj [("success", JBool true);
                               ("message", JStr "User status updated successfully");
                               ("data", JObj [("user", toJSON doc)])] |},
     {| users := store_replace doc (users w); redis := redis w |}).
Proof.
  intros Hf Hne doc. unfold updateUserStatus, bind at 1.
  rewrite (User_findById_cast_found _ _ _ Hf). unfold bind.
  rewrite (save_plain E u (with_isActive body_isActive u) w) by done.
  by rewrite bool_decide_eq_false_2.
Qed.

(** X14.  An administrator can undo [deleteAccount]: after
    [updateUserStatus(id, true)] the stored record is the one from before
    the deletion with a new [updatedAt], and the account logs in again. *)
Theorem reactivation_restores `{P : Platform} (cfg : Config) (E1 E2 E3 : Env)
    (ctx : Context) (body_email body_password : string) (w : World)
    (d : Jwt.Claims) (u : IUser) :
  user ctx = Some d ->
  List.find (fun x => String.eqb (_id x) (Jwt.userId d)) (users w) = Some u ->
  List.find (by_email body_email) (users w) = Some u ->
  isActive u = true ->
  comparePassword body_password u = true ->
  let w1 := snd (deleteAccount E1 ctx w) in
  let w2 := snd (updateUserStatus E2 (Jwt.userId d) true w1) in
  List.find (fun x => String.eqb (_id x) (Jwt.userId d)) (users w2)
    = Some (with_updatedAt (Date_now E2) u)
  /\ (exists err, login cfg E3 body_email body_password w1
                  = (Thrown (AppErr err), w1))
  /\ (exists r w3, login cfg E3 body_email body_password w2 = (Returned r, w3)
                   /\ status r = 200).
Proof.
  intros Hu Hf Hfe Hact Hc w1 w2.
  destruct (deleteAccount_world E1 ctx w d u Hu Hf) as (r1 & Hrun1 & _).
  assert (Hw1 : w1 = {| users := store_replace (deactivated E1 u) (users w);
                        redis := redis w |}).
  { unfold w1. rewrite Hrun1. simpl snd. rewrite bool_decide_eq_false_2; [done|].
    intros Heq. apply (f_equal isActive) in Heq. simpl in Heq. congruence. }
  assert (Hd1 : deactivated E1 u = with_updatedAt (Date_now E1) (with_isActive false u)).
  { unfold deactivated. rewrite bool_decide_eq_false_2; [done|].
    intros Heq. apply (f_equal isActive) in Heq. simpl in Heq. congruence. }
  destruct (find_by_id_Some _ _ _ Hf) as [Hid _].
  assert (Hf1 : List.find (fun x => String.eqb (_id x) (Jwt.userId d)) (users w1)
                = Some (deactivated E1 u)).
  { rewrite Hw1. cbn [users]. apply (find_store_replace _ _ u); try done.
    - rewrite Hd1. simpl. by rewrite Hid.
    - rewrite Hd1. simpl. rewrite Hid. apply String.eqb_refl. }
  assert (Hfe1 : List.find (by_email body_email) (users w1) = Some (deactivated E1 u)).
  { rewrite Hw1. cbn [users]. apply (find_store_replace _ _ u); try done.
    - rewrite Hd1. simpl. by rewrite Hid.
    - rewrite Hd1. apply List.find_some in Hfe as [_ Hfe]. exact Hfe. }
  assert (Hdoc : with_updatedAt (Date_now E2) (with_isActive true (deactivated E1 u))
                 = with_updatedAt (Date_now E2) u).
  { rewrite Hd1. destruct u; simpl in *. by rewrite Hact. }
  assert (Hw2 : w2 = {| users := store_replace (with_updatedAt (Date_now E2) u) (users w1);
                        redis := redis w1 |}).
  { unfold w2. rewrite (updateUserStatus_found E2 _ true w1 _ Hf1).
    - cbv zeta. simpl snd. by rewrite Hdoc.
    - rewrite Hd1. intros Heq. apply (f_equal isActive) in Heq. discriminate. }
  split; [|split].
  2:{ destruct (login_inactive cfg E3 body_email body_password _ w1 Hfe1)
        as (err & Hrun & _); [by rewrite Hd1|]. by exists err. }
  - rewrite Hw2. cbn [users]. apply (find_store_replace _ _ (deactivated E1 u));
      try done.
    + simpl. by rewrite Hid.
    + simpl. rewrite Hid. apply String.eqb_refl.
  - apply (login_success cfg E3 body_email body_password (with_updatedAt (Date_now E2) u));
      try done.
    rewrite Hw2. cbn [users]. apply (find_store_replace _ _ (deactivated E1 u));
      try done.
    + simpl. by rewrite Hid.
    + apply List.find_some in Hfe as [_ Hfe]. exact Hfe.
Qed.

Lemma reactivation_restores_witness :
  exists r w3,
    login (P := Reference.platform) Scenario.cfg (Scenario.at_time 8000)
      "alice@example.com" "secret123"
      (snd (updateUserStatus (P := Reference.platform) (Scenario.at_time 7000)
              "64a1" true
              (snd (deleteAccount (P := Reference.platform) (Scenario.at_time 6000)
                      Scenario.as_alice Scenario.store))))
    = (Returned r, w3) /\ status r = 200.
Proof.
  apply (reactivation_restores (P := Reference.platform) Scenario.cfg
           (Scenario.at_time 6000) (Scenario.at_time 7000) (Scenario.at_time 8000)
           Scenario.as_alice "alice@example.com" "secret123" Scenario.store
           Scenario.alice_access_claims Scenario.alice);
    [vm_compute; reflexivity|reflexivity|reflexivity|reflexivity
    |vm_compute; reflexivity].
Defined.

Lemma store_remove_filter (id : string) (l : list IUser) :
  List.NoDup (List.map _id l) ->
  store_remove id l = List.filter (fun x => negb (String.eqb (_id x) id)) l.
Proof.
  induction l as [|y l IH]; simpl; intros Hnd; [done|].
  apply List.NoDup_cons_iff in Hnd as [Hy Hnd].
  destruct (String.eqb (_id y) id) eqn:Hyd; simpl.
  - apply String.eqb_eq in Hyd. subst id. clear IH.
    induction l as [|z l IH]; simpl; [done|].
    simpl in Hy. destruct (String.eqb (_id z) (_id y)) eqn:Hz; simpl.
    + apply String.eqb_eq in Hz. destruct Hy. by left.
    + f_equal. apply IH.
      * intros Hin. apply Hy. by right.
      * by apply List.NoDup_cons_iff in Hnd as [_ Hnd].
  - f_equal. by apply IH.
Qed.

(** X15.  [deleteUser], in a store whose identifiers are distinct hex
    forms of ObjectIds.  A path parameter that is no ObjectId makes
    [deleteUser] and [getUserById] throw CastError, with the store
    unchanged; one that casts to the ObjectId of no stored record is
    answered USER_NOT_FOUND (404), with the store unchanged; one that casts
    to the ObjectId of a stored record removes that record and nothing
    else (the other records remain, in their order), and afterwards the
    same parameter is answered USER_NOT_FOUND by [getUserById] and by a
    second [deleteUser]. *)
Theorem deleteUser_removes `{P : Platform} (params_id : string) (w : World) :
  stored_ids_cast w ->
  List.NoDup (List.map _id (users w)) ->
  (castObjectId params_id = None ->
   deleteUser params_id w = (Thrown CAST_ERROR, w)
   /\ getUserById params_id w = (Thrown CAST_ERROR, w))
  /\ (forall oid : string,
        castObjectId params_id = Some oid ->
        List.find (fun x => String.eqb (_id x) oid) (users w) = None ->
        deleteUser params_id w = (Thrown (AppErr USER_NOT_FOUND), w))
  /\ (forall (oid : string) (u : IUser),
        castObjectId params_id = Some oid ->
        List.find (fun x => String.eqb (_id x) oid) (users w) = Some u ->
        let w1 := {| users := List.filter
                                (fun x => negb (String.eqb (_id x) oid)) (users w);
                     redis := redis w |} in
        (exists r, deleteUser params_id w = (Returned r, w1) /\ status r = 200)
        /\ (forall x, x ∈ users w1 <-> x ∈ users w /\ _id x <> oid)
        /\ getUserById params_id w1 = (Thrown (AppErr USER_NOT_FOUND), w1)
        /\ deleteUser params_id w1 = (Thrown (AppErr USER_NOT_FOUND), w1)).
Proof.
  intros Hwf Hnd.
  split; [|split].
  - intros Hc. unfold deleteUser, getUserById, bind.
    rewrite (User_findById_cast_spec params_id w Hwf), Hc. done.
  - intros oid Hc Hf. unfold deleteUser, bind at 1.
    rewrite (User_findById_cast_spec params_id w Hwf), Hc.
    unfold User_findById, User_findOne. by rewrite Hf.
  - intros oid u Hc Hf w1.
    destruct (find_by_id_Some _ _ _ Hf) as [Hid _].
    assert (Hwf1 : stored_ids_cast w1).
    { intros x Hx. apply Hwf. apply list_elem_of_In in Hx.
      apply List.filter_In in Hx as [Hx _]. by apply list_elem_of_In. }
    assert (Hgone : List.find (fun x => String.eqb (_id x) oid) (users w1) = None).
    { apply find_None_iff. intros x Hx. apply list_elem_of_In in Hx.
      apply List.filter_In in Hx as [_ Hx]. by apply negb_true_iff in Hx. }
    split; [|split; [|split]].
    + unfold deleteUser, bind at 1.
      rewrite (User_findById_cast_spec params_id w Hwf), Hc.
      unfold User_findById, User_findOne. rewrite Hf. unfold bind, ret. rewrite Hid.
      rewrite (store_remove_filter oid (users w) Hnd).
      eexists. split; reflexivity.
    + intros x. unfold w1; simpl. rewrite !list_elem_of_In, List.filter_In.
      rewrite negb_true_iff, String.eqb_neq. done.
    + unfold getUserById, bind.
      rewrite (User_findById_cast_spec params_id w1 Hwf1), Hc.
      unfold User_findById, User_findOne. by rewrite Hgone.
    + unfold deleteUser, bind at 1.
      rewrite (User_findById_cast_spec params_id w1 Hwf1), Hc.
      unfold User_findById, User_findOne. by rewrite Hgone.
Qed.

(** An administrator deletes Bob, writing his identifier in capitals; the
    string ['nope'] is no ObjectId. *)
Lemma deleteUser_removes_witness :
  ((exists r, deleteUser (P := Reference.platform) "64B2" Scenario.store
              = (Returned r, {| users := [Scenario.alice]; redis := ∅ |})
              /\ status r = 200)
   /\ getUserById (P := Reference.platform) "64B2"
        {| users := [Scenario.alice]; redis := ∅ |}
      = (Thrown (AppErr USER_NOT_FOUND), {| users := [Scenario.alice]; redis := ∅ |}))
  /\ deleteUser (P := Reference.platform) "nope" Scenario.store
     = (Thrown CAST_ERROR, Scenario.store).
Proof.
  assert (Hwf : stored_ids_cast (P := Reference.platform) Scenario.store).
  { intros u Hu.
    apply elem_of_cons in Hu as [->|Hu]; [reflexivity|].
    apply elem_of_cons in Hu as [->|Hu]; [reflexivity|].
    by apply elem_of_nil in Hu. }
  assert (Hnd : List.NoDup (List.map _id (users Scenario.store))).
  { apply NoDup_ListNoDup, (bool_decide_unpack _). by vm_compute. }
  split.
  - destruct (deleteUser_removes (P := Reference.platform) "64B2" Scenario.store
                Hwf Hnd) as (_ & _ & H).
    destruct (H "64b2" Scenario.bob) as (Hrun & _ & Hget & _);
      [reflexivity|reflexivity|].
    split; [exact Hrun|exact Hget].
  - destruct (deleteUser_removes (P := Reference.platform) "nope" Scenario.store
                Hwf Hnd) as (H & _).
    by destruct H as [H _].
Defined.

(* ===================================================================== *)
(** ** Registration *)
(* ===================================================================== *)

Lemma find_app_None {A : Type} (f : A -> bool) (l : list A) (x : A) :
  List.find f l = None -> f x = true -> List.find f (l ++ [x])%list = Some x.
Proof.
  induction l as [|y l IH]; simpl; intros Hf Hx; [by rewrite Hx|].
  destruct (f y); [discriminate|]. by apply IH.
Qed.

(** The users [register] leaves, whatever it answers: the store as it was,
    or the store with one record appended whose identifier and email no
    stored record has. *)
Lemma register_users `{P : Platform} (cfg : Config) (E : Env) (new_id : string)
    (body_email body_password body_firstName body_lastName : string)
    (body_role : option string) (w w1 : World) (r : outcome Response) :
  register cfg E new_id body_email body_password body_firstName body_lastName
    body_role w = (r, w1) ->
  users w1 = users w
  \/ exists doc : IUser,
       users w1 = (users w ++ [doc])%list
       /\ _id doc = new_id
       /\ email doc = toLowerCase (trim body_email)
       /\ forall x, x ∈ users w -> _id x <> _id doc /\ email x <> email doc.
Proof.
  unfold register, User_findOne, bind, create_user, generateTokenPair,
    redis_setex, ret, throw.
  destruct (List.find _ _); [intros [= <- <-]; by left|].
  destruct (String.eqb (toLowerCase (trim body_email)) "");
    [intros [= <- <-]; by left|].
  destruct (Z.of_nat (String_length body_password) <? 6);
    [intros [= <- <-]; by left|].
  destruct (String.eqb (trim body_firstName) ""); [intros [= <- <-]; by left|].
  destruct (String.eqb (trim body_lastName) ""); [intros [= <- <-]; by left|].
  destruct (parse_role _) as [ro|]; [|intros [= <- <-]; by left].
  destruct (List.existsb _ (users w)) eqn:Hex; [intros [= <- <-]; by left|].
  intros [= <- <-]. right. eexists. split; [reflexivity|]. split; [reflexivity|].
  split; [reflexivity|].
  intros x Hx. simpl.
  assert (Hnot : (String.eqb (_id x) new_id
                  || String.eqb (email x) (toLowerCase (trim body_email))) = false).
  { destruct (_ || _) eqn:Hor; [|done].
    assert (List.existsb
              (fun x => String.eqb (_id x) new_id
                        || String.eqb (email x) (toLowerCase (trim body_email)))
              (users w) = true); [|congruence].
    apply List.existsb_exists. exists x. split; [by apply list_elem_of_In|done]. }
  apply orb_false_iff in Hnot as [H1 H2].
  by apply String.eqb_neq in H1, H2.
Qed.

(** X16.  [register] keeps the store well formed: it never alters or
    removes a stored record, and identifiers and emails that were
    pairwise distinct stay pairwise distinct, whatever the request and
    whatever the answer. *)
Theorem register_keeps_store_wellformed `{P : Platform} (cfg : Config) (E : Env)
    (new_id : string)
    (body_email body_password body_firstName body_lastName : string)
    (body_role : option string) (w : World) :
  let w1 := snd (register cfg E new_id body_email body_password body_firstName
                   body_lastName body_role w) in
  (exists tail, users w1 = (users w ++ tail)%list /\ (length tail <= 1)%nat)
  /\ (List.NoDup (List.map _id (users w)) -> List.NoDup (List.map _id (users w1)))
  /\ (List.NoDup (List.map email (users w)) -> List.NoDup (List.map email (users w1))).
Proof.
  intros w1.
  destruct (register_users cfg E new_id body_email body_password body_firstName
              body_lastName body_role w w1 _ (surjective_pairing _))
    as [Hsame|(doc & Happ & _ & _ & Hfresh)].
  - rewrite Hsame. split; [|done]. exists [].
    split; [by rewrite app_nil_r|simpl; lia].
  - rewrite Happ. split; [exists [doc]; split; [done|simpl; lia]|].
    assert (Hperm : forall (f : IUser -> string),
              (forall x : IUser, List.In x (users w) -> f x <> f doc) ->
              List.NoDup (List.map f (users w)) ->
              List.NoDup (List.map f (users w ++ [doc])%list)).
    { intros f Hf Hnd. rewrite List.map_app. simpl.
      apply NoDup_ListNoDup. apply NoDup_app. split; [by apply NoDup_ListNoDup|].
      split; [|apply NoDup_singleton].
      intros s Hs Hs'. apply list_elem_of_singleton in Hs'. subst s.
      apply list_elem_of_In, List.in_map_iff in Hs as (x & Hx & Hin).
      by apply (Hf x). }
    split; apply Hperm; intros x Hx; apply list_elem_of_In in Hx;
      by destruct (Hfresh x Hx).
Qed.

Lemma register_keeps_store_wellformed_witness :
  List.NoDup (List.map email
                (users (snd (register (P := Reference.platform) Scenario.cfg
                               (Scenario.at_time 5000) "64e5" "erin@example.com"
                               "erinpass1" "Erin" "Eve" None Scenario.store)))).
Proof.
  apply (register_keeps_store_wellformed (P := Reference.platform) Scenario.cfg
           (Scenario.at_time 5000) "64e5" "erin@example.com" "erinpass1" "Erin" "Eve"
           None Scenario.store).
  vm_compute. repeat constructor; simpl; intuition discriminate.
Defined.

(** [register] for a request the schema accepts, an address nobody holds
    and a fresh identifier. *)
Lemma register_success `{P : Platform} (cfg : Config) (E : Env) (new_id : string)
    (body_email body_password body_firstName body_lastName : string)
    (body_role : option string) (ro : Role) (w : World) :
  toLowerCase (trim body_email) <> "" ->
  (6 <= String_length body_password)%nat ->
  trim body_firstName <> "" -> trim body_lastName <> "" ->
  parse_role (requested_role body_role) = Some ro ->
  (forall x, x ∈ users w ->
             _id x <> new_id /\ email x <> toLowerCase (trim body_email)) ->
  let doc := registered E new_id body_email body_password body_firstName
               body_lastName ro in
  register cfg E new_id body_email body_password body_firstName body_lastName
    body_role w =
    (Returned
       {| status := 201;
          body := JObj [("success", JBool true);
                        ("message",
                         JStr "Registration successful. Please verify your email.");
                        ("data",
                         JObj [("user", toJSON doc);
                               ("tokens",
                                tokens_json
                                  {| TokenPair.accessToken := generateAccessToken cfg E doc;
                                     TokenPair.refreshToken :=
                                       generateRefreshToken cfg E doc |})])] |},
     {| users := (users w ++ [doc])%list;
        redis := <[TOKEN_PREFIX +:+ generateRefreshToken cfg E doc :=
                     {| value := new_id; set_at := Date_now E; ttl := 604800 |}]>
                   (redis w) |}).
Proof.
  intros Hem Hpw Hfn Hln Hrole Hfresh doc.
  assert (Hnone : List.find (by_email body_email) (users w) = None).
  { apply find_None_iff. intros x Hx. unfold by_email.
    apply String.eqb_neq. by destruct (Hfresh x Hx). }
  assert (Hex : List.existsb
                  (fun x => String.eqb (_id x) new_id
                            || String.eqb (email x) (toLowerCase (trim body_email)))
                  (users w) = false).
  { destruct (List.existsb _ _) eqn:Hex; [|done].
    apply List.existsb_exists in Hex as (x & Hx & Hor).
    apply list_elem_of_In in Hx. destruct (Hfresh x Hx) as [H1 H2].
    apply String.eqb_neq in H1, H2. rewrite H1, H2 in Hor. discriminate. }
  unfold register, User_findOne, bind at 1. cbv beta. rewrite Hnone.
  fold (requested_role body_role).
  unfold bind at 1. unfold create_user. rewrite Hrole.
  apply String.eqb_neq in Hem, Hfn, Hln. rewrite Hem, Hfn, Hln.
  replace (Z.of_nat (String_length body_password) <? 6) with false
    by (symmetry; apply Z.ltb_ge; lia).
  rewrite Hex. reflexivity.
Qed.

(** The record just registered is the one its address finds, however the
    address is written. *)
Lemma find_registered `{P : Platform} (E : Env) (new_id : string)
    (body_email body_password body_firstName body_lastName other_email : string)
    (ro : Role) (w : World) :
  (forall x, x ∈ users w ->
             _id x <> new_id /\ email x <> toLowerCase (trim body_email)) ->
  toLowerCase (trim other_email) = toLowerCase (trim body_email) ->
  List.find (by_email other_email)
    (users w ++ [registered E new_id body_email body_password body_firstName
                   body_lastName ro])%list
  = Some (registered E new_id body_email body_password body_firstName
            body_lastName ro).
Proof.
  intros Hfresh Hsame. apply find_app_None.
  - apply find_None_iff. intros x Hx. unfold by_email. rewrite Hsame.
    apply String.eqb_neq. by destruct (Hfresh x Hx).
  - unfold by_email, registered. cbn [email]. rewrite Hsame.
    apply String.eqb_refl.
Qed.

(** X17.  Registering the same address twice.  The first request, one the
    schema accepts (an address and names that are not empty once the
    setters have trimmed and lower-cased them, a password of six
    characters or more, a role of the enumeration) for an address and an
    identifier nobody holds, answers 201, stores the address as the setters
    leave it and the hash of the password, and registers the refresh token
    it returns.  Every later registration whose address the setters bring
    to the same string answers EMAIL_EXISTS (400) and changes nothing. *)
Theorem register_twice `{P : Platform} (cfg : Config) (E : Env) (new_id : string)
    (body_email body_password body_firstName body_lastName : string)
    (body_role : option string) (ro : Role) (w : World) :
  toLowerCase (trim body_email) <> "" ->
  (6 <= String_length body_password)%nat ->
  trim body_firstName <> "" -> trim body_lastName <> "" ->
  parse_role (requested_role body_role) = Some ro ->
  (forall x, x ∈ users w ->
             _id x <> new_id /\ email x <> toLowerCase (trim body_email)) ->
  exists (r : Response) (w1 : World) (doc : IUser),
    register cfg E new_id body_email body_password body_firstName body_lastName
      body_role w = (Returned r, w1)
    /\ status r = 201
    /\ users w1 = (users w ++ [doc])%list
    /\ email doc = toLowerCase (trim body_email)
    /\ role doc = ro /\ isActive doc = true
    /\ password doc = bcrypt_hash body_password (genSalt E)
    /\ store_get (Date_now E) (redis w1)
         (TOKEN_PREFIX +:+ generateRefreshToken cfg E doc) = Some new_id
    /\ (forall (E2 : Env) (id2 email2 pw2 fn2 ln2 : string) (role2 : option string),
          toLowerCase (trim email2) = toLowerCase (trim body_email) ->
          register cfg E2 id2 email2 pw2 fn2 ln2 role2 w1
            = (Thrown (AppErr EMAIL_EXISTS), w1))
    /\ statusCode EMAIL_EXISTS = 400.
Proof.
  intros Hem Hpw Hfn Hln Hrole Hfresh.
  rewrite (register_success cfg E new_id body_email body_password body_firstName
             body_lastName body_role ro w) by done.
  cbv zeta.
  set (doc := registered E new_id body_email body_password body_firstName
                body_lastName ro).
  eexists _, _, doc. split; [reflexivity|]. split; [done|]. split; [done|].
  split; [done|]. split; [done|]. split; [done|]. split; [done|].
  split.
  { cbn [redis]. rewrite store_get_insert_eq. unfold live. cbn [set_at ttl value].
    by destruct (Z.ltb_spec (Date_now E) (Date_now E + 604800 * 1000)); [|lia]. }
  split; [|done].
  intros E2 id2 email2 pw2 fn2 ln2 role2 Hsame.
  unfold register, User_findOne, bind at 1. cbv beta. cbn [users].
  unfold doc. by rewrite (find_registered E new_id body_email body_password
                            body_firstName body_lastName email2 ro w Hfresh Hsame).
Qed.

(** Erin registers with capitals and a trailing blank in her address; the
    second request writes the address in lower case. *)
Lemma register_twice_witness :
  exists (r : Response) (w1 : World),
    register (P := Reference.platform) Scenario.cfg (Scenario.at_time 5000) "64e5"
      "Erin@Example.com " "erinpass1" "Erin" "Eve" None Scenario.store
    = (Returned r, w1)
    /\ status r = 201
    /\ register (P := Reference.platform) Scenario.cfg (Scenario.at_time 6000) "64f6"
         "erin@example.com" "otherpass2" "Erin" "Again" (Some "vendor") w1
       = (Thrown (AppErr EMAIL_EXISTS), w1).
Proof.
  destruct (register_twice (P := Reference.platform) Scenario.cfg
              (Scenario.at_time 5000) "64e5" "Erin@Example.com " "erinpass1"
              "Erin" "Eve" None customer Scenario.store)
    as (r & w1 & doc & Hrun & Hst & _ & _ & _ & _ & _ & _ & Hdup & _);
    [discriminate|vm_compute; lia|discriminate|discriminate|reflexivity| |].
  - intros x Hx.
    apply elem_of_cons in Hx as [->|Hx]; [split; discriminate|].
    apply elem_of_cons in Hx as [->|Hx]; [split; discriminate|].
    by apply elem_of_nil in Hx.
  - exists r, w1. split; [exact Hrun|]. split; [exact Hst|].
    apply Hdup. reflexivity.
Defined.

(** X18.  Registration followed by login: after a registration the schema
    accepts, for an address and an identifier nobody holds, the password
    just registered logs in (200) with the address as it was typed or any
    other spelling the setters bring to the same string.  Stated for a hash
    function under which the password verifies against its own hash. *)
Theorem register_then_login `{P : Platform} (cfg : Config) (E E' : Env)
    (new_id : string)
    (body_email body_password body_firstName body_lastName login_email : string)
    (body_role : option string) (ro : Role) (w : World) :
  toLowerCase (trim body_email) <> "" ->
  (6 <= String_length body_password)%nat ->
  trim body_firstName <> "" -> trim body_lastName <> "" ->
  parse_role (requested_role body_role) = Some ro ->
  (forall x, x ∈ users w ->
             _id x <> new_id /\ email x <> toLowerCase (trim body_email)) ->
  bcrypt_compare body_password (bcrypt_hash body_password (genSalt E)) = true ->
  toLowerCase (trim login_email) = toLowerCase (trim body_email) ->
  let w1 := snd (register cfg E new_id body_email body_password body_firstName
                   body_lastName body_role w) in
  exists (r : Response) (w2 : World),
    login cfg E' login_email body_password w1 = (Returned r, w2) /\ status r = 200.
Proof.
  intros Hem Hpw Hfn Hln Hrole Hfresh Hlaw Hsame w1. unfold w1.
  rewrite (register_success cfg E new_id body_email body_password body_firstName
             body_lastName body_role ro w) by done.
  cbv zeta. simpl snd.
  apply (login_success cfg E' login_email body_password
           (registered E new_id body_email body_password body_firstName
              body_lastName ro)); try done.
  cbn [users]. by apply find_registered.
Qed.

Lemma register_then_login_witness :
  exists (r : Response) (w2 : World),
    login (P := Reference.platform) Scenario.cfg (Scenario.at_time 6000)
      "ERIN@example.com" "erinpass1"
      (snd (register (P := Reference.platform) Scenario.cfg (Scenario.at_time 5000)
              "64e5" "Erin@Example.com " "erinpass1" "Erin" "Eve" None
              Scenario.store))
    = (Returned r, w2) /\ status r = 200.
Proof.
  apply (register_then_login (P := Reference.platform) Scenario.cfg
           (Scenario.at_time 5000) (Scenario.at_time 6000) "64e5"
           "Erin@Example.com " "erinpass1" "Erin" "Eve" "ERIN@example.com"
           None customer Scenario.store);
    [discriminate|vm_compute; lia|discriminate|discriminate|reflexivity|
    |vm_compute; reflexivity|reflexivity].
  intros x Hx.
  apply elem_of_cons in Hx as [->|Hx]; [split; discriminate|].
  apply elem_of_cons in Hx as [->|Hx]; [split; discriminate|].
  by apply elem_of_nil in Hx.
Defined.

(* ===================================================================== *)
(** ** Identifiers and emails are never rewritten *)
(* ===================================================================== *)

Lemma save_keeps_identity `{P : Platform} (E : Env) (orig cur : IUser)
    (w w' : World) (r : outcome IUser) :
  List.NoDup (List.map _id (users w)) -> orig ∈ users w ->
  _id cur = _id orig -> email cur = email orig ->
  save E orig cur w = (r, w') ->
  List.map _id (users w') = List.map _id (users w)
  /\ List.map email (users w') = List.map email (users w).
Proof.
  intros Hnd Hin Hid Hem. unfold save.
  case_bool_decide; [unfold ret; by intros [= _ <-]|].
  destruct (validation_error orig cur); [unfold throw; by intros [= _ <-]|].
  intros [= _ <-]. cbn [users]. split.
  - apply store_replace_ids.
  - apply (store_replace_emails _ orig); try done.
    + unfold pre_save. by case_bool_decide.
    + unfold pre_save. by case_bool_decide.
Qed.

(** A handler that loads a document, edits paths other than [_id] and
    [email], saves it and goes on without touching the users. *)
Lemma found_save_identity `{P : Platform} (E : Env) (f : IUser -> bool)
    (u cur : IUser) {B : Type} (k : IUser -> M B) (w : World) :
  List.NoDup (List.map _id (users w)) ->
  List.find f (users w) = Some u ->
  _id cur = _id u -> email cur = email u ->
  (forall a w0, users (snd (k a w0)) = users w0) ->
  List.map _id (users (snd (bind (save E u cur) k w))) = List.map _id (users w)
  /\ List.map email (users (snd (bind (save E u cur) k w))) = List.map email (users w).
Proof.
  intros Hnd Hf Hid Hem Hk. apply List.find_some in Hf as [Hin _].
  apply list_elem_of_In in Hin. unfold bind.
  destruct (save E u cur w) as [[doc|e] w0] eqn:Hs;
    destruct (save_keeps_identity E u cur w w0 _ Hnd Hin Hid Hem Hs) as [H1 H2].
  - by rewrite Hk.
  - done.
Qed.

Lemma bind_keeps_users {A B : Type} (m : M A) (k : A -> M B) :
  (forall w, users (snd (m w)) = users w) ->
  (forall a w, users (snd (k a w)) = users w) ->
  forall w, users (snd (bind m k w)) = users w.
Proof.
  intros Hm Hk w. unfold bind. specialize (Hm w).
  destruct (m w) as [[a|e] w0]; simpl in *; [by rewrite Hk|done].
Qed.

Lemma try_catch_keeps_users {A : Type} (m : M A) (h : Exn -> M A) :
  (forall w, users (snd (m w)) = users w) ->
  (forall e w, users (snd (h e w)) = users w) ->
  forall w, users (snd (try_catch m h w)) = users w.
Proof.
  intros Hm Hh w. unfold try_catch. specialize (Hm w).
  destruct (m w) as [[a|e] w0]; simpl in *; [done|by rewrite Hh].
Qed.

(** Steps through a handler that only reads the users. *)
Ltac keeps_users :=
  repeat first
    [ progress intros
    | apply bind_keeps_users
    | apply try_catch_keeps_users
    | match goal with
      | |- users (snd ((match ?x with _ => _ end) _)) = _ => destruct x
      | |- users (snd ((if ?x then _ else _) _)) = _ => destruct x
      end
    | done
    | progress unfold verifyRefreshToken, validateRefreshToken, redis_get,
        User_findById, User_findOne, invalidateRefreshToken, redis_del,
        generateTokenPair, redis_setex, ret, throw ].

Lemma refreshToken_keeps_users `{P : Platform} (cfg : Config) (E : Env)
    (t : string) (w : World) :
  users (snd (refreshToken cfg E t w)) = users w.
Proof. revert w. unfold refreshToken. keeps_users. Qed.

(** Abstracts the final world, so that the handler occurs once in the goal. *)
Ltac focus_world :=
  match goal with
  | |- List.map _ (users ?x) = _ /\ _ =>
      pattern x;
      match goal with |- ?Q _ => let K := fresh "K" in set (K := Q) end
  end.

Ltac found_case K Hsame :=
  cbv beta;
  match goal with
  | |- context [List.find ?f ?l] =>
      let Hf := fresh "Hf" in
      destruct (List.find f l) eqn:Hf; [|subst K; cbv beta; by apply Hsame]
  end.

Ltac tail_users :=
  intros; unfold bind, generateTokenPair, redis_setex, ret, throw; by simpl.

(** X19.  No handler but [register] and [deleteUser] adds, removes or
    renames an account: in a store with distinct identifiers, the list of
    identifiers and the list of emails are the same after [login],
    [refreshToken], [logout], [forgotPassword], [resetPassword],
    [changePassword], [verifyEmail], [updateProfile], [deleteAccount] and
    [updateUserStatus] as before, whatever the request and whatever the
    answer. *)
Theorem handlers_keep_identity `{P : Platform} (cfg : Config) (E : Env)
    (ctx : Context) (s1 s2 : string) (o1 o2 : option string) (b : bool)
    (w w' : World) :
  List.NoDup (List.map _id (users w)) ->
  w' = snd (login cfg E s1 s2 w)
  \/ w' = snd (refreshToken cfg E s1 w)
  \/ w' = snd (logout E ctx o1 w)
  \/ w' = snd (forgotPassword cfg E s1 w)
  \/ w' = snd (resetPassword E s1 s2 w)
  \/ w' = snd (changePassword E ctx s1 s2 w)
  \/ w' = snd (verifyEmail E s1 w)
  \/ w' = snd (updateProfile E ctx o1 o2 w)
  \/ w' = snd (deleteAccount E ctx w)
  \/ w' = snd (updateUserStatus E s1 b w) ->
  List.map _id (users w') = List.map _id (users w)
  /\ List.map email (users w') = List.map email (users w).
Proof.
  intros Hnd Hw'.
  assert (Hsame : forall w0 : World, users w0 = users w ->
            List.map _id (users w0) = List.map _id (users w)
            /\ List.map email (users w0) = List.map email (users w))
    by (by intros w0 ->).
  destruct Hw' as [->|[->|[->|[->|[->|[->|[->|[->|[->| ->]]]]]]]]].
  - (* login *)
    focus_world. unfold login, User_findOne, bind at 1. found_case K Hsame.
    destruct (negb (comparePassword s2 i)); [subst K; by apply Hsame|].
    destruct (negb (isActive i)); [subst K; by apply Hsame|].
    subst K. apply (found_save_identity E (by_email s1) i);
      [done|done|done|done|tail_users].
  - (* refreshToken *)
    apply Hsame, refreshToken_keeps_users.
  - (* logout *)
    apply Hsame. unfold logout.
    destruct (authorization ctx) as [h|]; [|done].
    unfold bind at 1.
    destruct (blacklistToken_returns E (nth 1 (split " " h) "") w) as (wb & -> & Hu).
    unfold bind, invalidateRefreshToken, redis_del, ret, throw.
    destruct o1 as [t|]; [destruct (truthy (Some t))|]; by destruct (user ctx).
  - (* forgotPassword *)
    focus_world. unfold forgotPassword, User_findOne, bind at 1. found_case K Hsame.
    unfold generatePasswordResetToken. subst K.
    apply (found_save_identity E (by_email s1) i);
      [done|done|done|done|tail_users].
  - (* resetPassword *)
    focus_world. unfold resetPassword, User_findOne, bind at 1. found_case K Hsame.
    subst K. apply (found_save_identity E (reset_filter E s1) i);
      [done|done|done|done|tail_users].
  - (* changePassword *)
    focus_world. unfold changePassword.
    destruct (user ctx) as [d|]; [|subst K; by apply Hsame].
    unfold User_findById, User_findOne, bind at 1. found_case K Hsame.
    destruct (negb (comparePassword s1 i)); [subst K; by apply Hsame|].
    subst K.
    apply (found_save_identity E (fun x => String.eqb (_id x) (Jwt.userId d)) i);
      [done|done|done|done|tail_users].
  - (* verifyEmail *)
    focus_world. unfold verifyEmail, User_findOne, bind at 1. found_case K Hsame.
    subst K.
    apply (found_save_identity E
                (fun x => bool_decide (emailVerificationToken x = Some s1)) i);
      [done|done|done|done|tail_users].
  - (* updateProfile *)
    destruct (user ctx) as [d|] eqn:Hd.
    2:{ apply Hsame. unfold updateProfile. by rewrite Hd. }
    destruct (List.find (fun x => String.eqb (_id x) (Jwt.userId d)) (users w))
      as [u|] eqn:Hf.
    2:{ apply Hsame. f_equal. apply updateProfile_rejected. right. eauto. }
    rewrite (updateProfile_found E ctx o1 o2 w d u Hd Hf).
    destruct (profile_edit_frame o1 o2 u 0) as [(Hid & Hem & _) _].
    apply (found_save_identity E (fun x => String.eqb (_id x) (Jwt.userId d)) u);
      [done|done|done|done|tail_users].
  - (* deleteAccount *)
    focus_world. unfold deleteAccount.
    destruct (user ctx) as [d|]; [|subst K; by apply Hsame].
    unfold User_findById, User_findOne, bind at 1. found_case K Hsame.
    subst K.
    apply (found_save_identity E (fun x => String.eqb (_id x) (Jwt.userId d)) i);
      [done|done|done|done|tail_users].
  - (* updateUserStatus *)
    focus_world. unfold updateUserStatus, User_findById_cast, bind at 1. cbv beta.
    destruct (List.find (fun x => String.eqb (_id x) s1) (users w)) as [u|] eqn:Hf.
    { subst K.
      apply (found_save_identity E (fun x => String.eqb (_id x) s1) u);
        [done|done|done|done|tail_users]. }
    destruct (castObjectId s1) as [oid|]; [|subst K; by apply Hsame].
    unfold User_findById, User_findOne.
    destruct (List.find (fun x => String.eqb (_id x) oid) (users w)) as [u|] eqn:Hf2;
      [|subst K; by apply Hsame].
    subst K.
    apply (found_save_identity E (fun x => String.eqb (_id x) oid) u);
      [done|done|done|done|tail_users].
Qed.

Lemma handlers_keep_identity_witness :
  List.map _id
    (users (snd (deleteAccount (P := Reference.platform) (Scenario.at_time 6000)
                   Scenario.as_alice Scenario.store)))
  = ["64a1"; "64b2"]
  /\ List.map email
       (users (snd (deleteAccount (P := Reference.platform) (Scenario.at_time 6000)
                      Scenario.as_alice Scenario.store)))
     = ["alice@example.com"; "bob@example.com"].
Proof.
  apply (handlers_keep_identity (P := Reference.platform) Scenario.cfg
           (Scenario.at_time 6000) Scenario.as_alice "" "" None None false
           Scenario.store).
  - apply NoDup_ListNoDup, (bool_decide_unpack _). by vm_compute.
  - do 8 right. left. reflexivity.
Defined.

(* ===================================================================== *)
(** ** The rate limiter *)
(* ===================================================================== *)

(** What the catch block makes of the outcome of [await next()]. *)
Lemma rateLimit_admits {A : Type} (cfg : Config) (E : Env) (link : RedisLink)
    (ip : string) (next : G A) (g g1 : Gateway) :
  config_env cfg <> "test" ->
  rateLimit_check E link (RATE_LIMIT_PREFIX +:+ ip) g = (Returned tt, g1) ->
  rateLimitMiddleware cfg E link ip next g
  = match next g1 with
    | (Thrown (AppErr a), g2) => (Thrown (AppErr a), g2)
    | (Thrown _, g2) => (Thrown NEXT_CALLED_TWICE, g2)
    | r => r
    end.
Proof.
  intros Ht Hc. unfold rateLimitMiddleware.
  destruct (String.eqb_spec (config_env cfg) "test") as [|_]; [done|].
  by rewrite Hc.
Qed.

(** The check for a client whose counter is live: the counter is bumped
    and keeps its expiry; over the limit the check throws. *)
Lemma rateLimit_check_counted (E : Env) (link : RedisLink) (key : string)
    (g : Gateway) (c : Counter) :
  incr_up link = true ->
  limits g !! key = Some c ->
  counter_live (Date_now E) c = true ->
  1 <= count c -> count c + 1 <= 2 ^ 63 - 1 ->
  rateLimit_check E link key g
  = if rateLimit_max <? count c + 1
    then (Thrown (AppErr RATE_LIMIT_EXCEEDED),
          {| limits := <[key := {| count := count c + 1;
                                   expires_at := expires_at c |}]> (limits g);
             headers := headers g; world := world g |})
    else (Returned tt,
          admitted key {| count := count c + 1; expires_at := expires_at c |} g).
Proof.
  intros Hup Hc Hl H1 Hov.
  unfold rateLimit_check, gbind at 1, redis_incr, INCR. cbv zeta beta.
  rewrite Hup, Hc, Hl.
  destruct (Z.ltb_spec (2 ^ 63 - 1) (count c + 1)) as [|_]; [lia|].
  destruct (Z.eqb_spec (count c + 1) 1) as [|_]; [lia|].
  unfold gbind at 1, gret. cbv beta iota.
  destruct (rateLimit_max <? count c + 1); [done|].
  unfold gbind, ctx_set, admitted. by cbn [limits headers world count].
Qed.

(** The check for the first request of a client, or the first after its
    counter has expired: the counter starts at 1 and expires a window
    later. *)
Lemma rateLimit_check_fresh (E : Env) (link : RedisLink) (key : string)
    (g : Gateway) :
  incr_up link = true -> expire_up link = true ->
  (forall c, limits g !! key = Some c -> counter_live (Date_now E) c = false) ->
  rateLimit_check E link key g
  = (Returned tt,
     admitted key {| count := 1;
                     expires_at := Some (Date_now E + rateLimit_window) |} g).
Proof.
  intros Hup Hex Hc.
  assert (Hincr : redis_incr E link key g
            = (Returned 1,
               {| limits := <[key := {| count := 1; expires_at := None |}]> (limits g);
                  headers := headers g; world := world g |})).
  { unfold redis_incr, INCR. rewrite Hup. cbv zeta.
    destruct (limits g !! key) as [c|] eqn:Hl; [|done].
    by rewrite (Hc c). }
  unfold rateLimit_check, gbind at 1. rewrite Hincr. cbv beta iota.
  change (1 =? 1) with true. cbv iota.
  unfold gbind at 1, redis_expire, EXPIRE. rewrite Hex. cbn [limits headers world].
  rewrite lookup_insert_eq. cbn [counter_live expires_at count].
  rewrite insert_insert_eq.
  change (rateLimit_max <? 1) with false. cbv iota.
  unfold gbind, ctx_set, admitted. cbn [limits headers world count].
  by change (rateLimit_window / 1000 * 1000) with rateLimit_window.
Qed.

(** A request of a client whose counter is live. *)
Lemma rateLimit_counted {A : Type} (cfg : Config) (E : Env) (link : RedisLink)
    (ip : string) (next : G A) (g : Gateway) (c : Counter) :
  config_env cfg <> "test" -> incr_up link = true ->
  limits g !! (RATE_LIMIT_PREFIX +:+ ip) = Some c ->
  counter_live (Date_now E) c = true ->
  1 <= count c -> count c + 1 <= 2 ^ 63 - 1 ->
  rateLimitMiddleware cfg E link ip next g
  = if rateLimit_max <? count c + 1
    then (Thrown (AppErr RATE_LIMIT_EXCEEDED),
          {| limits := <[RATE_LIMIT_PREFIX +:+ ip :=
                           {| count := count c + 1; expires_at := expires_at c |}]>
                         (limits g);
             headers := headers g; world := world g |})
    else match next (admitted (RATE_LIMIT_PREFIX +:+ ip)
                       {| count := count c + 1; expires_at := expires_at c |} g) with
         | (Thrown (AppErr a), g2) => (Thrown (AppErr a), g2)
         | (Thrown _, g2) => (Thrown NEXT_CALLED_TWICE, g2)
         | r => r
         end.
Proof.
  intros Ht Hup Hc Hl H1 Hov.
  pose proof (rateLimit_check_counted E link _ g c Hup Hc Hl H1 Hov) as Hk.
  destruct (rateLimit_max <? count c + 1).
  - unfold rateLimitMiddleware.
    destruct (String.eqb_spec (config_env cfg) "test") as [|_]; [done|].
    by rewrite Hk.
  - by apply rateLimit_admits.
Qed.

(** The first request of a client, or the first after its counter has
    expired. *)
Lemma rateLimit_fresh {A : Type} (cfg : Config) (E : Env) (link : RedisLink)
    (ip : string) (next : G A) (g : Gateway) :
  config_env cfg <> "test" -> incr_up link = true -> expire_up link = true ->
  (forall c, limits g !! (RATE_LIMIT_PREFIX +:+ ip) = Some c ->
             counter_live (Date_now E) c = false) ->
  rateLimitMiddleware cfg E link ip next g
  = match next (admitted (RATE_LIMIT_PREFIX +:+ ip)
                  {| count := 1;
                     expires_at := Some (Date_now E + rateLimit_window) |} g) with
    | (Thrown (AppErr a), g2) => (Thrown (AppErr a), g2)
    | (Thrown _, g2) => (Thrown NEXT_CALLED_TWICE, g2)
    | r => r
    end.
Proof.
  intros Ht Hup Hex Hc. apply rateLimit_admits; [done|].
  by apply rateLimit_check_fresh.
Qed.

(** [EXPIRE] fails on a first request: the handler runs all the same, and
    the counter is left without an expiry. *)
Lemma rateLimit_expire_down {A : Type} (cfg : Config) (E : Env) (link : RedisLink)
    (ip : string) (next : G A) (g : Gateway) :
  config_env cfg <> "test" -> incr_up link = true -> expire_up link = false ->
  (forall c, limits g !! (RATE_LIMIT_PREFIX +:+ ip) = Some c ->
             counter_live (Date_now E) c = false) ->
  rateLimitMiddleware cfg E link ip next g
  = next {| limits := <[RATE_LIMIT_PREFIX +:+ ip :=
                          {| count := 1; expires_at := None |}]> (limits g);
            headers := headers g; world := world g |}.
Proof.
  intros Ht Hup Hex Hc. unfold rateLimitMiddleware.
  destruct (String.eqb_spec (config_env cfg) "test") as [|_]; [done|].
  unfold rateLimit_check, gbind at 1, redis_incr, INCR. rewrite Hup. cbv zeta.
  assert (Hf : match limits g !! (RATE_LIMIT_PREFIX +:+ ip) with
               | Some c => counter_live (Date_now E) c = false
               | None => True
               end) by (destruct (limits g !! _) eqn:Hl; auto).
  destruct (limits g !! (RATE_LIMIT_PREFIX +:+ ip)) as [c|]; [rewrite Hf|];
    cbv beta iota; change (1 =? 1) with true; cbv iota;
    unfold gbind at 1, redis_expire; by rewrite Hex.
Qed.

Lemma lift_errorMiddleware_returns (cfg : Config) (m : M Response) (g : Gateway) :
  exists (r : Response) (g1 : Gateway),
    lift (errorMiddleware cfg m) g = (Returned r, g1) /\ limits g1 = limits g.
Proof.
  unfold lift, errorMiddleware, try_catch, ret.
  destruct (m (world g)) as [[r|e] w']; eauto.
Qed.

(** Requests of a client whose counter stays live: the one that finds the
    counter at [n] is served iff [n] is below the limit. *)
Lemma serve_counted {A : Type} (cfg : Config) (ip : string)
    (next : Env * RedisLink -> G A) (reqs : list (Env * RedisLink)) :
  config_env cfg <> "test" ->
  (forall q g0, exists a g1, next q g0 = (Returned a, g1) /\ limits g1 = limits g0) ->
  forall (g : Gateway) (c : Counter),
    limits g !! (RATE_LIMIT_PREFIX +:+ ip) = Some c ->
    1 <= count c -> count c + Z.of_nat (length reqs) <= 2 ^ 63 - 1 ->
    (forall q, q ∈ reqs ->
               incr_up q.2 = true /\ counter_live (Date_now q.1) c = true) ->
    forall k : nat, (k < length reqs)%nat ->
      exists r,
        serve (fun q => rateLimitMiddleware cfg q.1 q.2 ip (next q)) reqs g !! k
        = Some r
        /\ (count c + Z.of_nat k < rateLimit_max -> exists a, r = Returned a)
        /\ (rateLimit_max <= count c + Z.of_nat k ->
            r = Thrown (AppErr RATE_LIMIT_EXCEEDED)).
Proof.
  intros Ht Hnext. induction reqs as [|q rest IH]; intros g c Hc H1 Hov Hall k Hk.
  { simpl in Hk. lia. }
  destruct (Hall q) as [Hup Hlive]; [by left|].
  cbn [length] in Hov, Hk. cbn [serve].
  rewrite (rateLimit_counted cfg q.1 q.2 ip (next q) g c) by (done || lia).
  assert (Hrest : forall g' : Gateway,
            limits g' !! (RATE_LIMIT_PREFIX +:+ ip)
            = Some {| count := count c + 1; expires_at := expires_at c |} ->
            forall k' : nat, (k' < length rest)%nat ->
              exists r,
                serve (fun q => rateLimitMiddleware cfg q.1 q.2 ip (next q)) rest g'
                  !! k' = Some r
                /\ (count c + Z.of_nat (S k') < rateLimit_max -> exists a, r = Returned a)
                /\ (rateLimit_max <= count c + Z.of_nat (S k') ->
                    r = Thrown (AppErr RATE_LIMIT_EXCEEDED))).
  { intros g' Hg' k' Hk'.
    destruct (IH g' _ Hg') with (k := k') as (r & Hr & Hlo & Hhi);
      cbn [count]; [lia|lia| |done|].
    - intros q' Hq'. destruct (Hall q') as [? ?]; [by right|]. by split.
    - exists r. split; [done|]. cbn [count] in Hlo, Hhi.
      split; intros; [apply Hlo|apply Hhi]; lia. }
  destruct (Z.ltb_spec rateLimit_max (count c + 1)) as [Hover|Hunder].
  - destruct k as [|k'].
    + eexists. split; [reflexivity|]. split; [lia|done].
    + cbn [lookup list_lookup]. apply Hrest; [|lia].
      cbn [limits]. by rewrite lookup_insert_eq.
  - destruct (Hnext q (admitted (RATE_LIMIT_PREFIX +:+ ip)
                         {| count := count c + 1; expires_at := expires_at c |} g))
      as (a & g1 & Hn & Hlim).
    rewrite Hn. destruct k as [|k'].
    + eexists. split; [reflexivity|]. split; [eauto|lia].
    + cbn [lookup list_lookup]. apply Hrest; [|lia].
      rewrite Hlim. unfold admitted. cbn [limits]. by rewrite lookup_insert_eq.
Qed.

(** X20.  A client whose live counter has reached the limit is refused
    with RATE_LIMIT_EXCEEDED (429): the handler is not run, no header is set,
    the world is untouched; the refused request is still counted, and the
    expiry of the counter is not pushed back. *)
Theorem rateLimit_refuses_over_max {A : Type} (cfg : Config) (E : Env)
    (link : RedisLink) (ip : string) (next : G A) (g : Gateway) (c : Counter) :
  config_env cfg <> "test" -> incr_up link = true ->
  limits g !! (RATE_LIMIT_PREFIX +:+ ip) = Some c ->
  counter_live (Date_now E) c = true ->
  rateLimit_max <= count c -> count c + 1 <= 2 ^ 63 - 1 ->
  exists g' : Gateway,
    rateLimitMiddleware cfg E link ip next g
    = (Thrown (AppErr RATE_LIMIT_EXCEEDED), g')
    /\ world g' = world g /\ headers g' = headers g
    /\ limits g' = <[RATE_LIMIT_PREFIX +:+ ip :=
                       {| count := count c + 1; expires_at := expires_at c |}]>
                     (limits g)
    /\ statusCode RATE_LIMIT_EXCEEDED = 429.
Proof.
  intros Ht Hup Hc Hlive Hmax Hov.
  rewrite (rateLimit_counted cfg E link ip next g c)
    by (done || unfold rateLimit_max in Hmax; lia).
  destruct (Z.ltb_spec rateLimit_max (count c + 1)); [|lia].
  eexists. split; [reflexivity|]. by cbn.
Qed.

Lemma rateLimit_refuses_over_max_witness :
  exists g' : Gateway,
    rateLimitMiddleware Scenario.cfg (Scenario.at_time 6000) Scenario.link_up
      "10.0.0.7" (Scenario.profile_stack (Scenario.at_time 6000, Scenario.link_up))
      Scenario.gateway_spent
    = (Thrown (AppErr RATE_LIMIT_EXCEEDED), g')
    /\ world g' = Scenario.store /\ headers g' = ∅
    /\ limits g' = <[RATE_LIMIT_PREFIX +:+ "10.0.0.7" :=
                       {| count := 101; expires_at := Some 905000 |}]>
                     (limits Scenario.gateway_spent)
    /\ statusCode RATE_LIMIT_EXCEEDED = 429.
Proof.
  apply (rateLimit_refuses_over_max Scenario.cfg (Scenario.at_time 6000)
           Scenario.link_up "10.0.0.7"
           (Scenario.profile_stack (Scenario.at_time 6000, Scenario.link_up))
           Scenario.gateway_spent {| count := 100; expires_at := Some 905000 |});
    [discriminate|reflexivity|reflexivity|reflexivity|by vm_compute|by vm_compute].
Defined.

(** X21.  A window holds the limit and no more: of the requests a client
    sends within one window of its first (Redis reachable, handlers that
    answer and leave the counters alone, as every handler under
    [errorMiddleware] does), the first [rateLimit_max] are served and every
    later one is refused with RATE_LIMIT_EXCEEDED. *)
Theorem rateLimit_burst {A : Type} (cfg : Config) (ip : string)
    (next : Env * RedisLink -> G A) (q0 : Env * RedisLink)
    (rest : list (Env * RedisLink)) (g : Gateway) :
  config_env cfg <> "test" ->
  (forall q g0, exists a g1, next q g0 = (Returned a, g1) /\ limits g1 = limits g0) ->
  (forall c, limits g !! (RATE_LIMIT_PREFIX +:+ ip) = Some c ->
             counter_live (Date_now q0.1) c = false) ->
  incr_up q0.2 = true -> expire_up q0.2 = true ->
  (forall q, q ∈ rest ->
             incr_up q.2 = true /\ Date_now q.1 < Date_now q0.1 + rateLimit_window) ->
  Z.of_nat (length rest) < 2 ^ 63 - 1 ->
  forall k : nat, (k <= length rest)%nat ->
    exists r,
      serve (fun q => rateLimitMiddleware cfg q.1 q.2 ip (next q)) (q0 :: rest) g !! k
      = Some r
      /\ (Z.of_nat k < rateLimit_max -> exists a, r = Returned a)
      /\ (rateLimit_max <= Z.of_nat k -> r = Thrown (AppErr RATE_LIMIT_EXCEEDED)).
Proof.
  intros Ht Hnext Hfresh Hup Hex Hrest Hlen k Hk. cbn [serve].
  rewrite (rateLimit_fresh cfg q0.1 q0.2 ip (next q0) g) by done.
  destruct (Hnext q0 (admitted (RATE_LIMIT_PREFIX +:+ ip)
                        {| count := 1;
                           expires_at := Some (Date_now q0.1 + rateLimit_window) |} g))
    as (a & g1 & Hn & Hlim).
  rewrite Hn. destruct k as [|k'].
  - eexists. split; [reflexivity|]. split; [eauto|unfold rateLimit_max; lia].
  - cbn [lookup list_lookup].
    destruct (serve_counted cfg ip next rest Ht Hnext g1
                {| count := 1;
                   expires_at := Some (Date_now q0.1 + rateLimit_window) |})
      with (k := k') as (r & Hr & Hlo & Hhi); cbn [count]; [|lia|lia| |lia|].
    + rewrite Hlim. unfold admitted. cbn [limits]. by rewrite lookup_insert_eq.
    + intros q Hq. destruct (Hrest q Hq) as [? ?]. split; [done|].
      unfold counter_live. cbn [expires_at]. by apply Z.ltb_lt.
    + exists r. split; [done|]. cbn [count] in Hlo, Hhi.
      split; intros; [apply Hlo|apply Hhi]; lia.
Qed.

Lemma rateLimit_burst_witness :
  exists r,
    serve (fun q => rateLimitMiddleware Scenario.cfg q.1 q.2 "10.0.0.7"
                      (Scenario.profile_stack q))
      ((Scenario.at_time 5000, Scenario.link_up)
         :: replicate 120 (Scenario.at_time 6000, Scenario.link_up))
      Scenario.gateway !! 100%nat
    = Some r
    /\ (Z.of_nat 100 < rateLimit_max -> exists a, r = Returned a)
    /\ (rateLimit_max <= Z.of_nat 100 -> r = Thrown (AppErr RATE_LIMIT_EXCEEDED)).
Proof.
  apply (rateLimit_burst Scenario.cfg "10.0.0.7" Scenario.profile_stack
           (Scenario.at_time 5000, Scenario.link_up)
           (replicate 120 (Scenario.at_time 6000, Scenario.link_up))
           Scenario.gateway).
  - discriminate.
  - intros q g0. apply lift_errorMiddleware_returns.
  - intros c Hc. discriminate Hc.
  - reflexivity.
  - reflexivity.
  - intros q Hq. apply elem_of_replicate in Hq as [-> _]. split; [reflexivity|].
    by vm_compute.
  - by vm_compute.
  - rewrite length_replicate. lia.
Defined.

(** X22.  The window is fixed at the first request: once the expiry set
    then has passed, the next request of the client is served whatever the
    count had grown to, its counter starts again at 1 with a new window, and
    the handler sees [rateLimit_max - 1] requests remaining.  The outcome
    of the request is the handler's, but for an error of the handler that
    is no [AppError]: the catch block calls [next()] again and the request
    fails with the error of that second call. *)
Theorem rateLimit_window_restarts {A : Type} (cfg : Config) (E : Env)
    (link : RedisLink) (ip : string) (next : G A) (g g1 : Gateway) (c : Counter)
    (x : Z) (r : outcome A) :
  config_env cfg <> "test" -> incr_up link = true -> expire_up link = true ->
  limits g !! (RATE_LIMIT_PREFIX +:+ ip) = Some c ->
  expires_at c = Some x -> x <= Date_now E ->
  next (admitted (RATE_LIMIT_PREFIX +:+ ip)
          {| count := 1; expires_at := Some (Date_now E + rateLimit_window) |} g)
  = (r, g1) ->
  rateLimitMiddleware cfg E link ip next g
  = (match r with
     | Thrown (JsError _ _) | Thrown (JsErrorWith _ _ _ _) => Thrown NEXT_CALLED_TWICE
     | _ => r
     end, g1)
  /\ headers (admitted (RATE_LIMIT_PREFIX +:+ ip)
                {| count := 1; expires_at := Some (Date_now E + rateLimit_window) |} g)
       !! "X-RateLimit-Remaining" = Some (rateLimit_max - 1).
Proof.
  intros Ht Hup Hex Hc Hx Hlate Hn.
  split; [|unfold admitted; cbn [headers count]; by rewrite lookup_insert_eq].
  rewrite (rateLimit_fresh cfg E link ip next g); try done.
  - rewrite Hn. by destruct r as [a|[e|n m|n m sc details]].
  - intros c' Hc'. assert (c' = c) as -> by congruence.
    unfold counter_live. rewrite Hx. by apply Z.ltb_ge.
Qed.

Lemma rateLimit_window_restarts_witness :
  rateLimitMiddleware Scenario.cfg (Scenario.at_time 905000) Scenario.link_up
    "10.0.0.7" (Scenario.profile_stack (Scenario.at_time 905000, Scenario.link_up))
    Scenario.gateway_spent
  = Scenario.profile_stack (Scenario.at_time 905000, Scenario.link_up)
      (admitted (RATE_LIMIT_PREFIX +:+ "10.0.0.7")
         {| count := 1; expires_at := Some 1805000 |} Scenario.gateway_spent)
  /\ headers (admitted (RATE_LIMIT_PREFIX +:+ "10.0.0.7")
                {| count := 1; expires_at := Some 1805000 |} Scenario.gateway_spent)
       !! "X-RateLimit-Remaining" = Some 99.
Proof.
  destruct (lift_errorMiddleware_returns Scenario.cfg
              (authMiddleware (P := Reference.platform) Scenario.cfg
                 (Scenario.at_time 905000) Scenario.as_alice
                 (fun ctx' => getProfile ctx'))
              (admitted (RATE_LIMIT_PREFIX +:+ "10.0.0.7")
                 {| count := 1; expires_at := Some 1805000 |} Scenario.gateway_spent))
    as (r & g1 & Hn & _).
  change (lift _) with
    (Scenario.profile_stack (Scenario.at_time 905000, Scenario.link_up)) in Hn.
  rewrite Hn.
  apply (rateLimit_window_restarts Scenario.cfg (Scenario.at_time 905000)
           Scenario.link_up "10.0.0.7"
           (Scenario.profile_stack (Scenario.at_time 905000, Scenario.link_up))
           Scenario.gateway_spent g1 {| count := 100; expires_at := Some 905000 |}
           905000 (Returned r));
    [discriminate|reflexivity|reflexivity|reflexivity|reflexivity|by vm_compute
    |exact Hn].
Defined.

(** X23.  The error of a handler is lost below the rate limiter unless it
    is an [AppError].  For a request within the limit, when the handler
    throws anything else the catch block calls [next()] a second time,
    koa-compose refuses the call, and the request fails with ['next()
    called multiple times']: the handler has run once, and what it wrote
    stays.  An [AppError] of the handler passes unchanged. *)
Theorem rateLimit_masks_handler_error {A : Type} (cfg : Config) (E : Env)
    (link : RedisLink) (ip : string) (next : G A) (g g1 g2 : Gateway) (e : Exn) :
  config_env cfg <> "test" ->
  rateLimit_check E link (RATE_LIMIT_PREFIX +:+ ip) g = (Returned tt, g1) ->
  next g1 = (Thrown e, g2) ->
  rateLimitMiddleware cfg E link ip next g
  = (Thrown match e with
            | AppErr a => AppErr a
            | _ => NEXT_CALLED_TWICE
            end, g2).
Proof.
  intros Ht Hk Hn.
  rewrite (rateLimit_admits cfg E link ip next g g1 Ht Hk), Hn.
  by destruct e.
Qed.

(** The first request of a client reaches a handler that throws a plain
    [Error]. *)
Lemma rateLimit_masks_handler_error_witness :
  Scenario.broken_handler
    (admitted (RATE_LIMIT_PREFIX +:+ "10.0.0.7")
       {| count := 1; expires_at := Some 905000 |} Scenario.gateway)
  = (Thrown (JsError "Error" "Invalid or expired token"),
     admitted (RATE_LIMIT_PREFIX +:+ "10.0.0.7")
       {| count := 1; expires_at := Some 905000 |} Scenario.gateway)
  /\ rateLimitMiddleware Scenario.cfg (Scenario.at_time 5000) Scenario.link_up
       "10.0.0.7" Scenario.broken_handler Scenario.gateway
     = (Thrown NEXT_CALLED_TWICE,
        admitted (RATE_LIMIT_PREFIX +:+ "10.0.0.7")
          {| count := 1; expires_at := Some 905000 |} Scenario.gateway).
Proof.
  split; [vm_compute; reflexivity|].
  apply (rateLimit_masks_handler_error Scenario.cfg (Scenario.at_time 5000)
           Scenario.link_up "10.0.0.7" Scenario.broken_handler Scenario.gateway
           (admitted (RATE_LIMIT_PREFIX +:+ "10.0.0.7")
              {| count := 1; expires_at := Some 905000 |} Scenario.gateway)
           (admitted (RATE_LIMIT_PREFIX +:+ "10.0.0.7")
              {| count := 1; expires_at := Some 905000 |} Scenario.gateway)
           (JsError "Error" "Invalid or expired token"));
    [discriminate|vm_compute; reflexivity|vm_compute; reflexivity].
Defined.

(** X24.  If [EXPIRE] fails on the first request of a client, that request
    is served all the same and its counter is left without an expiry: from
    then on the client is served [rateLimit_max] requests in all, and every
    later one is refused, however long it waits. *)
Theorem rateLimit_expire_failure_is_permanent {A : Type} (cfg : Config)
    (ip : string) (next : Env * RedisLink -> G A) (q0 : Env * RedisLink)
    (rest : list (Env * RedisLink)) (g : Gateway) :
  config_env cfg <> "test" ->
  (forall q g0, exists a g1, next q g0 = (Returned a, g1) /\ limits g1 = limits g0) ->
  (forall c, limits g !! (RATE_LIMIT_PREFIX +:+ ip) = Some c ->
             counter_live (Date_now q0.1) c = false) ->
  incr_up q0.2 = true -> expire_up q0.2 = false ->
  (forall q, q ∈ rest -> incr_up q.2 = true) ->
  Z.of_nat (length rest) < 2 ^ 63 - 1 ->
  forall k : nat, (k <= length rest)%nat ->
    exists r,
      serve (fun q => rateLimitMiddleware cfg q.1 q.2 ip (next q)) (q0 :: rest) g !! k
      = Some r
      /\ (Z.of_nat k < rateLimit_max -> exists a, r = Returned a)
      /\ (rateLimit_max <= Z.of_nat k -> r = Thrown (AppErr RATE_LIMIT_EXCEEDED)).
Proof.
  intros Ht Hnext Hfresh Hup Hex Hrest Hlen k Hk. cbn [serve].
  rewrite (rateLimit_expire_down cfg q0.1 q0.2 ip (next q0) g) by done.
  destruct (Hnext q0 {| limits := <[RATE_LIMIT_PREFIX +:+ ip :=
                                      {| count := 1; expires_at := None |}]> (limits g);
                        headers := headers g; world := world g |})
    as (a & g1 & Hn & Hlim).
  rewrite Hn. destruct k as [|k'].
  - eexists. split; [reflexivity|]. split; [eauto|unfold rateLimit_max; lia].
  - cbn [lookup list_lookup].
    destruct (serve_counted cfg ip next rest Ht Hnext g1
                {| count := 1; expires_at := None |})
      with (k := k') as (r & Hr & Hlo & Hhi); cbn [count]; [|lia|lia| |lia|].
    + rewrite Hlim. cbn [limits]. by rewrite lookup_insert_eq.
    + intros q Hq. split; [by apply Hrest|done].
    + exists r. split; [done|]. cbn [count] in Hlo, Hhi.
      split; intros; [apply Hlo|apply Hhi]; lia.
Qed.

Lemma rateLimit_expire_failure_is_permanent_witness :
  exists r,
    serve (fun q => rateLimitMiddleware Scenario.cfg q.1 q.2 "10.0.0.7"
                      (Scenario.profile_stack q))
      ((Scenario.at_time 5000, Scenario.link_no_expire)
         :: replicate 120 (Scenario.at_time 31536000000, Scenario.link_up))
      Scenario.gateway !! 100%nat
    = Some r
    /\ (Z.of_nat 100 < rateLimit_max -> exists a, r = Returned a)
    /\ (rateLimit_max <= Z.of_nat 100 -> r = Thrown (AppErr RATE_LIMIT_EXCEEDED)).
Proof.
  apply (rateLimit_expire_failure_is_permanent Scenario.cfg "10.0.0.7"
           Scenario.profile_stack (Scenario.at_time 5000, Scenario.link_no_expire)
           (replicate 120 (Scenario.at_time 31536000000, Scenario.link_up))
           Scenario.gateway).
  - discriminate.
  - intros q g0. apply lift_errorMiddleware_returns.
  - intros c Hc. discriminate Hc.
  - reflexivity.
  - reflexivity.
  - intros q Hq. by apply elem_of_replicate in Hq as [-> _].
  - by vm_compute.
  - rewrite length_replicate. lia.
Defined.

Lemma rateLimit_incr_down {A : Type} (cfg : Config) (E : Env) (link : RedisLink)
    (ip : string) (next : G A) (g : Gateway) :
  incr_up link = false -> rateLimitMiddleware cfg E link ip next g = next g.
Proof.
  intros Hdown. unfold rateLimitMiddleware.
  destruct (String.eqb (config_env cfg) "test"); [done|].
  unfold rateLimit_check, gbind at 1, redis_incr. by rewrite Hdown.
Qed.

(** X25.  The rate limiter fails open: while [INCR] does not reach Redis,
    every request, in any number and whatever the counter says, gets exactly
    the outcome the handler alone gives it, exceptions included. *)
Theorem rateLimit_fails_open {A : Type} (cfg : Config) (ip : string)
    (next : Env * RedisLink -> G A) (reqs : list (Env * RedisLink)) (g : Gateway) :
  (forall q, q ∈ reqs -> incr_up q.2 = false) ->
  serve (fun q => rateLimitMiddleware cfg q.1 q.2 ip (next q)) reqs g
  = serve next reqs g.
Proof.
  revert g. induction reqs as [|q rest IH]; intros g Hdown; [done|].
  cbn [serve]. rewrite rateLimit_incr_down by (apply Hdown; by left).
  destruct (next q g) as [r g']. f_equal. apply IH.
  intros q' Hq'. apply Hdown. by right.
Qed.

Lemma rateLimit_fails_open_witness :
  serve (fun q => rateLimitMiddleware Scenario.cfg q.1 q.2 "10.0.0.7"
                    (Scenario.profile_stack q))
    (replicate 150 (Scenario.at_time 6000, Scenario.link_down))
    Scenario.gateway_spent
  = serve Scenario.profile_stack
      (replicate 150 (Scenario.at_time 6000, Scenario.link_down))
      Scenario.gateway_spent.
Proof.
  apply (rateLimit_fails_open Scenario.cfg "10.0.0.7" Scenario.profile_stack
           (replicate 150 (Scenario.at_time 6000, Scenario.link_down))
           Scenario.gateway_spent).
  intros q Hq. by apply elem_of_replicate in Hq as [-> _].
Defined.
